(** * Digimonitor: a shallow embedding of the scraping core

    The development follows the Python sources of Digimonitor:
    - [app/services/utils/detected.py]             (module [Detected]),
    - [app/services/selenium/platforms/youtube.py] (module [Youtube]),
    - [app/services/selenium/platforms/twitch.py]  (module [Twitch]),
    - [app/services/selenium/platforms/tiktok.py]  (module [Tiktok]).

    Python values are embedded as Rocq data, the browser is an oracle that
    answers every driver call, and Python exceptions are explicit results. *)

From Stdlib Require Import ZArith NArith Ascii String List Bool Lia.
From stdpp Require Import base option list gmap strings.
Import ListNotations.

Local Open Scope string_scope.
Local Open Scope list_scope.

(* ===================================================================== *)
(** * Python strings and the [re] module                                  *)
(* ===================================================================== *)

Module Re.

(** A Python [str] is a sequence of Unicode code points. *)
Definition char := N.
Definition str := list char.

(** Code points of a literal of the source text. *)
Fixpoint lit (s : string) : str :=
  match s with
  | EmptyString => []
  | String a s' => N_of_ascii a :: lit s'
  end.

(** The syntax of the patterns that the sources compile: literals, the
    classes [\w], [\d] and bracket sets, grouping, alternation [|], the
    option [?] and the repetition [+]. *)
Inductive regex : Type :=
| Empty                              (* matches nothing *)
| Eps                                (* the empty pattern *)
| Class (p : char -> bool)           (* one character of a class *)
| Cat (r1 r2 : regex)
| Alt (r1 r2 : regex)
| Star (r : regex).

Definition Chr (c : char) : regex := Class (N.eqb c).
Definition Opt (r : regex) : regex := Alt r Eps.
Definition Plus (r : regex) : regex := Cat r (Star r).

(** A literal run of the pattern text. *)
Fixpoint Lit (l : str) : regex :=
  match l with
  | [] => Eps
  | c :: l' => Cat (Chr c) (Lit l')
  end.

(** The words of a pattern. *)
Inductive Matches : regex -> str -> Prop :=
| MEps : Matches Eps []
| MClass p c : p c = true -> Matches (Class p) [c]
| MCat r1 r2 s1 s2 : Matches r1 s1 -> Matches r2 s2 -> Matches (Cat r1 r2) (s1 ++ s2)
| MAltL r1 r2 s : Matches r1 s -> Matches (Alt r1 r2) s
| MAltR r1 r2 s : Matches r2 s -> Matches (Alt r1 r2) s
| MStarNil r : Matches (Star r) []
| MStarCons r s1 s2 : Matches r s1 -> Matches (Star r) s2 -> Matches (Star r) (s1 ++ s2).

(** [pattern.match(s)] succeeds when some prefix of [s] is a word of the
    pattern: [match] anchors at the start of the string only. *)
Definition MatchesPrefix (r : regex) (s : str) : Prop :=
  exists p q, s = p ++ q /\ Matches r p.

Fixpoint nullable (r : regex) : bool :=
  match r with
  | Empty => false
  | Eps => true
  | Class _ => false
  | Cat r1 r2 => nullable r1 && nullable r2
  | Alt r1 r2 => nullable r1 || nullable r2
  | Star _ => true
  end.

Fixpoint deriv (c : char) (r : regex) : regex :=
  match r with
  | Empty => Empty
  | Eps => Empty
  | Class p => if p c then Eps else Empty
  | Cat r1 r2 =>
      if nullable r1 then Alt (Cat (deriv c r1) r2) (deriv c r2)
      else Cat (deriv c r1) r2
  | Alt r1 r2 => Alt (deriv c r1) (deriv c r2)
  | Star r1 => Cat (deriv c r1) (Star r1)
  end.

(** [re_match r s] is [r.match(s) is not None]. *)
Fixpoint re_match (r : regex) (s : str) : bool :=
  nullable r ||
  match s with
  | [] => false
  | c :: s' => re_match (deriv c r) s'
  end.

End Re.

(* ===================================================================== *)
(** * detected.py: the platform classifier                                *)
(* ===================================================================== *)

Module Detected.
Import Re.

Section Patterns.

(** The Unicode tables behind [\w] and [\d] for [str] patterns: the
    alphanumeric code points ([str.isalnum]) and the decimal digits
    ([str.isdecimal]).  They belong to the interpreter, not to the
    repository, and are taken as given. *)
Variable isalnum : char -> bool.
Variable isdecimal : char -> bool.

(** [\w]: an alphanumeric code point or the underscore. *)
Definition word (c : char) : bool := isalnum c || N.eqb c 95%N.

(** [[\w-]] and [[\w.]]. *)
Definition word_or_dash (c : char) : bool := word c || N.eqb c 45%N.
Definition word_or_dot (c : char) : bool := word c || N.eqb c 46%N.

(** [https?://(www\.)?], the head shared by the three patterns. *)
Definition scheme_www (body : regex) : regex :=
  Cat (Lit (lit "http")) (Cat (Opt (Chr 115%N))
    (Cat (Lit (lit "://")) (Cat (Opt (Lit (lit "www."))) body))).

(** [r'https?://(www\.)?(youtube\.com/watch\?v=|youtu\.be/)[\w-]+'] *)
Definition youtube_pattern : regex :=
  scheme_www
    (Cat (Alt (Lit (lit "youtube.com/watch?v=")) (Lit (lit "youtu.be/")))
         (Plus (Class word_or_dash))).

(** [r'https?://(www\.)?twitch\.tv/[\w-]+'] *)
Definition twitch_pattern : regex :=
  scheme_www (Cat (Lit (lit "twitch.tv/")) (Plus (Class word_or_dash))).

(** [r'https?://(www\.)?tiktok\.com/@[\w.]+/video/\d+'] *)
Definition tiktok_pattern : regex :=
  scheme_www
    (Cat (Lit (lit "tiktok.com/@"))
      (Cat (Plus (Class word_or_dot))
        (Cat (Lit (lit "/video/")) (Plus (Class isdecimal))))).

Definition DetectPlatform (url : str) : string :=
  if re_match youtube_pattern url then "youtube"
  else if re_match twitch_pattern url then "twitch"
  else if re_match tiktok_pattern url then "tiktok"
  else "INVALIDURL".

End Patterns.

(** The ASCII part of the two tables, enough to run the classifier on
    ASCII URLs. *)
Definition ascii_isdecimal (c : char) : bool := N.leb 48%N c && N.leb c 57%N.
Definition ascii_isalnum (c : char) : bool :=
  ascii_isdecimal c || (N.leb 65%N c && N.leb c 90%N) || (N.leb 97%N c && N.leb c 122%N).

End Detected.

(* ===================================================================== *)
(** * Python values, exceptions and effects                               *)
(* ===================================================================== *)

Module Py.

(** The values that flow through the scrapers. *)
#[warnings="-register-all"]
Inductive pyval : Type :=
| PyNone
| PyStr (s : string)
| PyInt (z : Z)
| PyList (l : list pyval).

(** Truth value testing: [None], [''], [0] and [[]] are false. *)
Definition truthy (v : pyval) : bool :=
  match v with
  | PyNone => false
  | PyStr s => negb (String.eqb s EmptyString)
  | PyInt z => negb (Z.eqb z 0)
  | PyList l => match l with [] => false | _ => true end
  end.

(** [a == b] *)
Fixpoint pyval_eqb (a b : pyval) : bool :=
  match a, b with
  | PyNone, PyNone => true
  | PyStr s, PyStr t => String.eqb s t
  | PyInt x, PyInt y => Z.eqb x y
  | PyList l, PyList m =>
      (fix all2 (l m : list pyval) : bool :=
         match l, m with
         | [], [] => true
         | x :: l', y :: m' => pyval_eqb x y && all2 l' m'
         | _, _ => false
         end) l m
  | _, _ => false
  end.

(** [a or b] and [a and b] return one of their operands. *)
Definition py_or (a b : pyval) : pyval := if truthy a then a else b.
Definition py_and (a b : pyval) : pyval := if truthy a then b else a.

(** The exceptions the scrapers can meet. [WebDriverException] stands for
    every Selenium error other than [NoSuchElementException]. *)
Inductive exn : Type :=
| NoSuchElementException
| WebDriverException
| KeyError (key : string)
| NameError (name : string)
| IndexError
| AttributeError
| TypeError
| ValueError
| OSError
| EOFError
| KeyboardInterrupt.

(** [except Exception] catches everything but [KeyboardInterrupt], which
    derives from [BaseException] only. *)
Definition is_Exception (e : exn) : bool :=
  match e with KeyboardInterrupt => false | _ => true end.

Definition is_NoSuchElement (e : exn) : bool :=
  match e with NoSuchElementException => true | _ => false end.

Definition is_KeyboardInterrupt (e : exn) : bool :=
  match e with KeyboardInterrupt => true | _ => false end.

Inductive result (A : Type) : Type :=
| Ok (a : A)
| Raise (e : exn).
Arguments Ok {A} a.
Arguments Raise {A} e.

(** [all(v)]: [v] must be iterable; the items of a string are its
    characters, each a non-empty string. *)
Definition py_all (v : pyval) : result bool :=
  match v with
  | PyList l => Ok (forallb truthy l)
  | PyStr _ => Ok true
  | PyNone | PyInt _ => Raise TypeError
  end.

(** What a run leaves behind, in program order. *)
Inductive event : Type :=
| EvLog (level msg : string)          (* LogMessage(level, msg) *)
| EvPrint (msg : string)              (* print(msg) *)
| EvScript (script : string)          (* driver.execute_script(script) *)
| EvRefresh                           (* driver.refresh() *)
| EvClick (xpath : string)            (* element.click() *)
| EvSleep                             (* time.sleep(..) *)
| EvInput (prompt : string)           (* input(prompt) *)
| EvSave (path : string).             (* a file written at [path] *)

(** Computations over a state [S] that either return or raise; the state
    reached before a [raise] is kept, as Python keeps the effects made
    before an exception. *)
Definition M (S A : Type) : Type := S -> result A * S.

Definition ret {S A} (a : A) : M S A := fun s => (Ok a, s).

Definition bind {S A B} (c : M S A) (k : A -> M S B) : M S B :=
  fun s => match c s with
           | (Ok a, s') => k a s'
           | (Raise e, s') => (Raise e, s')
           end.

Definition raise {S A} (e : exn) : M S A := fun s => (Raise e, s).

Definition get {S} : M S S := fun s => (Ok s, s).
Definition modify {S} (f : S -> S) : M S unit := fun s => (Ok tt, f s).

(** An oracle's answer enters the computation. *)
Definition answer {S A} (r : result A) : M S A := fun s => (r, s).

(** [try: c  except <clauses>]: [h e] is the body of the first clause
    that matches [e], if any.  What a clause raises is not caught by its
    sibling clauses. *)
Definition try_except {S A} (c : M S A) (h : exn -> option (M S A)) : M S A :=
  fun s => match c s with
           | (Ok a, s') => (Ok a, s')
           | (Raise e, s') =>
               match h e with
               | Some k => k s'
               | None => (Raise e, s')
               end
           end.

(** [try: c  finally: f]. *)
Definition try_finally {S A} (c : M S A) (f : M S unit) : M S A :=
  fun s => match c s with
           | (r, s') =>
               match f s' with
               | (Ok _, s'') => (r, s'')
               | (Raise e, s'') => (Raise e, s'')
               end
           end.

(** The outcome of [c] as a value: what it returned or what it raised. *)
Definition attempt {S A} (c : M S A) : M S (A + exn) :=
  fun s => match c s with
           | (Ok a, s') => (Ok (inl a), s')
           | (Raise e, s') => (Ok (inr e), s')
           end.

(** The [except] clauses [h] applied to an exception in flight. *)
Definition handle {S A} (e : exn) (h : exn -> option (M S A)) : M S A :=
  match h e with
  | Some k => k
  | None => raise e
  end.

(** The value a run returned, if it returned. *)
Definition value {S A} (r : result A * S) : option A :=
  match r with
  | (Ok a, _) => Some a
  | (Raise _, _) => None
  end.

#[global] Instance M_ret {S} : MRet (M S) := @ret S.
#[global] Instance M_fmap {S} : FMap (M S) := fun A B f c => bind c (fun a => ret (f a)).
#[global] Instance M_bind {S} : MBind (M S) := fun A B k c => bind c k.

(** States that carry the trace of events. *)
Class Traced (S : Type) := emit_to : event -> S -> S.

Definition emit {S} `{Traced S} (e : event) : M S unit := modify (emit_to e).

(** The plainest such state is the trace itself. *)
#[global] Instance Traced_trace : Traced (list event) := fun e t => t ++ [e].

(** Modelled from the spec: [LogMessage] of [app.services.files.actions],
    which is not among the sources here.  The logging collaborator
    exposes [log(level, message)]: it records a line and returns. *)
Definition LogMessage {S} `{Traced S} (level msg : string) : M S unit :=
  emit (EvLog level msg).

Definition print {S} `{Traced S} (msg : string) : M S unit := emit (EvPrint msg).

(** A call frame as [inspect] shows it: the name of the running function
    and its local variables, each with what [inspect.getdoc] returns for
    the object bound to it. *)
Record frame : Type := {
  co_name : string;
  f_locals : gmap string (option string);
}.

(** [f'{docstring}'] *)
Definition fmt_doc (d : option string) : string :=
  match d with Some s => s | None => "None" end.

End Py.

(* ===================================================================== *)
(** * The browser as an oracle                                            *)
(* ===================================================================== *)

Module Selenium.
Import Py.

(** An element of the page: its text, its attributes, the elements found
    below it, and what a click does.  Every read can fail. *)
#[warnings="-register-all"]
Inductive WebElement : Type := mkWebElement {
  text : result string;
  get_attribute : string -> result pyval;
  sub_element : string -> result WebElement;
  sub_elements : string -> result (list WebElement);
  click : result unit;
}.

(** The document as [BeautifulSoup(html, 'html.parser')] reads it: the
    texts of the [span]s selected by a class or by an attribute. *)
Record Html : Type := {
  spans_by_class : string -> list string;
  spans_by_attr : string -> string -> list string;
}.

(** The page as one tick of a loop sees it: the answer to each call the
    scrapers make on [driver]. *)
Record WebDriver : Type := {
  current_url : result string;
  page_source : result Html;
  find_element : string -> result WebElement;
  find_elements : string -> result (list WebElement);
  execute_script : string -> result pyval;
  refresh : result unit;
}.

(** An element that holds a text and nothing else. *)
Definition text_element (t : string) : WebElement :=
  {| text := Ok t;
     get_attribute := fun _ => Ok PyNone;
     sub_element := fun _ => Raise NoSuchElementException;
     sub_elements := fun _ => Ok [];
     click := Ok tt |}.

(** A page on which nothing is found. *)
Definition blank_page : WebDriver :=
  {| current_url := Ok "about:blank";
     page_source := Ok {| spans_by_class := fun _ => []; spans_by_attr := fun _ _ => [] |};
     find_element := fun _ => Raise NoSuchElementException;
     find_elements := fun _ => Ok [];
     execute_script := fun _ => Ok PyNone;
     refresh := Ok tt |}.

End Selenium.

(* ===================================================================== *)
(** * The string methods the scrapers call                                *)
(* ===================================================================== *)

Module PyString.

(** [str.isspace] on the code points below 256. *)
Definition is_space (a : ascii) : bool :=
  let n := nat_of_ascii a in
  (Nat.leb 9 n && Nat.leb n 13) || (Nat.leb 28 n && Nat.leb n 32)
  || Nat.eqb n 133 || Nat.eqb n 160.

(** [s.lstrip()] *)
Fixpoint lstrip (s : string) : string :=
  match s with
  | String a s' => if is_space a then lstrip s' else s
  | EmptyString => EmptyString
  end.

(** [s.rstrip()] *)
Fixpoint rstrip (s : string) : string :=
  match s with
  | String a s' =>
      match rstrip s' with
      | EmptyString => if is_space a then EmptyString else String a EmptyString
      | r => String a r
      end
  | EmptyString => EmptyString
  end.

(** [s.strip()] *)
Definition strip (s : string) : string := rstrip (lstrip s).

(** [s.replace('\n', '')] *)
Fixpoint remove_newlines (s : string) : string :=
  match s with
  | String a s' =>
      if Nat.eqb (nat_of_ascii a) 10 then remove_newlines s'
      else String a (remove_newlines s')
  | EmptyString => EmptyString
  end.

(** [s.split()]: the maximal runs of non-space characters.  [word] is
    the run being read. *)
Fixpoint split_from (word : string) (s : string) : list string :=
  match s with
  | String a s' =>
      if is_space a
      then match word with
           | EmptyString => split_from EmptyString s'
           | _ => word :: split_from EmptyString s'
           end
      else split_from (word +:+ String a EmptyString) s'
  | EmptyString => match word with EmptyString => [] | _ => [word] end
  end.

Definition split (s : string) : list string := split_from EmptyString s.

(** [sep.join(l)] *)
Fixpoint join (sep : string) (l : list string) : string :=
  match l with
  | [] => EmptyString
  | [x] => x
  | x :: l' => x +:+ sep +:+ join sep l'
  end.

(** [str(n)] for a natural number, and the zero-padded fields of
    [strftime]. *)
Definition digit (n : nat) : string :=
  String (ascii_of_nat (48 + n mod 10)) EmptyString.

Fixpoint digits (fuel n : nat) : string :=
  match fuel with
  | 0 => EmptyString
  | S fuel' => (if Nat.ltb n 10 then EmptyString else digits fuel' (n / 10)) +:+ digit n
  end.

Definition str_of_nat (n : nat) : string := digits (S n) n.

(** [str(z)] for an integer. *)
Definition str_of_Z (z : Z) : string :=
  if Z.ltb z 0 then "-" +:+ str_of_nat (Z.to_nat (- z)) else str_of_nat (Z.to_nat z).

Fixpoint zfill (width : nat) (s : string) : string :=
  match width - String.length s with
  | 0 => s
  | S _ => match width with
           | 0 => s
           | S w => "0" +:+ zfill w s
           end
  end.

(** [s.lower()] on the ASCII letters. *)
Fixpoint lower (s : string) : string :=
  match s with
  | String a s' =>
      let n := nat_of_ascii a in
      String (if Nat.leb 65 n && Nat.leb n 90 then ascii_of_nat (n + 32) else a) (lower s')
  | EmptyString => EmptyString
  end.

(** The double quote, for messages that contain it. *)
Definition dq : string := String (ascii_of_nat 34) EmptyString.

(** [os.path.join(name_folder, name_file)] *)
Definition path_join (name_folder name_file : string) : string :=
  match name_file with
  | String "/" _ => name_file
  | _ =>
      if String.eqb name_folder EmptyString then name_file
      else if String.eqb (substring (String.length name_folder - 1) 1 name_folder) "/"
      then name_folder +:+ name_file
      else name_folder +:+ "/" +:+ name_file
  end.

End PyString.

(* ===================================================================== *)
(** * The warning path shared by the field extractors                     *)
(* ===================================================================== *)

Module Inspect.
Import Py.

Section Warn.
Context {St : Type} `{Traced St}.

(** [docstring = inspect.getdoc(inspect.currentframe().f_back.f_locals[func_name])]:
    the name of the running function is looked up among the local
    variables of its caller, [f_back]; a missing key raises. *)
Definition caller_docstring (func_name : string) (f_back : frame) : M St string :=
  match f_locals f_back !! func_name with
  | Some doc => ret (fmt_doc doc)
  | None => raise (KeyError func_name)
  end.

(** [str(e)]; the message text of a Selenium error is not modelled. *)
Definition str_of_exn (e : exn) : string :=
  match e with
  | NoSuchElementException => "Message: Unable to locate element"
  | WebDriverException => "Message: "
  | KeyError k => "'" +:+ k +:+ "'"
  | NameError n => "cannot access local variable '" +:+ n +:+ "'"
  | IndexError => "list index out of range"
  | AttributeError => "'NoneType' object has no attribute 'strip'"
  | TypeError => "TypeError"
  | ValueError => "All arrays must be of the same length"
  | OSError => "OSError"
  | EOFError => "EOF when reading a line"
  | KeyboardInterrupt => EmptyString
  end.

Definition not_found_message (xpath func_name docstring : string) : string :=
  "Element with XPath '" +:+ xpath +:+ "' not found in function '" +:+ func_name
  +:+ "'. Docstring: " +:+ docstring.

Definition error_message (func_name docstring : string) (e : exn) : string :=
  "An error occurred in function '" +:+ func_name +:+ "'. Docstring: " +:+ docstring
  +:+ ". Error: " +:+ str_of_exn e.

(** The body of an [except NoSuchElementException:] clause. *)
Definition warn_not_found {A} (xpath func_name : string) (f_back : frame)
    (sentinel : A) : M St A :=
  docstring ← caller_docstring func_name f_back;
  LogMessage "WARNING" (not_found_message xpath func_name docstring);;
  mret sentinel.

(** The body of an [except Exception as e:] clause. *)
Definition warn_error {A} (func_name : string) (f_back : frame) (e : exn)
    (sentinel : A) : M St A :=
  docstring ← caller_docstring func_name f_back;
  LogMessage "WARNING" (error_message func_name docstring e);;
  mret sentinel.

(** [except NoSuchElementException: h1] followed by
    [except Exception as e: h2]. *)
Definition except_not_found_then_exception {A} (h1 : M St A) (h2 : exn -> M St A)
    (e : exn) : option (M St A) :=
  if is_NoSuchElement e then Some h1
  else if is_Exception e then Some (h2 e)
  else None.

(** A single [except NoSuchElementException: h]. *)
Definition except_not_found {A} (h : M St A) (e : exn) : option (M St A) :=
  if is_NoSuchElement e then Some h else None.

(** A single [except Exception as e: h]. *)
Definition except_exception {A} (h : exn -> M St A) (e : exn) : option (M St A) :=
  if is_Exception e then Some (h e) else None.

(** A bare [except: h]. *)
Definition except_all {A} (h : M St A) (e : exn) : option (M St A) := Some h.

(** [for x in l: elements.append(step x)], started with [elements]: the
    list built, or the exception that stopped the loop together with the
    list built so far. *)
Fixpoint for_append {A B} (step : A -> M St B) (l : list A) (elements : list B)
    : M St (list B + exn * list B) :=
  match l with
  | [] => mret (inl elements)
  | x :: l' =>
      fun s => match step x s with
               | (Ok b, s') => for_append step l' (elements ++ [b]) s'
               | (Raise e, s') => (Ok (inr (e, elements)), s')
               end
  end.

End Warn.

(** The locals of a frame that binds [names]; what [inspect.getdoc] would
    say of the objects plays no part below and is left out. *)
Definition locals_of (names : list string) : gmap string (option string) :=
  list_to_map (map (fun n => (n, None)) names).

End Inspect.

(* ===================================================================== *)
(** * datetime                                                            *)
(* ===================================================================== *)

Module Datetime.

Record datetime : Type := {
  year : nat; month : nat; day : nat;
  hour : nat; minute : nat; second : nat;
}.

(** [dt.strftime('%Y-%m-%d %H:%M:%S')] *)
Definition strftime (dt : datetime) : string :=
  let f w n := PyString.zfill w (PyString.str_of_nat n) in
  f 4 (year dt) +:+ "-" +:+ f 2 (month dt) +:+ "-" +:+ f 2 (day dt) +:+ " " +:+
  f 2 (hour dt) +:+ ":" +:+ f 2 (minute dt) +:+ ":" +:+ f 2 (second dt).

End Datetime.

(* ===================================================================== *)
(** * youtube.py                                                          *)
(* ===================================================================== *)

Module Youtube.
Import Py Selenium Inspect Datetime.

(** XPath literals are written with single quotes around attribute
    values. *)

Section Extractors.
Context {St : Type} `{Traced St}.

(** [driver.find_element(By.XPATH, xpath).text] *)
Definition element_text (driver : WebDriver) (xpath : string) : M St pyval :=
  element ← answer (find_element driver xpath);
  t ← answer (text element);
  mret (PyStr t).

(** [[item.text for item in driver.find_elements(By.XPATH, xpath)]] *)
Fixpoint texts (items : list WebElement) : M St (list string) :=
  match items with
  | [] => mret []
  | item :: items' =>
      t ← answer (text item);
      ts ← texts items';
      mret (t :: ts)
  end.

Definition _extract_url_post (driver : WebDriver) (f_back : frame) : M St pyval :=
  let func_name := "_extract_url_post" in
  try_except
    (url ← answer (current_url driver); mret (PyStr url))
    (except_exception (fun e => warn_error func_name f_back e (PyStr "None"))).

Definition _extract_name_channel (driver : WebDriver) (f_back : frame) : M St pyval :=
  let func_name := "_extract_name_channel" in
  let xpath := "//yt-formatted-string[@class='style-scope ytd-channel-name complex-string']/a" in
  try_except
    (element_text driver xpath)
    (except_not_found_then_exception
       (warn_not_found xpath func_name f_back (PyStr "None"))
       (fun e => warn_error func_name f_back e (PyStr "None"))).

Definition _extract_id_channel (driver : WebDriver) (f_back : frame) : M St pyval :=
  let func_name := "_extract_id_channel" in
  let xpath := "//yt-formatted-string[@class='style-scope ytd-channel-name complex-string']/a" in
  try_except
    (element ← answer (find_element driver xpath);
     answer (get_attribute element "href"))
    (except_not_found_then_exception
       (warn_not_found xpath func_name f_back (PyStr "None"))
       (fun e => warn_error func_name f_back e (PyStr "None"))).

Definition _extract_count_subscribers (driver : WebDriver) (f_back : frame) : M St pyval :=
  let func_name := "_extract_count_subscribers" in
  let xpath := "//yt-formatted-string[@class='style-scope ytd-video-owner-renderer']" in
  try_except
    (element_text driver xpath)
    (except_not_found_then_exception
       (warn_not_found xpath func_name f_back (PyStr "None"))
       (fun e => warn_error func_name f_back e (PyStr "None"))).

Definition _extract_title_post (driver : WebDriver) (f_back : frame) : M St pyval :=
  let func_name := "_extract_title_post" in
  let xpath := "//h1/yt-formatted-string[@class='style-scope ytd-watch-metadata']" in
  try_except
    (element_text driver xpath)
    (except_not_found_then_exception
       (warn_not_found xpath func_name f_back (PyStr "None"))
       (fun e => warn_error func_name f_back e (PyStr "None"))).

(** [get_item.text.replace('\n', '').strip()] of the info container. *)
Definition info_container_text (driver : WebDriver) (xpath2 : string) : M St pyval :=
  get_item ← answer (find_element driver xpath2);
  t ← answer (text get_item);
  mret (PyStr (PyString.strip (PyString.remove_newlines t))).

Definition _extract_count_views (driver : WebDriver) (f_back : frame) : M St pyval :=
  let func_name := "_extract_count_views" in
  let xpath1 := "//span[@class='style-scope yt-formatted-string bold']" in
  let xpath2 := "//div[@id='info-container']" in
  try_except
    (element_text driver xpath1)
    (except_not_found_then_exception
       (try_except
          (info_container_text driver xpath2)
          (except_not_found
             (warn_not_found (xpath1 +:+ "' and '" +:+ xpath2) func_name f_back
                (PyStr "None"))))
       (fun e => warn_error func_name f_back e (PyStr "None"))).

Definition _extract_count_comments (driver : WebDriver) (f_back : frame) : M St pyval :=
  let func_name := "_extract_count_comments" in
  let xpath := "//yt-formatted-string[@class='count-text style-scope ytd-comments-header-renderer']//span[@class='style-scope yt-formatted-string']" in
  try_except
    (items ← answer (find_elements driver xpath);
     elements ← texts items;
     mret (PyStr (PyString.join " " elements)))
    (except_not_found_then_exception
       (warn_not_found xpath func_name f_back (PyStr "None"))
       (fun e => warn_error func_name f_back e (PyStr "None"))).

Definition _extract_count_likes (driver : WebDriver) (f_back : frame) : M St pyval :=
  let func_name := "_extract_count_likes" in
  let xpath := "//button[@class='yt-spec-button-shape-next yt-spec-button-shape-next--tonal yt-spec-button-shape-next--mono yt-spec-button-shape-next--size-m yt-spec-button-shape-next--icon-leading yt-spec-button-shape-next--segmented-start']//div[@class='yt-spec-button-shape-next__button-text-content']" in
  try_except
    (element_text driver xpath)
    (except_not_found_then_exception
       (warn_not_found xpath func_name f_back (PyStr "None"))
       (fun e => warn_error func_name f_back e (PyStr "None"))).

Definition _extract_upload (driver : WebDriver) (f_back : frame) : M St pyval :=
  let func_name := "_extract_upload" in
  let xpath1 := "//span[@class='style-scope yt-formatted-string bold']" in
  let xpath2 := "//div[@id='info-container']" in
  try_except
    (items ← answer (find_elements driver xpath1);
     match items !! 2 with
     | Some item => t ← answer (text item); mret (PyStr t)
     | None => raise IndexError
     end)
    (except_not_found_then_exception
       (try_except
          (info_container_text driver xpath2)
          (except_not_found
             (warn_not_found (xpath1 +:+ "' and '" +:+ xpath2) func_name f_back
                (PyStr "None"))))
       (fun e => warn_error func_name f_back e (PyStr "None"))).

Definition _extract_description (driver : WebDriver) (f_back : frame) : M St pyval :=
  let func_name := "_extract_description" in
  let xpath1 := "//tp-yt-paper-button[@id='expand']" in
  let xpath2 := "//yt-attributed-string[@class='style-scope ytd-text-inline-expander']" in
  let xpath3 := "//ytd-text-inline-expander[@id='description-inline-expander']" in
  try_except
    (button ← answer (find_element driver xpath1);
     answer (click button);;
     emit (EvClick xpath1);;
     try_except
       (element_text driver xpath2)
       (except_not_found (warn_not_found xpath2 func_name f_back (PyStr "None"))))
    (except_not_found_then_exception
       (try_except
          (element_text driver xpath3)
          (except_not_found
             (warn_not_found (xpath1 +:+ "' and '" +:+ xpath3) func_name f_back
                (PyStr "None"))))
       (fun e => warn_error func_name f_back e (PyStr "None"))).

(** The body of the loop of [_extract_usernames] for one header. *)
Definition username_of (element : WebElement) : M St pyval :=
  emit (EvScript "return arguments[0].getAttribute('class');");;
  class_attr ← answer (get_attribute element "class");
  class_names ← match class_attr with
                | PyStr s => mret (PyString.split (PyString.strip s))
                | _ => raise AttributeError
                end;
  let xpath1 := match class_names with
                | c :: _ => ".//a[contains(@class, '" +:+ c +:+ "')]"
                | [] => ".//a"
                end in
  let xpath2 := match class_names with
                | c :: _ => ".//span[contains(@class, '" +:+ c +:+ "')]"
                | [] => ".//span"
                end in
  try_except
    (button ← answer (sub_element element xpath1);
     t ← answer (text button);
     if truthy (PyStr t) then mret (PyStr t) else answer (get_attribute button "href"))
    (except_exception (fun _ =>
       try_except
         (button ← answer (sub_element element xpath2);
          t ← answer (text button);
          mret (PyStr t))
         (except_exception (fun _ => mret PyNone)))).

Definition _extract_usernames (driver : WebDriver) (f_back : frame) : M St (list pyval) :=
  let func_name := "_extract_usernames" in
  let xpath := "//div[@id='header-author']" in
  let clauses elements :=
    except_not_found_then_exception
      (warn_not_found xpath func_name f_back elements)
      (fun e => warn_error func_name f_back e elements) in
  r ← attempt (answer (find_elements driver xpath));
  r' ← match r with
       | inl header_elements => for_append username_of header_elements []
       | inr e => mret (inr (e, []))
       end;
  match r' with
  | inl elements => mret elements
  | inr (e, elements) => handle e (clauses elements)
  end.

(** The body of the loop of [_extract_comments_emojis] for one comment:
    [[com, emoji_element]]. *)
Fixpoint attributes (name : string) (items : list WebElement) : M St (list pyval) :=
  match items with
  | [] => mret []
  | item :: items' =>
      v ← answer (get_attribute item name);
      vs ← attributes name items';
      mret (v :: vs)
  end.

Definition comentario_of (comment : WebElement) : M St pyval :=
  let img := ".//img[@class='yt-core-image yt-core-attributed-string__image-element yt-core-attributed-string__image-element--image-alignment-vertical-center yt-core-image--content-mode-scale-to-fill yt-core-image--loaded']" in
  com ← answer (text comment);
  emojis_items ← answer (sub_elements comment img);
  emoji_element ← attributes "src" emojis_items;
  mret (PyList [PyStr com; PyList emoji_element]).

(** [len(item[0]) == 0 and len(item[1]) == 0] *)
Definition is_empty_comentario (item : pyval) : bool :=
  match item with
  | PyList [PyStr com; PyList emoji_element] =>
      Nat.eqb (String.length com) 0 && Nat.eqb (length emoji_element) 0
  | _ => false
  end.

(** [elements.remove(item)]: the first element equal to [item] goes. *)
Fixpoint list_remove (item : pyval) (elements : list pyval) : list pyval :=
  match elements with
  | [] => []
  | x :: l => if pyval_eqb x item then l else x :: list_remove item l
  end.

(** [for item in elements: if <empty>: elements.remove(item)].  The
    iterator reads position [i] of the list as it is at that moment; it
    makes at most [fuel] steps, and the length of the list is enough. *)
Fixpoint remove_pass (fuel i : nat) (elements : list pyval) : list pyval :=
  match fuel with
  | 0 => elements
  | S fuel' =>
      match elements !! i with
      | None => elements
      | Some item =>
          if is_empty_comentario item
          then remove_pass fuel' (S i) (list_remove item elements)
          else remove_pass fuel' (S i) elements
      end
  end.

(** [for i in range(len(elements)): <one pass>] *)
Definition remove_empty (elements : list pyval) : list pyval :=
  Nat.iter (length elements) (fun els => remove_pass (length els) 0 els) elements.

Definition _extract_comments_emojis (driver : WebDriver) (f_back : frame) : M St (list pyval) :=
  let func_name := "_extract_comments_emojis" in
  let xpath := "//yt-attributed-string[@id='content-text'] | //img[@class='yt-core-image yt-core-attributed-string__image-element yt-core-attributed-string__image-element--image-alignment-vertical-center yt-core-image--content-mode-scale-to-fill yt-core-image--loaded']" in
  let clauses elements :=
    except_not_found_then_exception
      (warn_not_found xpath func_name f_back elements)
      (fun e => warn_error func_name f_back e elements) in
  r ← attempt (answer (find_elements driver xpath));
  r' ← match r with
       | inl comments => for_append comentario_of comments []
       | inr e => mret (inr (e, []))
       end;
  match r' with
  | inl elements => mret (remove_empty elements)
  | inr (e, elements) => handle e (clauses elements)
  end.

Definition _extract_n_likes (driver : WebDriver) (f_back : frame) : M St (list pyval) :=
  let func_name := "_extract_n_likes" in
  let xpath := "//span[@id='vote-count-middle']" in
  try_except
    (items ← answer (find_elements driver xpath);
     ts ← texts items;
     mret (map PyStr ts))
    (except_not_found_then_exception
       (warn_not_found xpath func_name f_back [])
       (fun e => warn_error func_name f_back e [])).

(** The body of the loop of [_extract_n_responses] for one thread. *)
Definition response_of (comment_thread : WebElement) : M St pyval :=
  let xpath1 := ".//button[@class='yt-spec-button-shape-next yt-spec-button-shape-next--text yt-spec-button-shape-next--call-to-action yt-spec-button-shape-next--size-m yt-spec-button-shape-next--icon-leading yt-spec-button-shape-next--align-by-text']" in
  try_except
    (button ← answer (sub_element comment_thread xpath1);
     answer (get_attribute button "aria-label"))
    (except_exception (fun _ => mret PyNone)).

Definition _extract_n_responses (driver : WebDriver) (f_back : frame) : M St (list pyval) :=
  let func_name := "_extract_n_responses" in
  let xpath := "//div[@class=' style-scope ytd-item-section-renderer style-scope ytd-item-section-renderer']//ytd-comment-thread-renderer[@class='style-scope ytd-item-section-renderer']" in
  let clauses elements :=
    except_not_found_then_exception
      (warn_not_found xpath func_name f_back elements)
      (fun e => warn_error func_name f_back e elements) in
  r ← attempt (answer (find_elements driver xpath));
  r' ← match r with
       | inl get_items => for_append response_of get_items []
       | inr e => mret (inr (e, []))
       end;
  match r' with
  | inl elements => mret elements
  | inr (e, elements) => handle e (clauses elements)
  end.

Definition _extract_dates (driver : WebDriver) (f_back : frame) : M St (list pyval) :=
  let func_name := "_extract_dates" in
  let xpath := "//span[@id='published-time-text']/a" in
  try_except
    (items ← answer (find_elements driver xpath);
     ts ← texts items;
     mret (map PyStr ts))
    (except_not_found_then_exception
       (warn_not_found xpath func_name f_back [])
       (fun e => warn_error func_name f_back e [])).

End Extractors.

(** The record that [ExtractDataPageYouTube] builds. *)
Record Comment : Type := {
  username : list pyval;
  emoji : list pyval;
  n_like : list pyval;
  n_response : list pyval;
  date : list pyval;
}.

Record Data : Type := {
  date_scraping : string;
  url_post : pyval;
  channel_name : pyval;
  count_subscribers : pyval;
  id_channel : pyval;
  title : pyval;
  description : pyval;
  views : pyval;
  count_comment : pyval;
  count_likes : pyval;
  upload : pyval;
  comment : Comment;
}.

(** The frame of [ExtractDataPageYouTube] while the dictionary is being
    built: [driver] is its only local variable. *)
Definition ExtractDataPageYouTube_frame : frame :=
  {| co_name := "ExtractDataPageYouTube"; f_locals := locals_of ["driver"] |}.

Section Page.
Context {St : Type} `{Traced St}.

Definition log_size (name : string) (l : list pyval) : M St unit :=
  LogMessage "INFO" ("Size of " +:+ PyString.dq +:+ name +:+ PyString.dq +:+ ": "
                     +:+ PyString.str_of_nat (length l)).

(** [now] is the reading of the clock at the call of
    [datetime.datetime.now()]. *)
Definition ExtractDataPageYouTube (now : datetime) (driver : WebDriver) : M St Data :=
  let f := ExtractDataPageYouTube_frame in
  let v_date_scraping := strftime now in
  v_url_post ← _extract_url_post driver f;
  v_channel_name ← _extract_name_channel driver f;
  v_count_subscribers ← _extract_count_subscribers driver f;
  v_id_channel ← _extract_id_channel driver f;
  v_title ← _extract_title_post driver f;
  v_description ← _extract_description driver f;
  v_views ← _extract_count_views driver f;
  v_count_comment ← _extract_count_comments driver f;
  v_count_likes ← _extract_count_likes driver f;
  v_upload ← _extract_upload driver f;
  v_username ← _extract_usernames driver f;
  v_emoji ← _extract_comments_emojis driver f;
  v_n_like ← _extract_n_likes driver f;
  v_n_response ← _extract_n_responses driver f;
  v_date ← _extract_dates driver f;
  let data :=
    {| date_scraping := v_date_scraping;
       url_post := v_url_post;
       channel_name := v_channel_name;
       count_subscribers := v_count_subscribers;
       id_channel := v_id_channel;
       title := v_title;
       description := v_description;
       views := v_views;
       count_comment := v_count_comment;
       count_likes := v_count_likes;
       upload := v_upload;
       comment := {| username := v_username; emoji := v_emoji; n_like := v_n_like;
                     n_response := v_n_response; date := v_date |} |} in
  log_size "username" (username (comment data));;
  log_size "emoji" (emoji (comment data));;
  log_size "n_like" (n_like (comment data));;
  log_size "n_response" (n_response (comment data));;
  log_size "date" (date (comment data));;
  mret data.

End Page.

Section Scroll.
Context {St : Type} `{Traced St}.

Definition height_script : string :=
  "return { pageHeight: Math.max(document.body.scrollHeight, document.body.offsetHeight, document.documentElement.clientHeight, document.documentElement.scrollHeight, document.documentElement.offsetHeight) };".

(** [heights k] is [dimensions['pageHeight']] as the run number [k] of
    [height_script] reports it; run [0] is the one before the loop, run
    [r] the one of round [r].  The calls on the driver are taken to
    return: the loop is modelled for its counter and the heights it
    reads, not for the failures of the browser. *)
Variable heights : nat -> Z.

(** [driver.execute_script('window.scrollBy(0, dy);')] and the pause
    that follows it. *)
Definition scroll_by (dy : string) : M St unit :=
  emit (EvScript ("window.scrollBy(0, " +:+ dy +:+ ");"));;
  emit EvSleep.

Definition max_attempts : nat := 3.

(** The body of the [while] loop, entered after [rounds] rounds: the new
    values of [page_init_height] and [current_attempt]. *)
Definition scroll_round (rounds : nat) (page_init_height : Z) (current_attempt : nat)
    : M St (Z * nat) :=
  scroll_by "449";; scroll_by "449";; scroll_by "449";; scroll_by "449";; scroll_by "449";;
  scroll_by "-169";;
  emit (EvScript height_script);;
  let page_last_height := heights (S rounds) in
  LogMessage "INFO" ("New total page height: " +:+ PyString.str_of_Z page_last_height);;
  if Z.eqb page_init_height page_last_height then
    let current_attempt := current_attempt + 1 in
    LogMessage "INFO" ("Attempt " +:+ PyString.str_of_nat current_attempt
                       +:+ ": Page height has not changed.");;
    scroll_by "449";;
    mret (page_init_height, current_attempt)
  else
    mret (page_last_height, 0).

(** [while current_attempt < max_attempts: ...].  The result is the
    number of rounds made when the loop ends, [None] when [fuel] rounds
    were not enough to end it. *)
Fixpoint scroll_while (fuel rounds : nat) (page_init_height : Z) (current_attempt : nat)
    : M St (option nat) :=
  if Nat.ltb current_attempt max_attempts then
    match fuel with
    | 0 => mret None
    | S fuel' =>
        '(page_init_height', current_attempt') ←
           scroll_round rounds page_init_height current_attempt;
        scroll_while fuel' (S rounds) page_init_height' current_attempt'
    end
  else mret (Some rounds).

Definition ScrollDownPageYouTube (fuel : nat) : M St (option nat) :=
  emit (EvScript height_script);;
  let page_init_height := heights 0 in
  LogMessage "INFO" ("Initial total page height: " +:+ PyString.str_of_Z page_init_height);;
  let current_attempt := 0 in
  r ← scroll_while fuel 0 page_init_height current_attempt;
  match r with
  | Some rounds =>
      LogMessage "INFO" "Scrolling complete or maximum attempts reached.";;
      mret (Some rounds)
  | None => mret None
  end.

End Scroll.

(** The number of rounds in a row, ending with round [r], after which
    the page height was found unchanged. *)
Fixpoint streak (heights : nat -> Z) (r : nat) : nat :=
  match r with
  | 0 => 0
  | S r' => if Z.eqb (heights r') (heights r) then S (streak heights r') else 0
  end.

(** The comments that the clean-up at the end of
    [_extract_comments_emojis] is meant to leave, and the number of those
    it is meant to take away. *)
Definition keep (item : pyval) : bool := negb (is_empty_comentario item).

Definition empties (elements : list pyval) : nat :=
  length (List.filter is_empty_comentario elements).

End Youtube.

(* ===================================================================== *)
(** * twitch.py                                                           *)
(* ===================================================================== *)

Module Twitch.
Import Py Selenium Inspect Datetime.

(** [db]: a dictionary of five columns. *)
Record DB : Type := {
  db_date_scraping : list string;
  db_time_live : list pyval;
  db_views : list pyval;
  db_username : list string;
  db_comment : list string;
}.

(** [{'date_scraping': [], 'time_live': [], 'views': [], 'username': [], 'comment': []}] *)
Definition empty_db : DB :=
  {| db_date_scraping := []; db_time_live := []; db_views := [];
     db_username := []; db_comment := [] |}.

(** A row of the data frame and of the CSV file. *)
Record Row : Type := {
  row_date_scraping : string;
  row_time_live : pyval;
  row_views : pyval;
  row_username : string;
  row_comment : string;
}.

(** [pd.DataFrame(data)]: the rows of the five columns; columns of
    different lengths are refused. *)
Fixpoint rows_of (d : list string) (t v : list pyval) (u c : list string) : list Row :=
  match d, t, v, u, c with
  | d0 :: d', t0 :: t', v0 :: v', u0 :: u', c0 :: c' =>
      {| row_date_scraping := d0; row_time_live := t0; row_views := v0;
         row_username := u0; row_comment := c0 |} :: rows_of d' t' v' u' c'
  | _, _, _, _, _ => []
  end.

Definition same_lengths (data : DB) : bool :=
  let n := length (db_date_scraping data) in
  Nat.eqb (length (db_time_live data)) n && Nat.eqb (length (db_views data)) n
  && Nat.eqb (length (db_username data)) n && Nat.eqb (length (db_comment data)) n.

Definition DataFrame (data : DB) : result (list Row) :=
  if same_lengths data
  then Ok (rows_of (db_date_scraping data) (db_time_live data) (db_views data)
                   (db_username data) (db_comment data))
  else Raise ValueError.

(** The local variables of [ExtractDataPageTwitch], the CSV files and
    the trace.  A variable that no assignment has reached is [None].  A
    file holds the rows that [to_csv] wrote, and [read_csv] gives them
    back in the same number and order; how pandas re-types the cells on
    reading is not modelled. *)
Record State : Type := {
  db : DB;
  seen_comments : gset string;
  html_content : option Html;
  time_live : option pyval;
  views : option pyval;
  usernames : option (list string);
  comments : option (list string);
  now : option string;
  files : gmap string (list Row);
  trace : list event;
}.

Definition set_db (f : DB -> DB) (s : State) : State :=
  {| db := f (db s); seen_comments := seen_comments s; html_content := html_content s;
     time_live := time_live s; views := views s; usernames := usernames s;
     comments := comments s; now := now s; files := files s; trace := trace s |}.

Definition set_seen_comments (f : gset string -> gset string) (s : State) : State :=
  {| db := db s; seen_comments := f (seen_comments s); html_content := html_content s;
     time_live := time_live s; views := views s; usernames := usernames s;
     comments := comments s; now := now s; files := files s; trace := trace s |}.

Definition set_html_content (x : Html) (s : State) : State :=
  {| db := db s; seen_comments := seen_comments s; html_content := Some x;
     time_live := time_live s; views := views s; usernames := usernames s;
     comments := comments s; now := now s; files := files s; trace := trace s |}.

Definition set_time_live (x : pyval) (s : State) : State :=
  {| db := db s; seen_comments := seen_comments s; html_content := html_content s;
     time_live := Some x; views := views s; usernames := usernames s;
     comments := comments s; now := now s; files := files s; trace := trace s |}.

Definition set_views (x : pyval) (s : State) : State :=
  {| db := db s; seen_comments := seen_comments s; html_content := html_content s;
     time_live := time_live s; views := Some x; usernames := usernames s;
     comments := comments s; now := now s; files := files s; trace := trace s |}.

Definition set_usernames (x : list string) (s : State) : State :=
  {| db := db s; seen_comments := seen_comments s; html_content := html_content s;
     time_live := time_live s; views := views s; usernames := Some x;
     comments := comments s; now := now s; files := files s; trace := trace s |}.

Definition set_comments (x : list string) (s : State) : State :=
  {| db := db s; seen_comments := seen_comments s; html_content := html_content s;
     time_live := time_live s; views := views s; usernames := usernames s;
     comments := Some x; now := now s; files := files s; trace := trace s |}.

Definition set_now (x : string) (s : State) : State :=
  {| db := db s; seen_comments := seen_comments s; html_content := html_content s;
     time_live := time_live s; views := views s; usernames := usernames s;
     comments := comments s; now := Some x; files := files s; trace := trace s |}.

Definition set_files (f : gmap string (list Row) -> gmap string (list Row)) (s : State)
    : State :=
  {| db := db s; seen_comments := seen_comments s; html_content := html_content s;
     time_live := time_live s; views := views s; usernames := usernames s;
     comments := comments s; now := now s; files := f (files s); trace := trace s |}.

#[global] Instance Traced_State : Traced State := fun e s =>
  {| db := db s; seen_comments := seen_comments s; html_content := html_content s;
     time_live := time_live s; views := views s; usernames := usernames s;
     comments := comments s; now := now s; files := files s; trace := trace s ++ [e] |}.

(** The state at the entry of the loop, with the files found on disk. *)
Definition initial_state (on_disk : gmap string (list Row)) : State :=
  {| db := empty_db; seen_comments := ∅; html_content := None; time_live := None;
     views := None; usernames := None; comments := None; now := None;
     files := on_disk; trace := [] |}.

(** The frame of [ExtractDataPageTwitch] as a callee sees it: the
    arguments, [db], [seen_comments] and the variables assigned so far.
    (The loop variables [username] and [comment] and [script], once
    bound, are further locals; no local is named after a function.) *)
Definition bound {A} (name : string) (v : option A) : list string :=
  match v with Some _ => [name] | None => [] end.

Definition ExtractDataPageTwitch_frame (s : State) : frame :=
  {| co_name := "ExtractDataPageTwitch";
     f_locals := locals_of
       (["driver"; "name_folder"; "name_file"; "db"; "seen_comments"]
        ++ bound "html_content" (html_content s) ++ bound "time_live" (time_live s)
        ++ bound "views" (views s) ++ bound "usernames" (usernames s)
        ++ bound "comments" (comments s) ++ bound "now" (now s)) |}.

(** ** The extractors and the two checks *)

Definition _extract_usernames_comments (html : Html) (f_back : frame) : M State (list string) :=
  let func_name := "_extract_usernames_comments" in
  try_except
    (mret (spans_by_class html "chat-author__display-name"))
    (except_not_found_then_exception
       (docstring ← caller_docstring func_name f_back;
        LogMessage "WARNING" ("Element not found in function '" +:+ func_name
                              +:+ "'. Docstring: " +:+ docstring);;
        mret [])
       (fun e => warn_error func_name f_back e [])).

Definition _extract_texts_comments (html : Html) (f_back : frame) : M State (list string) :=
  let func_name := "_extract_texts_comments" in
  try_except
    (mret (spans_by_attr html "data-a-target" "chat-line-message-body"))
    (except_not_found_then_exception
       (docstring ← caller_docstring func_name f_back;
        LogMessage "WARNING" ("Element not found in function '" +:+ func_name
                              +:+ "'. Docstring: " +:+ docstring);;
        mret [])
       (fun e => warn_error func_name f_back e [])).

Definition _extract_views (driver : WebDriver) (f_back : frame) : M State pyval :=
  let func_name := "_extract_views" in
  let xpath := "//p[@data-a-target='animated-channel-viewers-count']" in
  try_except
    (element ← answer (find_element driver xpath);
     t ← answer (text element);
     mret (PyStr t))
    (except_not_found_then_exception
       (docstring ← caller_docstring func_name f_back;
        LogMessage "WARNING" ("Element not found in function '" +:+ func_name
                              +:+ "'. Docstring: " +:+ docstring);;
        mret (PyStr "None"))
       (fun e => warn_error func_name f_back e (PyStr "None"))).

Definition _extract_time_live (driver : WebDriver) (f_back : frame) : M State pyval :=
  let func_name := "_extract_time_live" in
  let xpath := "//span[@class='live-time']" in
  try_except
    (element ← answer (find_element driver xpath);
     t ← answer (text element);
     mret (PyStr t))
    (except_not_found_then_exception
       (docstring ← caller_docstring func_name f_back;
        LogMessage "WARNING" ("Element not found in function '" +:+ func_name
                              +:+ "'. Docstring: " +:+ docstring);;
        mret (PyList []))
       (fun e => warn_error func_name f_back e (PyList []))).

Definition comments_xpath : string :=
  "//div[@class='Layout-sc-1xcs6mc-0 InjectLayout-sc-1i43xsx-0 chat-list--default font-scale--default iClcoJ']".

Definition _check_element_comments_presence (driver : WebDriver) : M State bool :=
  try_except
    (answer (find_element driver comments_xpath);;
     print "Element of comments found.";;
     mret true)
    (except_exception (fun e =>
       print ("Element of comments not found: " +:+ str_of_exn e);;
       mret false)).

Definition offline_xpath : string :=
  "//div[@class='Layout-sc-1xcs6mc-0 exGAHk channel-status-info channel-status-info--offline']".

Definition _check_offline (driver : WebDriver) : M State bool :=
  try_except
    (answer (find_element driver offline_xpath);;
     LogMessage "WARNING" "Offline channel.";;
     mret true)
    (except_exception (fun _ => mret false)).

(** [_create_csv(data, name_folder, name_file)].  [disk] is the answer
    of the file system to the directory and file operations of this
    call.  A refusal is taken before anything is written, as when
    [os.makedirs] fails: a [to_csv] that fails after it has begun to
    write, and what it leaves in the file, is not modelled, and nothing
    below is drawn from a refused call.  The rows read back are the rows
    written (see [State]). *)
Definition _create_csv (disk : result unit) (data : DB) (name_folder name_file : string)
    : M State unit :=
  df_data ← answer (DataFrame data);
  answer disk;;
  let csv_file_path := PyString.path_join name_folder name_file in
  s ← get;
  match files s !! csv_file_path with
  | None =>
      modify (set_files (insert csv_file_path df_data));;
      emit (EvSave csv_file_path);;
      LogMessage "OK" ("CSV file created and data saved to " +:+ csv_file_path +:+ ".")
  | Some df_existing =>
      let df_concat := df_existing ++ df_data in
      modify (set_files (insert csv_file_path df_concat));;
      emit (EvSave csv_file_path);;
      LogMessage "OK" ("Data appended to existing CSV file " +:+ csv_file_path +:+ ".")
  end.

(** ** The loop *)

(** What one tick of the loop observes: the page, the clock, whether
    [time.sleep] returns or is interrupted, and the answer of the file
    system. *)
Record Tick : Type := {
  driver : WebDriver;
  clock : datetime;
  sleep : result unit;
  disk : result unit;
}.

(** Reading a local variable; an unbound one raises [UnboundLocalError],
    a [NameError]. *)
Definition local {A} (name : string) (proj : State -> option A) : M State A :=
  s ← get;
  match proj s with
  | Some v => mret v
  | None => raise (NameError name)
  end.

(** The body of [for username, comment in zip(usernames, comments)]. *)
Definition append_if_unseen (username comment : string) : M State unit :=
  s ← get;
  if decide (comment ∈ seen_comments s) then mret tt
  else
    modify (set_seen_comments (union {[comment]}));;
    v_now ← local "now" now;
    modify (set_db (fun d =>
      {| db_date_scraping := db_date_scraping d ++ [v_now]; db_time_live := db_time_live d;
         db_views := db_views d; db_username := db_username d;
         db_comment := db_comment d |}));;
    v_time_live ← local "time_live" time_live;
    modify (set_db (fun d =>
      {| db_date_scraping := db_date_scraping d; db_time_live := db_time_live d ++ [v_time_live];
         db_views := db_views d; db_username := db_username d;
         db_comment := db_comment d |}));;
    v_views ← local "views" views;
    modify (set_db (fun d =>
      {| db_date_scraping := db_date_scraping d; db_time_live := db_time_live d;
         db_views := db_views d ++ [v_views]; db_username := db_username d;
         db_comment := db_comment d |}));;
    modify (set_db (fun d =>
      {| db_date_scraping := db_date_scraping d; db_time_live := db_time_live d;
         db_views := db_views d; db_username := db_username d ++ [username];
         db_comment := db_comment d |}));;
    modify (set_db (fun d =>
      {| db_date_scraping := db_date_scraping d; db_time_live := db_time_live d;
         db_views := db_views d; db_username := db_username d;
         db_comment := db_comment d ++ [comment] |})).

Fixpoint for_pairs (pairs : list (string * string)) : M State unit :=
  match pairs with
  | [] => mret tt
  | (username, comment) :: rest => append_if_unseen username comment;; for_pairs rest
  end.

(** [for username, comment in zip(usernames, comments): ...], the loop
    that the function repeats in four places. *)
Definition append_unseen : M State unit :=
  v_usernames ← local "usernames" usernames;
  v_comments ← local "comments" comments;
  for_pairs (combine v_usernames v_comments).

(** [_create_csv(db, name_folder, name_file)] on the current [db]. *)
Definition save_db (disk : result unit) (name_folder name_file : string) : M State unit :=
  s ← get;
  _create_csv disk (db s) name_folder name_file.

Definition cleanup_script : string :=
  "var elements = document.querySelectorAll('.chat-line__message'); elements.forEach(function(element) { element.parentNode.removeChild(element); });".

Definition time_sleep (t : Tick) : M State unit :=
  emit EvSleep;; answer (sleep t).

Inductive control : Type := Next | Break.

(** The statements under [if _check_element_comments_presence(driver):]. *)
Definition read_chat (name_folder name_file : string) (t : Tick) : M State unit :=
  time_sleep t;;
  v_html_content ← answer (page_source (driver t));
  modify (set_html_content v_html_content);;
  s ← get;
  v_time_live ← _extract_time_live (driver t) (ExtractDataPageTwitch_frame s);
  modify (set_time_live v_time_live);;
  s ← get;
  v_views ← _extract_views (driver t) (ExtractDataPageTwitch_frame s);
  modify (set_views v_views);;
  s ← get;
  v_usernames ← _extract_usernames_comments v_html_content (ExtractDataPageTwitch_frame s);
  modify (set_usernames v_usernames);;
  s ← get;
  v_comments ← _extract_texts_comments v_html_content (ExtractDataPageTwitch_frame s);
  modify (set_comments v_comments);;
  modify (set_now (strftime (clock t)));;
  if Nat.eqb (length v_usernames) (length v_comments) && Nat.leb (length v_usernames) 140
  then
    append_unseen;;
    s ← get;
    (if Nat.ltb 1000 (length (db_date_scraping (db s))) then
       LogMessage "OK"
         "Number of elements in the dictionary has exceeded 1000. Saving data...";;
       save_db (disk t) name_folder name_file;;
       modify (set_db (fun _ => empty_db))
     else mret tt);;
    time_sleep t;;
    s ← get;
    print (PyString.str_of_nat (length (db_date_scraping (db s))));;
    print (PyString.str_of_nat (length (db_time_live (db s))));;
    print (PyString.str_of_nat (length (db_views (db s))));;
    print (PyString.str_of_nat (length (db_username (db s))));;
    print (PyString.str_of_nat (length (db_comment (db s))))
  else if Nat.ltb 140 (length v_usernames) || Nat.ltb 140 (length v_comments)
  then
    print "Either usernames or comments exceed 140 characters.";;
    emit (EvScript cleanup_script);;
    answer (execute_script (driver t) cleanup_script);;
    mret tt
  else mret tt.

(** The body of [while True]. *)
Definition iteration (name_folder name_file : string) (t : Tick) : M State control :=
  try_except
    (offline ← _check_offline (driver t);
     stop ← (if offline : bool then
               try_except
                 (append_unseen;;
                  save_db (disk t) name_folder name_file;;
                  mret false)
                 (except_all (mret true))
             else mret false);
     if stop : bool then mret Break
     else
       present ← _check_element_comments_presence (driver t);
       if present : bool then
         read_chat name_folder name_file t;;
         mret Next
       else
         emit EvRefresh;;
         answer (refresh (driver t));;
         mret Next)
    (fun e =>
       if is_KeyboardInterrupt e then Some (
         LogMessage "WARNING" "Keyboard interruption detected. Ending scraping.";;
         append_unseen;;
         save_db (disk t) name_folder name_file;;
         mret Break)
       else if is_Exception e then Some (
         append_unseen;;
         save_db (disk t) name_folder name_file;;
         mret Break)
       else None).

(** [while True] over the ticks observed: [Some db] when the loop was
    left and the function returned [db], [None] when it is still running
    after the last tick. *)
Fixpoint while_true (name_folder name_file : string) (ticks : list Tick)
    : M State (option DB) :=
  match ticks with
  | [] => mret None
  | t :: ticks' =>
      c ← iteration name_folder name_file t;
      match c with
      | Next => while_true name_folder name_file ticks'
      | Break => s ← get; mret (Some (db s))
      end
  end.

Definition ExtractDataPageTwitch (name_folder name_file : string)
    (on_disk : gmap string (list Row)) (ticks : list Tick)
    : result (option DB) * State :=
  while_true name_folder name_file ticks (initial_state on_disk).

(** The pairs that the loop over [zip(usernames, comments)] admits when
    it starts with the set [seen]: a pair is admitted when its message
    has not been seen, and its message is seen from then on. *)
Fixpoint admitted (seen : gset string) (pairs : list (string * string))
    : list (string * string) :=
  match pairs with
  | [] => []
  | (username, comment) :: rest =>
      if decide (comment ∈ seen) then admitted seen rest
      else (username, comment) :: admitted ({[comment]} ∪ seen) rest
  end.

Fixpoint seen_after (seen : gset string) (pairs : list (string * string)) : gset string :=
  match pairs with
  | [] => seen
  | (_, comment) :: rest =>
      if decide (comment ∈ seen) then seen_after seen rest
      else seen_after ({[comment]} ∪ seen) rest
  end.

(** [d] with one row appended per pair, all stamped alike. *)
Definition with_rows (v_now : string) (v_time_live v_views : pyval)
    (pairs : list (string * string)) (d : DB) : DB :=
  {| db_date_scraping := db_date_scraping d ++ map (fun _ => v_now) pairs;
     db_time_live := db_time_live d ++ map (fun _ => v_time_live) pairs;
     db_views := db_views d ++ map (fun _ => v_views) pairs;
     db_username := db_username d ++ map fst pairs;
     db_comment := db_comment d ++ map snd pairs |}.

(** A tick that reads a chat: no offline banner is found, the chat
    container is, the pauses are not interrupted, and the page source,
    the live time and the viewer count can be read; [us] and [cs] are
    the authors and the messages in the page source. *)
Definition reads_chat (t : Tick) (us cs : list string) : Prop :=
  (exists e, find_element (driver t) offline_xpath = Raise e /\ is_Exception e = true) /\
  (exists el, find_element (driver t) comments_xpath = Ok el) /\
  sleep t = Ok tt /\
  (exists html, page_source (driver t) = Ok html /\
     spans_by_class html "chat-author__display-name" = us /\
     spans_by_attr html "data-a-target" "chat-line-message-body" = cs) /\
  (exists el tl, find_element (driver t) "//span[@class='live-time']" = Ok el /\
     text el = Ok tl) /\
  (exists el vw,
     find_element (driver t) "//p[@data-a-target='animated-channel-viewers-count']" = Ok el /\
     text el = Ok vw).

(** A tick, with the authors and messages it shows, on which nothing
    fails: it reads a chat, the disk takes the writes and the cleanup
    call returns. *)
Definition chat_tick (o : Tick * (list string * list string)) : Prop :=
  reads_chat (fst o) (fst (snd o)) (snd (snd o)) /\
  disk (fst o) = Ok tt /\
  exists v, execute_script (driver (fst o)) cleanup_script = Ok v.

(** The number of messages shown over a run of such ticks. *)
Definition messages_shown (obs : list (Tick * (list string * list string))) : nat :=
  list_sum (map (fun o => length (snd (snd o))) obs).

(** The number of files written during a run. *)
Fixpoint saves (tr : list event) : nat :=
  match tr with
  | [] => 0
  | EvSave _ :: tr' => S (saves tr')
  | _ :: tr' => saves tr'
  end.

(** The buffer holds no message twice, and every message it holds has
    been seen. *)
Definition dedup_invariant (s : State) : Prop :=
  NoDup (db_comment (db s)) /\ forall c, In c (db_comment (db s)) -> c ∈ seen_comments s.

(** The buffer of [s] once the loop over [zip(us, cs)] has run, with the
    stamps [v_now], [v_time_live] and [v_views]. *)
Definition grown (s : State) (v_now : string) (v_time_live v_views : pyval)
    (us cs : list string) : DB :=
  with_rows v_now v_time_live v_views (admitted (seen_comments s) (combine us cs)) (db s).

(** [_create_csv] called on each buffer in turn, the disk taking every
    write. *)
Fixpoint flush_all (buffers : list DB) (name_folder name_file : string) : M State unit :=
  match buffers with
  | [] => mret tt
  | data :: rest =>
      _create_csv (Ok tt) data name_folder name_file;;
      flush_all rest name_folder name_file
  end.

(** The messages that a run has written or holds in its buffer: those of
    the CSV file at [path], then those of the buffer. *)
Definition kept (path : string) (s : State) : list string :=
  map row_comment (default [] (files s !! path)) ++ db_comment (db s).

(** A tick, with the authors and messages it shows, whose lists pair up
    within the size guard. *)
Definition paired (o : Tick * (list string * list string)) : Prop :=
  length (fst (snd o)) = length (snd (snd o)) /\ length (fst (snd o)) <= 140.

End Twitch.

(* ===================================================================== *)
(** * tiktok.py                                                           *)
(* ===================================================================== *)

Module Tiktok.
Import Py Selenium Inspect.

(** ** The extractors.  They print their warnings instead of logging
    them; [print('WARNING', msg)] writes the two words with a space. *)

Section Extractors.
Context {St : Type} `{Traced St}.

Definition print_not_found {A} (xpath func_name : string) (f_back : frame) (sentinel : A)
    : M St A :=
  docstring ← caller_docstring func_name f_back;
  print ("WARNING " +:+ not_found_message xpath func_name docstring);;
  mret sentinel.

Definition print_error {A} (func_name : string) (f_back : frame) (e : exn) (sentinel : A)
    : M St A :=
  docstring ← caller_docstring func_name f_back;
  print ("WARNING " +:+ error_message func_name docstring e);;
  mret sentinel.

Definition _extract_url_post (driver : WebDriver) (f_back : frame) : M St pyval :=
  let func_name := "_extract_url_post" in
  try_except
    (url ← answer (current_url driver); mret (PyStr url))
    (except_exception (fun e => print_error func_name f_back e (PyStr "None"))).

(** The common shape of the five list extractors: [elements = []], the
    containers found by [xpath], one value appended per container, and
    the two [except] clauses that return what was collected. *)
Definition extract_list (func_name xpath : string) (step : WebElement -> M St pyval)
    (driver : WebDriver) (f_back : frame) : M St (list pyval) :=
  let clauses elements :=
    except_not_found_then_exception
      (print_not_found xpath func_name f_back elements)
      (fun e => print_error func_name f_back e elements) in
  r ← attempt (answer (find_elements driver xpath));
  r' ← match r with
       | inl header_elements => for_append step header_elements []
       | inr e => mret (inr (e, []))
       end;
  match r' with
  | inl elements => mret elements
  | inr (e, elements) => handle e (clauses elements)
  end.

(** [button.text or button.get_attribute('href')] *)
Definition text_or_href (button : WebElement) : M St pyval :=
  t ← answer (text button);
  if truthy (PyStr t) then mret (PyStr t) else answer (get_attribute button "href").

Definition _extract_usernames_comments : WebDriver -> frame -> M St (list pyval) :=
  extract_list "_extract_usernames_comments"
    "//div[contains(@class, 'css-1i7ohvi-DivCommentItemContainer')]"
    (fun element =>
       user_element ← answer (sub_element element ".//a");
       answer (get_attribute user_element "href")).

Definition _extract_comments : WebDriver -> frame -> M St (list pyval) :=
  extract_list "_extract_comments"
    "//div[@class='css-1i7ohvi-DivCommentItemContainer eo72wou0']"
    (fun element =>
       button ← answer (sub_element element
                          ".//p[@class='css-xm2h10-PCommentText e1g2efjf6']/span");
       text_or_href button).

Definition _extract_n_likes : WebDriver -> frame -> M St (list pyval) :=
  extract_list "_extract_n_likes"
    "//div[@class='css-1i7ohvi-DivCommentItemContainer eo72wou0']"
    (fun element =>
       button ← answer (sub_element element
                          ".//span[@class='css-gb2mrc-SpanCount ezxoskx3']");
       text_or_href button).

Definition _extract_dates : WebDriver -> frame -> M St (list pyval) :=
  extract_list "_extract_dates"
    "//div[contains(@class, 'css-1i7ohvi-DivCommentItemContainer')]"
    (fun element =>
       user_element ← answer (sub_element element
                          ".//span[contains(@class, 'css-1esugaz-SpanCreatedTime')]");
       user_link ← answer (text user_element);
       mret (PyStr user_link)).

Definition _extract_n_responses : WebDriver -> frame -> M St (list pyval) :=
  extract_list "_extract_n_responses"
    "//div[contains(@class, 'css-1i7ohvi-DivCommentItemContainer')]"
    (fun element =>
       try_except
         (user_element ← answer (sub_element element
                            ".//p[contains(@class, 'css-16xv7y2-PReplyActionTex')]");
          user_link ← answer (text user_element);
          mret (PyStr user_link))
         (except_all (mret (PyInt 0)))).

End Extractors.

(** ** The captcha wait at the head of a scroll round *)

(** What one call of [_check_captcha_exists] sees, and what [input]
    returns if it is then asked. *)
Record Poll : Type := {
  poll_page : WebDriver;
  poll_input : result string;
}.

Section Checks.
Context {St : Type} `{Traced St}.

Definition _check_captcha_exists (driver : WebDriver) : M St bool :=
  try_except
    (let xpath := "//a[@id='verify-bar-close']" in
     answer (find_element driver xpath);;
     mret true)
    (except_not_found (mret false)).

Definition captcha_prompt : string :=
  "Press Enter after you have closed the captcha window to continue...".

(** [while _check_captcha_exists(driver): print(..); input(..)] over the
    polls observed: [None] when the captcha is still there after the
    last of them. *)
Fixpoint captcha_still (polls : list Poll) : M St (option unit) :=
  match polls with
  | [] => mret None
  | p :: polls' =>
      present ← _check_captcha_exists (poll_page p);
      if present : bool then
        print "Captcha still present. Please close it.";;
        emit (EvInput captcha_prompt);;
        answer (poll_input p);;
        captcha_still polls'
      else mret (Some tt)
  end.

(** [if _check_captcha_exists(driver): print(..); input(..); while ..],
    the first statement of a scroll round. *)
Definition captcha_wait (polls : list Poll) : M St (option unit) :=
  match polls with
  | [] => mret None
  | p :: polls' =>
      present ← _check_captcha_exists (poll_page p);
      if present : bool then
        print "Captcha detected. Please close the captcha window manually.";;
        emit (EvInput captcha_prompt);;
        answer (poll_input p);;
        captcha_still polls'
      else mret (Some tt)
  end.

End Checks.

(** A poll that shows the captcha and at which the user presses Enter,
    and a poll at which the captcha is gone. *)
Definition captcha_shown (p : Poll) : Prop :=
  (exists el, find_element (poll_page p) "//a[@id='verify-bar-close']" = Ok el) /\
  (exists line, poll_input p = Ok line).

Definition captcha_gone (p : Poll) : Prop :=
  find_element (poll_page p) "//a[@id='verify-bar-close']" = Raise NoSuchElementException.

(** What the wait prints and asks when the captcha shows at [n] polls. *)
Definition captcha_wait_events (n : nat) : list event :=
  match n with
  | 0 => []
  | S k =>
      [EvPrint "Captcha detected. Please close the captcha window manually.";
       EvInput captcha_prompt]
      ++ concat (repeat [EvPrint "Captcha still present. Please close it.";
                         EvInput captcha_prompt] k)
  end.

(** The text of the replies button of a comment container as
    [_extract_n_responses] records it: [0] when it cannot be read. *)
Definition replies_of (element : WebElement) : pyval :=
  match sub_element element ".//p[contains(@class, 'css-16xv7y2-PReplyActionTex')]" with
  | Ok user_element =>
      match text user_element with
      | Ok user_link => PyStr user_link
      | Raise _ => PyInt 0
      end
  | Raise _ => PyInt 0
  end.

(** ** The snapshot *)

Record Comment : Type := {
  username : list pyval;
  n_like : list pyval;
  n_response : list pyval;
  date : list pyval;
}.

Record Data : Type := {
  date_scraping : string;
  url_post : pyval;
  comment : Comment;
}.

(** The frame that calls a function submitted to the pool: [run] of the
    work item, whose local is [self]. *)
Definition worker_frame : frame :=
  {| co_name := "run"; f_locals := locals_of ["self"] |}.

Section Snapshot.
Context {St : Type} `{Traced St}.

(** [future.result()] inside [try ... except Exception as e: print(..)]:
    the result is stored under [key], or the error is printed. *)
Definition collect (key : string) (job : M St pyval) (results : gmap string pyval)
    : M St (gmap string pyval) :=
  r ← attempt job;
  match r with
  | inl result => mret (<[key := result]> results)
  | inr e =>
      if is_Exception e
      then print ("Error executing " +:+ key +:+ ": " +:+ str_of_exn e);; mret results
      else raise e
  end.

(** [results.get(key, default)] *)
Definition get_or (results : gmap string pyval) (key : string) (d : pyval) : pyval :=
  default d (results !! key).

Definition as_list (v : pyval) : list pyval :=
  match v with PyList l => l | _ => [] end.

(** [extract_all_data(driver)].  The six jobs run in worker threads and
    are collected by key, so the order in which they complete does not
    show in [results]; they are run here in the order of submission. *)
Definition extract_all_data (driver : WebDriver) : M St Data :=
  let f := worker_frame in
  let results : gmap string pyval := ∅ in
  results ← collect "url_post" (_extract_url_post driver f) results;
  results ← collect "usernames" (PyList <$> _extract_usernames_comments driver f) results;
  results ← collect "comments" (PyList <$> _extract_comments driver f) results;
  results ← collect "likes" (PyList <$> _extract_n_likes driver f) results;
  results ← collect "dates" (PyList <$> _extract_dates driver f) results;
  results ← collect "responses" (PyList <$> _extract_n_responses driver f) results;
  let data :=
    {| date_scraping := "2024-07-30 03:18:56";
       url_post := get_or results "url_post" (PyStr EmptyString);
       comment :=
         {| username := as_list (get_or results "usernames" (PyList []));
            n_like := as_list (get_or results "likes" (PyList []));
            n_response := as_list (get_or results "responses" (PyList []));
            date := as_list (get_or results "dates" (PyList [])) |} |} in
  let all_data_present :=
    forallb (fun key => match results !! key with
                        | Some v => truthy v
                        | None => false
                        end)
            ["url_post"; "usernames"; "comments"; "likes"; "responses"; "dates"] in
  (if all_data_present then print "Data extraction completed successfully."
   else print "Some data was not extracted correctly.");;
  mret data.

End Snapshot.

(** ** The loop *)

(** The local variables of [ExtractDataPageTiktok] that outlive an
    iteration, the JSON files and the trace.  [data = {}] is [None]. *)
Record State : Type := {
  data : option Data;
  iteration_count : nat;
  files : gmap string (option Data);
  trace : list event;
}.

Definition set_data (d : option Data) (s : State) : State :=
  {| data := d; iteration_count := iteration_count s; files := files s; trace := trace s |}.

Definition set_iteration_count (n : nat) (s : State) : State :=
  {| data := data s; iteration_count := n; files := files s; trace := trace s |}.

Definition set_files (f : gmap string (option Data) -> gmap string (option Data))
    (s : State) : State :=
  {| data := data s; iteration_count := iteration_count s; files := f (files s);
     trace := trace s |}.

#[global] Instance Traced_State : Traced State := fun e s =>
  {| data := data s; iteration_count := iteration_count s; files := files s;
     trace := trace s ++ [e] |}.

Definition initial_state (on_disk : gmap string (option Data)) : State :=
  {| data := None; iteration_count := 0; files := on_disk; trace := [] |}.

(** [data.get('url_post')] and [data.get('comment', {}).get(key)] *)
Definition get_url_post (d : option Data) : pyval :=
  match d with Some d => url_post d | None => PyNone end.

Definition get_comment (field : Comment -> list pyval) (d : option Data) : pyval :=
  match d with Some d => PyList (field (comment d)) | None => PyNone end.

(** [len(data.get('comment', {}).get(key, []))] *)
Definition len_comment (field : Comment -> list pyval) (d : option Data) : nat :=
  match d with Some d => length (field (comment d)) | None => 0 end.

(** The argument of [all(...)] in the loop: a chain of [and]. *)
Definition mandatory (d : option Data) : pyval :=
  py_and (get_url_post d)
    (py_and (get_comment username d)
      (py_and (get_comment n_like d)
        (py_and (get_comment n_response d) (get_comment date d)))).

(** The completeness that the specification describes, for comparison:
    the post URL and the four comment lists are all there. *)
Definition mandatory_present (d : Data) : bool :=
  truthy (url_post d)
  && truthy (PyList (username (comment d)))
  && truthy (PyList (n_like (comment d)))
  && truthy (PyList (n_response (comment d)))
  && truthy (PyList (date (comment d))).

(** The condition that guards the prompt. *)
Definition completeness_flag (d : option Data) : result bool := py_all (mandatory d).

(** [_save_to_json(data, name_folder, name_file)]; [disk] answers the
    file operations on a path.  What a refused save leaves in the target
    ([open(.., 'w')] empties the file before [json.dump] can fail) is not
    modelled, and nothing below is drawn from the files after a refused
    save. *)
Definition _save_to_json (disk : string -> result unit) (d : option Data)
    (name_folder name_file : string) : M State unit :=
  try_except
    (let output_path := PyString.path_join name_folder name_file in
     answer (disk output_path);;
     modify (set_files (insert output_path d));;
     emit (EvSave output_path);;
     print ("OK Data saved successfully in " +:+ output_path +:+ "."))
    (except_exception (fun error =>
       print ("ERROR An error occurred while saving the dictionary: " +:+ str_of_exn error))).

Definition log_size (name : string) (n : nat) : M State unit :=
  LogMessage "INFO" ("Size of " +:+ PyString.dq +:+ name +:+ PyString.dq +:+ ": "
                     +:+ PyString.str_of_nat n).

Definition log_sizes (d : option Data) : M State unit :=
  log_size "username" (len_comment username d);;
  log_size "likes" (len_comment n_like d);;
  log_size "dates" (len_comment date d);;
  log_size "responses" (len_comment n_response d).

(** What one iteration of the outer loop observes.  [scroll_phase] is
    the outcome of the three scroll-and-settle rounds with their captcha
    and login gates and of the wait that follows them: they act on the
    browser and on the waiting times only, and either complete or raise.
    [user_input] is what [input] returns if the prompt is shown. *)
Record Tick : Type := {
  scroll_phase : result unit;
  driver : WebDriver;
  user_input : result string;
}.

Inductive control : Type := Next | Break | Return.

Definition prompt : string := "Type 'exit' to stop or 'c' to keep going: ".

(** The body of the inner [try]. *)
Definition body (disk : string -> result unit) (t : Tick) : M State control :=
  answer (scroll_phase t);;
  s ← get;
  modify (set_iteration_count (iteration_count s + 1));;
  s ← get;
  if Nat.leb 1 (iteration_count s) then
    print "Data extraction in progress, please wait...";;
    d ← extract_all_data (driver t);
    modify (set_data (Some d));;
    s ← get;
    flag ← answer (completeness_flag (data s));
    if flag : bool then
      print ("Usernames count: " +:+ PyString.str_of_nat (len_comment username (data s)));;
      print ("Comments count: " +:+ PyString.str_of_nat (len_comment username (data s)));;
      print ("Likes count: " +:+ PyString.str_of_nat (len_comment n_like (data s)));;
      print ("Dates count: " +:+ PyString.str_of_nat (len_comment date (data s)));;
      print ("Responses count: " +:+ PyString.str_of_nat (len_comment n_response (data s)));;
      emit (EvInput prompt);;
      typed ← answer (user_input t);
      let user_input := PyString.lower (PyString.strip typed) in
      if String.eqb user_input "exit" then
        (match data s with
         | Some _ =>
             print "Saving data...";;
             log_sizes (data s);;
             _save_to_json disk (data s) "out" "tiktok.json";;
             print "Data saved successfully."
         | None => print "Data extraction failed or returned no data."
         end);;
        mret Break
      else if String.eqb user_input "c" then mret Next
      else mret Next
    else
      print "Some data was not extracted correctly.";;
      mret Next
  else mret Next.

(** One pass of [while True]: the inner [try], its [except Exception]
    with [return data], and its [finally]. *)
Definition iteration (disk : string -> result unit) (t : Tick) : M State control :=
  try_finally
    (try_except (body disk t)
       (except_exception (fun e =>
          print ("An error occurred: " +:+ str_of_exn e);;
          mret Return)))
    (print "Scroll operation reset.").

(** How the function ends: by falling off its end, or by [return data]. *)
Inductive returned : Type :=
| ReturnNone
| ReturnData (d : option Data).

(** [while True] over the iterations observed; [None] when the loop is
    still running after the last of them. *)
Fixpoint while_true (disk : string -> result unit) (ticks : list Tick)
    : M State (option returned) :=
  match ticks with
  | [] => mret None
  | t :: ticks' =>
      c ← iteration disk t;
      match c with
      | Next => while_true disk ticks'
      | Break => mret (Some ReturnNone)
      | Return => s ← get; mret (Some (ReturnData (data s)))
      end
  end.

(** The outer [finally]. *)
Definition finish (disk : string -> result unit) (name_folder name_file : string)
    : M State unit :=
  print "Scroll operation finished.";;
  s ← get;
  log_sizes (data s);;
  _save_to_json disk (data s) name_folder name_file.

(** [ExtractDataPageTiktok(driver, name_folder, name_file)].  The outer
    [finally] runs when the loop is left, by [break], [return] or an
    exception; it has not run while the loop is still going. *)
Definition ExtractDataPageTiktok (disk : string -> result unit)
    (name_folder name_file : string) (on_disk : gmap string (option Data))
    (ticks : list Tick) : result (option returned) * State :=
  match while_true disk ticks (initial_state on_disk) with
  | (Ok None, s) => (Ok None, s)
  | (r, s) =>
      match finish disk name_folder name_file s with
      | (Ok _, s') => (r, s')
      | (Raise e, s') => (Raise e, s')
      end
  end.

End Tiktok.

(* ===================================================================== *)
(** * Pages and runs used as examples                                     *)
(* ===================================================================== *)

Module Scenario.
Import Py Selenium Datetime.

Definition noon : datetime :=
  {| year := 2024; month := 8; day := 1; hour := 12; minute := 0; second := 0 |}.

Definition midnight : datetime :=
  {| year := 2024; month := 8; day := 2; hour := 0; minute := 0; second := 0 |}.

(** A live Twitch channel whose chat shows the authors [us] and the
    messages [cs]. *)
Definition chat_page (us cs : list string) : WebDriver :=
  {| current_url := Ok "https://www.twitch.tv/somechannel";
     page_source := Ok {| spans_by_class := fun _ => us; spans_by_attr := fun _ _ => cs |};
     find_element := fun xpath =>
       if String.eqb xpath Twitch.offline_xpath then Raise NoSuchElementException
       else Ok (text_element "1:02:03");
     find_elements := fun _ => Ok [];
     execute_script := fun _ => Ok PyNone;
     refresh := Ok tt |}.

(** The channel went offline: the offline banner is the only element
    found. *)
Definition offline_page : WebDriver :=
  {| current_url := Ok "https://www.twitch.tv/somechannel";
     page_source := page_source blank_page;
     find_element := fun xpath =>
       if String.eqb xpath Twitch.offline_xpath then Ok (text_element "Offline")
       else Raise NoSuchElementException;
     find_elements := fun _ => Ok [];
     execute_script := fun _ => Ok PyNone;
     refresh := Ok tt |}.

(** A page whose first lookup is cut short by Ctrl-C. *)
Definition interrupted_page : WebDriver :=
  {| current_url := Raise KeyboardInterrupt;
     page_source := Raise KeyboardInterrupt;
     find_element := fun _ => Raise KeyboardInterrupt;
     find_elements := fun _ => Raise KeyboardInterrupt;
     execute_script := fun _ => Raise KeyboardInterrupt;
     refresh := Raise KeyboardInterrupt |}.

Definition tick (d : WebDriver) : Twitch.Tick :=
  {| Twitch.driver := d; Twitch.clock := noon; Twitch.sleep := Ok tt; Twitch.disk := Ok tt |}.

(** An element with a text and attributes, and the same below it. *)
Definition leaf (t attr : string) : WebElement :=
  {| text := Ok t;
     get_attribute := fun _ => Ok (PyStr attr);
     sub_element := fun _ => Raise NoSuchElementException;
     sub_elements := fun _ => Ok [];
     click := Ok tt |}.

Definition container (t attr : string) : WebElement :=
  {| text := Ok t;
     get_attribute := fun _ => Ok (PyStr attr);
     sub_element := fun _ => Ok (leaf t attr);
     sub_elements := fun _ => Ok [leaf t attr];
     click := Ok tt |}.

(** A page on which every lookup finds something, three times over for
    the lookups of several elements; the texts are [t]. *)
Definition full_page (t : string) : WebDriver :=
  {| current_url := Ok "https://www.tiktok.com/@user.name/video/1234567890";
     page_source := page_source blank_page;
     find_element := fun _ => Ok (container t "attr");
     find_elements := fun _ => Ok [container t "attr"; container t "attr"; container t "attr"];
     execute_script := fun _ => Ok PyNone;
     refresh := Ok tt |}.

(** A page whose address can be read but whose comment containers
    cannot: every lookup of several elements fails in the browser. *)
Definition broken_comments_page : WebDriver :=
  {| current_url := Ok "https://www.tiktok.com/@user.name/video/1234567890";
     page_source := page_source blank_page;
     find_element := fun _ => Raise NoSuchElementException;
     find_elements := fun _ => Raise WebDriverException;
     execute_script := fun _ => Ok PyNone;
     refresh := Ok tt |}.

Definition tiktok_tick (d : WebDriver) (typed : string) : Tiktok.Tick :=
  {| Tiktok.scroll_phase := Ok tt; Tiktok.driver := d; Tiktok.user_input := Ok typed |}.

(** A disk that accepts every write. *)
Definition good_disk : string -> result unit := fun _ => Ok tt.

(** A TikTok run of one iteration on page [d], with [typed] at the
    prompt. *)
Definition tiktok_run (d : WebDriver) (typed : string)
    : result (option Tiktok.returned) * Tiktok.State :=
  Tiktok.ExtractDataPageTiktok good_disk "data" "video.json" ∅ [tiktok_tick d typed].

(** A Twitch run over [ticks], on an empty disk. *)
Definition twitch_run (ticks : list Twitch.Tick) : result (option Twitch.DB) * Twitch.State :=
  Twitch.ExtractDataPageTwitch "out" "chat.csv" ∅ ticks.

(** Ctrl-C during the first tick. *)
Definition interrupt_at_first_tick : list Twitch.Tick := [tick interrupted_page].

(** One message is read, the channel goes offline and stays so. *)
Definition chat_then_offline_twice : list Twitch.Tick :=
  [tick (chat_page ["ann"] ["hello"]); tick offline_page; tick offline_page].

(** One message is read, the channel goes offline, then Ctrl-C. *)
Definition chat_then_offline_then_interrupt : list Twitch.Tick :=
  [tick (chat_page ["ann"] ["hello"]); tick offline_page; tick interrupted_page].

(** The channel is offline from the first tick. *)
Definition offline_at_first_tick : list Twitch.Tick := [tick offline_page].

(** Ever longer laughs: "lol", "llol", "lllol", ... *)
Fixpoint laugh (k : nat) : string :=
  match k with
  | 0 => "lol"
  | S k' => String "l" (laugh k')
  end.

Definition laughs (n : nat) : list string := map laugh (seq 0 n).

(** A chat that shows 1001 messages at once, each from the same author,
    then the channel goes offline. *)
Definition flood_then_offline : list Twitch.Tick :=
  [tick (chat_page (repeat "ann" 1001) (laughs 1001)); tick offline_page].

(** Two authors but one message in the page source. *)
Definition unpaired_tick : Twitch.Tick := tick (chat_page ["ann"; "bob"] ["hello"]).

(** The rows of the CSV file after a run. *)
Definition csv_rows (r : result (option Twitch.DB) * Twitch.State) : list Twitch.Row :=
  default [] (Twitch.files (snd r) !! PyString.path_join "out" "chat.csv").

(** Two buffers, of one row and of two. *)
Definition buffer_A : Twitch.DB :=
  {| Twitch.db_date_scraping := ["2024-08-01 12:00:00"];
     Twitch.db_time_live := [PyStr "1:02:03"]; Twitch.db_views := [PyStr "15"];
     Twitch.db_username := ["ann"]; Twitch.db_comment := ["hello"] |}.

Definition buffer_B : Twitch.DB :=
  {| Twitch.db_date_scraping := ["2024-08-01 12:00:01"; "2024-08-01 12:00:01"];
     Twitch.db_time_live := [PyStr "1:02:04"; PyStr "1:02:04"];
     Twitch.db_views := [PyStr "16"; PyStr "16"];
     Twitch.db_username := ["bob"; "cid"]; Twitch.db_comment := ["hi"; "gg"] |}.

(** The state in which a tick that read two authors and one message
    leaves the Twitch loop: the two lists are bound, nothing is
    buffered. *)
Definition after_unpaired_tick : Twitch.State :=
  snd (Twitch.iteration "out" "chat.csv" unpaired_tick (Twitch.initial_state ∅)).

(** A live channel whose chat is shown but whose live time is not. *)
Definition live_time_missing_page : WebDriver :=
  {| current_url := Ok "https://www.twitch.tv/somechannel";
     page_source := page_source blank_page;
     find_element := fun xpath =>
       if String.eqb xpath Twitch.comments_xpath then Ok (text_element "chat")
       else Raise NoSuchElementException;
     find_elements := fun _ => Ok [];
     execute_script := fun _ => Ok PyNone;
     refresh := Ok tt |}.

(** One tick that reads one message, with what it shows. *)
Definition one_chat : list (Twitch.Tick * (list string * list string)) :=
  [(tick (chat_page ["ann"] ["hello"]), (["ann"], ["hello"]))].

(** A live channel that shows the authors [us] and the messages [cs],
    the live time 1:02:03 and 15 viewers. *)
Definition counted_chat_page (us cs : list string) : WebDriver :=
  {| current_url := Ok "https://www.twitch.tv/somechannel";
     page_source := Ok {| spans_by_class := fun _ => us; spans_by_attr := fun _ _ => cs |};
     find_element := fun xpath =>
       if String.eqb xpath Twitch.offline_xpath then Raise NoSuchElementException
       else if String.eqb xpath "//p[@data-a-target='animated-channel-viewers-count']"
       then Ok (text_element "15")
       else Ok (text_element "1:02:03");
     find_elements := fun _ => Ok [];
     execute_script := fun _ => Ok PyNone;
     refresh := Ok tt |}.

(** A tick on that page with one author and one message. *)
Definition counted_tick : Twitch.Tick := tick (counted_chat_page ["ann"] ["hello"]).

(** A poll of the captcha wait at which the captcha shows and the user
    presses Enter, and one at which the captcha is gone. *)
Definition captcha_poll : Tiktok.Poll :=
  {| Tiktok.poll_page := full_page "x"; Tiktok.poll_input := Ok EmptyString |}.

Definition clear_poll : Tiktok.Poll :=
  {| Tiktok.poll_page := blank_page; Tiktok.poll_input := Ok EmptyString |}.

(** A TikTok iteration whose scroll phase fails in the browser. *)
Definition stuck_tick : Tiktok.Tick :=
  {| Tiktok.scroll_phase := Raise WebDriverException;
     Tiktok.driver := blank_page;
     Tiktok.user_input := Ok "c" |}.

End Scenario.


(* ===================================================================== *)
(** * Facts                                                               *)
(* ===================================================================== *)

Section ReFacts.
Import Re.

Lemma nullable_Matches r : nullable r = true <-> Matches r [].
Proof.
  split.
  - induction r; simpl; intros H; try discriminate.
    + constructor.
    + apply andb_true_iff in H as [H1 H2].
      change (@nil char) with (@nil char ++ []). constructor; auto.
    + apply orb_true_iff in H as [H|H]; [apply MAltL | apply MAltR]; auto.
    + constructor.
  - intros H. remember [] as s eqn:Es. induction H; simpl; auto; try discriminate.
    + apply app_eq_nil in Es as [-> ->]. rewrite IHMatches1, IHMatches2; auto.
    + rewrite IHMatches; auto.
    + rewrite IHMatches; auto. apply orb_true_r.
Qed.

Lemma Matches_Cat r1 r2 s :
  Matches (Cat r1 r2) s <-> exists s1 s2, s = s1 ++ s2 /\ Matches r1 s1 /\ Matches r2 s2.
Proof.
  split.
  - inversion 1; subst; eauto.
  - intros (s1 & s2 & -> & H1 & H2). by constructor.
Qed.

Lemma Matches_Alt r1 r2 s : Matches (Alt r1 r2) s <-> Matches r1 s \/ Matches r2 s.
Proof.
  split.
  - inversion 1; subst; auto.
  - intros [H|H]; [apply MAltL | apply MAltR]; done.
Qed.

Lemma Matches_Eps s : Matches Eps s <-> s = [].
Proof. split; [by inversion 1 | intros ->; constructor]. Qed.

Lemma Matches_Empty s : ~ Matches Empty s.
Proof. inversion 1. Qed.

Lemma Matches_Class p s : Matches (Class p) s <-> exists c, s = [c] /\ p c = true.
Proof.
  split.
  - inversion 1; subst; eauto.
  - intros (c & -> & H). by constructor.
Qed.

(** A word of [Star r] that starts with [c] starts with a word of [r]
    that starts with [c]. *)
Lemma Matches_Star_cons r c s :
  Matches (Star r) (c :: s) ->
  exists s1 s2, s = s1 ++ s2 /\ Matches r (c :: s1) /\ Matches (Star r) s2.
Proof.
  intros H. remember (Star r) as r' eqn:Er. remember (c :: s) as cs eqn:Ecs.
  induction H; try discriminate.
  injection Er as ->.
  destruct s1 as [|c1 s1]; simpl in Ecs.
  - auto.
  - injection Ecs as E1 E2. subst c1 s. eauto.
Qed.

Lemma deriv_Matches c r s : Matches (deriv c r) s <-> Matches r (c :: s).
Proof.
  revert s. induction r; intros s; simpl.
  - split; inversion 1.
  - split; inversion 1.
  - destruct (p c) eqn:Ep.
    + rewrite Matches_Eps, Matches_Class. split.
      * intros ->. eauto.
      * intros (c' & E & _). by injection E.
    + split; [inversion 1|]. rewrite Matches_Class.
      intros (c' & E & Hp). injection E as -> _. congruence.
  - assert (Hcat : Matches (Cat (deriv c r1) r2) s <->
              exists s1 s2, s = s1 ++ s2 /\ Matches r1 (c :: s1) /\ Matches r2 s2).
    { rewrite Matches_Cat. split; intros (s1 & s2 & E & H1 & H2);
        exists s1, s2; repeat split; auto; by apply IHr1. }
    assert (Hgoal : Matches (Cat r1 r2) (c :: s) <->
              (exists s1 s2, s = s1 ++ s2 /\ Matches r1 (c :: s1) /\ Matches r2 s2) \/
              (Matches r1 [] /\ Matches r2 (c :: s))).
    { rewrite Matches_Cat. split.
      - intros (s1 & s2 & E & H1 & H2). destruct s1 as [|c1 s1]; simpl in E.
        + subst s2. auto.
        + injection E as <- ->. left. eauto.
      - intros [(s1 & s2 & -> & H1 & H2) | [H1 H2]].
        + exists (c :: s1), s2. auto.
        + exists [], (c :: s). auto. }
    rewrite Hgoal. destruct (nullable r1) eqn:En.
    + rewrite Matches_Alt, Hcat, IHr2. apply nullable_Matches in En. tauto.
    + rewrite Hcat. split; [tauto|]. intros [H | [H _]]; [done|].
      apply nullable_Matches in H. congruence.
  - rewrite !Matches_Alt, IHr1, IHr2. tauto.
  - rewrite Matches_Cat. split.
    + intros (s1 & s2 & -> & H1 & H2). apply IHr in H1.
      change (c :: s1 ++ s2) with ((c :: s1) ++ s2). by constructor.
    + intros H. apply Matches_Star_cons in H as (s1 & s2 & -> & H1 & H2).
      exists s1, s2. repeat split; auto. by apply IHr.
Qed.

(** The derivative matcher decides [pattern.match]. *)
Lemma re_match_spec r s : re_match r s = true <-> MatchesPrefix r s.
Proof.
  revert r. induction s as [|c s IH]; intros r; simpl.
  - rewrite orb_false_r, nullable_Matches. split.
    + intros H. exists [], []. auto.
    + intros (p & q & E & H). symmetry in E. apply app_eq_nil in E as [-> ->]. done.
  - rewrite orb_true_iff, nullable_Matches, IH. split.
    + intros [H | (p & q & -> & H)].
      * exists [], (c :: s). auto.
      * exists (c :: p), q. split; [done|]. by apply deriv_Matches.
    + intros (p & q & E & H). destruct p as [|c' p]; simpl in E.
      * auto.
      * injection E as <- ->. right. exists p, q. split; [done|]. by apply deriv_Matches.
Qed.

End ReFacts.

Section DetectedFacts.
Import Re Detected.

Lemma Matches_Lit l s : Matches (Lit l) s <-> s = l.
Proof.
  revert s. induction l as [|c l IH]; intros s; simpl.
  - apply Matches_Eps.
  - rewrite Matches_Cat. split.
    + intros (s1 & s2 & -> & H1 & H2). apply Matches_Class in H1 as (c' & -> & Hc).
      apply N.eqb_eq in Hc as <-. apply IH in H2 as ->. done.
    + intros ->. exists [c], l. repeat split.
      * constructor. apply N.eqb_refl.
      * by apply IH.
Qed.

Lemma MatchesPrefix_Cat r1 r2 s :
  MatchesPrefix (Cat r1 r2) s <->
  exists s1 s2, s = s1 ++ s2 /\ Matches r1 s1 /\ MatchesPrefix r2 s2.
Proof.
  unfold MatchesPrefix. split.
  - intros (p & q & -> & H). apply Matches_Cat in H as (s1 & s2 & -> & H1 & H2).
    exists s1, (s2 ++ q). rewrite app_assoc. eauto 8.
  - intros (s1 & s2 & -> & H1 & p & q & -> & H2).
    exists (s1 ++ p), q. rewrite app_assoc. split; [done|]. by constructor.
Qed.

Lemma MatchesPrefix_Lit l r s :
  MatchesPrefix (Cat (Lit l) r) s <-> exists t, s = l ++ t /\ MatchesPrefix r t.
Proof.
  rewrite MatchesPrefix_Cat. split.
  - intros (s1 & s2 & -> & H1 & H2). apply Matches_Lit in H1 as ->. eauto.
  - intros (t & -> & H). exists l, t. repeat split; auto. by apply Matches_Lit.
Qed.

Lemma MatchesPrefix_Opt a r s :
  MatchesPrefix (Cat (Opt a) r) s <-> MatchesPrefix (Cat a r) s \/ MatchesPrefix r s.
Proof.
  rewrite !MatchesPrefix_Cat. unfold Opt. split.
  - intros (s1 & s2 & -> & H1 & H2). apply Matches_Alt in H1 as [H1|H1].
    + left. eauto.
    + apply Matches_Eps in H1 as ->. by right.
  - intros [(s1 & s2 & -> & H1 & H2) | H].
    + exists s1, s2. repeat split; auto. by apply MAltL.
    + exists [], s. repeat split; auto. apply MAltR. constructor.
Qed.

Lemma MatchesPrefix_Alt a b r s :
  MatchesPrefix (Cat (Alt a b) r) s <-> MatchesPrefix (Cat a r) s \/ MatchesPrefix (Cat b r) s.
Proof.
  rewrite !MatchesPrefix_Cat. split.
  - intros (s1 & s2 & -> & H1 & H2). apply Matches_Alt in H1 as [H1|H1]; eauto 6.
  - intros [(s1 & s2 & -> & H1 & H2) | (s1 & s2 & -> & H1 & H2)];
      exists s1, s2; repeat split; auto; [by apply MAltL | by apply MAltR].
Qed.

Lemma MatchesPrefix_Chr c r s :
  MatchesPrefix (Cat (Chr c) r) s <-> exists t, s = c :: t /\ MatchesPrefix r t.
Proof.
  rewrite MatchesPrefix_Cat. split.
  - intros (s1 & s2 & -> & H1 & H2). apply Matches_Class in H1 as (c' & -> & Hc).
    apply N.eqb_eq in Hc as <-. eauto.
  - intros (t & -> & H). exists [c], t. repeat split; auto.
    constructor. apply N.eqb_refl.
Qed.

Lemma MatchesPrefix_Plus_Class p s :
  MatchesPrefix (Plus (Class p)) s <-> exists c t, s = c :: t /\ p c = true.
Proof.
  unfold Plus. rewrite MatchesPrefix_Cat. split.
  - intros (s1 & s2 & -> & H1 & _). apply Matches_Class in H1 as (c & -> & Hc). eauto.
  - intros (c & t & -> & Hc). exists [c], t. repeat split.
    + by constructor.
    + exists [], t. split; [done | constructor].
Qed.

(** The head [https?://(www\.)?]: what a string with a matching prefix
    looks like. *)
Lemma scheme_www_shape body s :
  MatchesPrefix (scheme_www body) s <->
  exists o1 o2 t,
    s = lit "http" ++ o1 ++ lit "://" ++ o2 ++ t /\
    (o1 = [] \/ o1 = lit "s") /\ (o2 = [] \/ o2 = lit "www.") /\
    MatchesPrefix body t.
Proof.
  unfold scheme_www. rewrite MatchesPrefix_Lit. split.
  - intros (t1 & -> & H). apply MatchesPrefix_Opt in H as [H|H].
    + apply MatchesPrefix_Chr in H as (t2 & -> & H).
      apply MatchesPrefix_Lit in H as (t3 & -> & H).
      apply MatchesPrefix_Opt in H as [H|H].
      * apply MatchesPrefix_Lit in H as (t4 & -> & H).
        exists (lit "s"), (lit "www."), t4. auto.
      * exists (lit "s"), [], t3. auto.
    + apply MatchesPrefix_Lit in H as (t3 & -> & H).
      apply MatchesPrefix_Opt in H as [H|H].
      * apply MatchesPrefix_Lit in H as (t4 & -> & H).
        exists [], (lit "www."), t4. auto.
      * exists [], [], t3. auto.
  - intros (o1 & o2 & t & -> & H1 & H2 & H).
    eexists. split; [reflexivity|].
    apply MatchesPrefix_Opt. destruct H1 as [-> | ->].
    + right. apply MatchesPrefix_Lit. eexists. split; [reflexivity|].
      apply MatchesPrefix_Opt. destruct H2 as [-> | ->]; [by right | left].
      apply MatchesPrefix_Lit. eauto.
    + left. apply MatchesPrefix_Chr. eexists. split; [reflexivity|].
      apply MatchesPrefix_Lit. eexists. split; [reflexivity|].
      apply MatchesPrefix_Opt. destruct H2 as [-> | ->]; [by right | left].
      apply MatchesPrefix_Lit. eauto.
Qed.

Section Tables.
Variables isalnum isdecimal : char -> bool.

Lemma youtube_body_starts t :
  MatchesPrefix (Cat (Alt (Lit (lit "youtube.com/watch?v=")) (Lit (lit "youtu.be/")))
                     (Plus (Class (word_or_dash isalnum)))) t ->
  exists t', t = lit "youtu" ++ t'.
Proof.
  intros H. apply MatchesPrefix_Alt in H as [H|H];
    apply MatchesPrefix_Lit in H as (t' & -> & _).
  - by exists (lit "be.com/watch?v=" ++ t').
  - by exists (lit ".be/" ++ t').
Qed.

Lemma twitch_body_starts t :
  MatchesPrefix (Cat (Lit (lit "twitch.tv/")) (Plus (Class (word_or_dash isalnum)))) t ->
  exists t', t = lit "tw" ++ t'.
Proof.
  intros H. apply MatchesPrefix_Lit in H as (t' & -> & _).
  by exists (lit "itch.tv/" ++ t').
Qed.

Lemma tiktok_body_starts t :
  MatchesPrefix (Cat (Lit (lit "tiktok.com/@"))
      (Cat (Plus (Class (word_or_dot isalnum)))
        (Cat (Lit (lit "/video/")) (Plus (Class isdecimal))))) t ->
  exists t', t = lit "ti" ++ t'.
Proof.
  intros H. apply MatchesPrefix_Lit in H as (t' & -> & _).
  by exists (lit "ktok.com/@" ++ t').
Qed.

(** Two decompositions of one string along the shared head whose bodies
    start with different letters cannot coexist. *)
Ltac clash H1 H2 L1 L2 :=
  apply scheme_www_shape in H1 as (? & ? & ? & ? & [-> | ->] & [-> | ->] & H1);
  apply scheme_www_shape in H2 as (? & ? & ? & ? & [-> | ->] & [-> | ->] & H2);
  apply L1 in H1 as (? & ->); apply L2 in H2 as (? & ->);
  subst; vm_compute in * |-; discriminate.

Lemma youtube_twitch_exclusive s :
  MatchesPrefix (youtube_pattern isalnum) s -> MatchesPrefix (twitch_pattern isalnum) s -> False.
Proof.
  unfold youtube_pattern, twitch_pattern. intros H1 H2.
  clash H1 H2 youtube_body_starts twitch_body_starts.
Qed.

Lemma youtube_tiktok_exclusive s :
  MatchesPrefix (youtube_pattern isalnum) s ->
  MatchesPrefix (tiktok_pattern isalnum isdecimal) s -> False.
Proof.
  unfold youtube_pattern, tiktok_pattern. intros H1 H2.
  clash H1 H2 youtube_body_starts tiktok_body_starts.
Qed.

Lemma twitch_tiktok_exclusive s :
  MatchesPrefix (twitch_pattern isalnum) s ->
  MatchesPrefix (tiktok_pattern isalnum isdecimal) s -> False.
Proof.
  unfold twitch_pattern, tiktok_pattern. intros H1 H2.
  clash H1 H2 twitch_body_starts tiktok_body_starts.
Qed.

Lemma re_match_false r s : re_match r s = false <-> ~ MatchesPrefix r s.
Proof. rewrite <- re_match_spec. destruct (re_match r s); split; congruence. Qed.

(** C1. [DetectPlatform] is a total function from URL strings to the four
    tags: it answers 'youtube' exactly on the strings with a prefix of
    the video-watch shape, 'twitch' exactly on those with a prefix of the
    channel shape, 'tiktok' exactly on those with a prefix of the
    short-clip shape with a numeric id, and 'INVALIDURL' exactly on all
    other strings; the answer is always one of the four tags. *)
Theorem DetectPlatform_classifies (url : str) :
  (DetectPlatform isalnum isdecimal url = "youtube" <->
     MatchesPrefix (youtube_pattern isalnum) url) /\
  (DetectPlatform isalnum isdecimal url = "twitch" <->
     MatchesPrefix (twitch_pattern isalnum) url) /\
  (DetectPlatform isalnum isdecimal url = "tiktok" <->
     MatchesPrefix (tiktok_pattern isalnum isdecimal) url) /\
  (DetectPlatform isalnum isdecimal url = "INVALIDURL" <->
     ~ MatchesPrefix (youtube_pattern isalnum) url /\
     ~ MatchesPrefix (twitch_pattern isalnum) url /\
     ~ MatchesPrefix (tiktok_pattern isalnum isdecimal) url) /\
  In (DetectPlatform isalnum isdecimal url) ["youtube"; "twitch"; "tiktok"; "INVALIDURL"].
Proof.
  pose proof (youtube_twitch_exclusive url) as Hyt.
  pose proof (youtube_tiktok_exclusive url) as Hyk.
  pose proof (twitch_tiktok_exclusive url) as Htk.
  unfold DetectPlatform.
  destruct (re_match (youtube_pattern isalnum) url) eqn:Ey;
    [apply re_match_spec in Ey | apply re_match_false in Ey];
  (destruct (re_match (twitch_pattern isalnum) url) eqn:Et;
    [apply re_match_spec in Et | apply re_match_false in Et]);
  (destruct (re_match (tiktok_pattern isalnum isdecimal) url) eqn:Ek;
    [apply re_match_spec in Ek | apply re_match_false in Ek]);
  simpl; repeat split; try discriminate; try tauto; auto 6; intros; exfalso; tauto.
Qed.

End Tables.

(** The four examples of the specification, run on the ASCII tables. *)
Example DetectPlatform_youtube_example :
  DetectPlatform ascii_isalnum ascii_isdecimal (lit "https://www.youtube.com/watch?v=abc123")
  = "youtube".
Proof. vm_compute. reflexivity. Qed.

Example DetectPlatform_twitch_example :
  DetectPlatform ascii_isalnum ascii_isdecimal (lit "https://twitch.tv/somechannel") = "twitch".
Proof. vm_compute. reflexivity. Qed.

Example DetectPlatform_tiktok_example :
  DetectPlatform ascii_isalnum ascii_isdecimal
    (lit "https://www.tiktok.com/@user.name/video/1234567890") = "tiktok".
Proof. vm_compute. reflexivity. Qed.

Example DetectPlatform_invalid_example :
  DetectPlatform ascii_isalnum ascii_isdecimal (lit "https://example.com/") = "INVALIDURL".
Proof. vm_compute. reflexivity. Qed.

End DetectedFacts.

Section ScrollFacts.
Import Py Youtube.
Context {St : Type} `{Traced St}.
Variable heights : nat -> Z.

(** A round of the scroll loop raises the attempt counter by one when the
    new height equals the last one, and sets it to zero, taking the new
    height as the reference, when it differs. *)
Lemma scroll_round_run rounds page_init_height current_attempt (s : St) :
  exists s',
    scroll_round heights rounds page_init_height current_attempt s =
    (Ok (if Z.eqb page_init_height (heights (S rounds))
         then (page_init_height, current_attempt + 1)
         else (heights (S rounds), 0)), s').
Proof.
  unfold scroll_round.
  destruct (Z.eqb page_init_height (heights (S rounds))); eexists; reflexivity.
Qed.

Lemma scroll_round_streak r (s : St) :
  exists s',
    scroll_round heights r (heights r) (streak heights r) s =
    (Ok (heights (S r), streak heights (S r)), s').
Proof.
  destruct (scroll_round_run r (heights r) (streak heights r) s) as [s' E].
  exists s'. rewrite E. simpl. destruct (Z.eqb_spec (heights r) (heights (S r))) as [Eh|_].
  - rewrite Eh, Nat.add_1_r. reflexivity.
  - reflexivity.
Qed.

Lemma scroll_while_run fuel : forall r rounds (s : St),
  (forall r', r <= r' < rounds -> streak heights r' < 3) ->
  streak heights rounds = 3 ->
  r <= rounds -> rounds - r <= fuel ->
  exists s',
    scroll_while heights fuel r (heights r) (streak heights r) s = (Ok (Some rounds), s').
Proof.
  induction fuel as [|fuel IH]; intros r rounds s Hlt H3 Hle Hfuel.
  - assert (r = rounds) as -> by lia. simpl. rewrite H3. simpl. eauto.
  - destruct (decide (r = rounds)) as [->|Hne].
    + simpl. rewrite H3. simpl. eauto.
    + assert (Hr : streak heights r < 3) by (apply Hlt; lia).
      cbn [scroll_while]. unfold max_attempts.
      destruct (Nat.ltb_spec (streak heights r) 3) as [_|?]; [|lia].
      destruct (scroll_round_streak r s) as [s1 E1].
      destruct (IH (S r) rounds s1) as [s2 E2]; try lia; auto.
      { intros r' Hr'. apply Hlt. lia. }
      exists s2. unfold mbind, M_bind, bind in *. rewrite E1. exact E2.
Qed.

(** The streak grows by at most one per round, so it takes the value 3
    before it can exceed it. *)
Lemma streak_first_three n :
  (forall r, r <= n -> streak heights r < 3) \/
  (exists rounds, rounds <= n /\ streak heights rounds = 3 /\
                  forall r, r < rounds -> streak heights r < 3).
Proof.
  induction n as [|n [IH | (rounds & Hr & H3 & Hmin)]].
  - left. intros r Hr. assert (r = 0) as -> by lia. simpl. lia.
  - assert (Hn : streak heights n < 3) by (apply IH; lia).
    destruct (decide (streak heights (S n) = 3)) as [E|NE].
    + right. exists (S n). repeat split; auto. intros r Hr. apply IH. lia.
    + left. intros r Hr. destruct (decide (r = S n)) as [->|?]; [|apply IH; lia].
      simpl in *. destruct (Z.eqb (heights n) (heights (S n))); lia.
  - right. exists rounds. auto with lia.
Qed.

Lemma streak_constant n k :
  (forall m, n <= m -> heights m = heights n) -> k <= streak heights (n + k).
Proof.
  intros Hc. induction k as [|k IH]; [lia|].
  rewrite Nat.add_succ_r. simpl.
  rewrite (Hc (n + k)), (Hc (S (n + k))) by lia. rewrite Z.eqb_refl. lia.
Qed.

(** C9. On every sequence of page heights that is constant from some
    point on, [ScrollDownPageYouTube] terminates: it ends after the
    first round that completes a run of three rounds in a row with an
    unchanged height ([streak], which goes up by one on an unchanged
    round and back to zero on a change, is the attempt counter), and any
    fuel of at least that many rounds gives this result. *)
Theorem ScrollDownPageYouTube_terminates :
  (exists n, forall m, n <= m -> heights m = heights n) ->
  exists rounds,
    streak heights rounds = 3 /\
    (forall r, r < rounds -> streak heights r < 3) /\
    forall fuel (s : St), rounds <= fuel ->
      exists s', ScrollDownPageYouTube heights fuel s = (Ok (Some rounds), s').
Proof.
  intros [n Hc].
  destruct (streak_first_three (n + 3)) as [Hlt | (rounds & Hr & H3 & Hmin)].
  - pose proof (streak_constant n 3 Hc). specialize (Hlt (n + 3)). lia.
  - exists rounds. repeat split; auto.
    intros fuel s Hfuel. unfold ScrollDownPageYouTube.
    set (s0 := emit_to (EvLog "INFO" ("Initial total page height: " +:+
                 PyString.str_of_Z (heights 0))) (emit_to (EvScript height_script) s)).
    destruct (scroll_while_run fuel 0 rounds s0) as [s1 E1]; try lia; auto.
    { intros r' Hr'. apply Hmin. lia. }
    simpl in E1. eexists.
    unfold mbind, M_bind, bind, LogMessage, emit, modify. fold s0. rewrite E1. reflexivity.
Qed.

End ScrollFacts.

(** A page of constant height: the loop makes three rounds. *)
Lemma ScrollDownPageYouTube_terminates_witness :
  exists rounds,
    Youtube.streak (fun _ => 1080%Z) rounds = 3 /\
    (forall r, r < rounds -> Youtube.streak (fun _ => 1080%Z) r < 3) /\
    forall fuel (s : list Py.event), rounds <= fuel ->
      exists s', Youtube.ScrollDownPageYouTube (fun _ => 1080%Z) fuel s
                 = (Py.Ok (Some rounds), s').
Proof.
  apply (ScrollDownPageYouTube_terminates (fun _ => 1080%Z)).
  exists 0. intros m _. reflexivity.
Defined.

Example ScrollDownPageYouTube_growing_then_still :
  fst (Youtube.ScrollDownPageYouTube
         (fun k => match k with 0 => 100%Z | 1 => 200%Z | 2 => 200%Z | 3 => 300%Z | _ => 400%Z end)
         10 ([] : list Py.event)) = Py.Ok (Some 7).
Proof. vm_compute. reflexivity. Qed.

(* --------------------------------------------------------------------- *)
(** ** The warning path of the extractors                                 *)
(* --------------------------------------------------------------------- *)

Section WarnFacts.
Import Py Selenium Inspect.
Context {St : Type} `{Traced St}.

(** A caller that has no local variable named after the extractor makes
    the lookup of the docstring raise, before anything is logged. *)
Lemma caller_docstring_unbound func_name (f_back : frame) (s : St) :
  f_locals f_back !! func_name = None ->
  caller_docstring func_name f_back s = (Raise (KeyError func_name), s).
Proof. intros E. unfold caller_docstring. rewrite E. reflexivity. Qed.

Lemma warn_not_found_unbound {A} xpath func_name (f_back : frame) (sentinel : A) (s : St) :
  f_locals f_back !! func_name = None ->
  warn_not_found xpath func_name f_back sentinel s = (Raise (KeyError func_name), s).
Proof.
  intros E. unfold warn_not_found, mbind, M_bind, bind.
  rewrite caller_docstring_unbound by done. reflexivity.
Qed.

Lemma warn_error_unbound {A} func_name (f_back : frame) e (sentinel : A) (s : St) :
  f_locals f_back !! func_name = None ->
  warn_error func_name f_back e sentinel s = (Raise (KeyError func_name), s).
Proof.
  intros E. unfold warn_error, mbind, M_bind, bind.
  rewrite caller_docstring_unbound by done. reflexivity.
Qed.

(** What [_extract_name_channel] does, read off the page: it returns the
    text when the element and its text can be read; when the read fails
    with an [Exception], the handler itself raises [KeyError] and the
    state, trace included, is as before the call. *)
Lemma extract_name_channel_outcome driver (f_back : frame) (s : St) :
  f_locals f_back !! "_extract_name_channel" = None ->
  Youtube._extract_name_channel driver f_back s =
  match
    match find_element driver
            "//yt-formatted-string[@class='style-scope ytd-channel-name complex-string']/a"
    with
    | Ok element => text element
    | Raise e => Raise e
    end
  with
  | Ok t => (Ok (PyStr t), s)
  | Raise e =>
      (Raise (if is_Exception e then KeyError "_extract_name_channel" else e), s)
  end.
Proof.
  intros E. unfold Youtube._extract_name_channel, Youtube.element_text, try_except,
    mbind, M_bind, bind, answer, mret, M_ret, ret.
  destruct (find_element driver _) as [element|e].
  - destruct (text element) as [t|e]; [reflexivity|].
    unfold except_not_found_then_exception.
    destruct e; simpl; try reflexivity;
      first [apply warn_not_found_unbound | apply warn_error_unbound]; done.
  - unfold except_not_found_then_exception.
    destruct e; simpl; try reflexivity;
      first [apply warn_not_found_unbound | apply warn_error_unbound]; done.
Qed.

(** Had the caller a local variable of that name, the same extractor
    would log one warning and return the sentinel ['None']. *)
Lemma extract_name_channel_bound driver (f_back : frame) doc (s : St) :
  f_locals f_back !! "_extract_name_channel" = Some doc ->
  find_element driver
    "//yt-formatted-string[@class='style-scope ytd-channel-name complex-string']/a"
  = Raise NoSuchElementException ->
  exists msg,
    Youtube._extract_name_channel driver f_back s =
    (Ok (PyStr "None"), emit_to (EvLog "WARNING" msg) s).
Proof.
  intros E Hf. unfold Youtube._extract_name_channel, Youtube.element_text, try_except,
    mbind, M_bind, bind, answer. rewrite Hf. simpl.
  unfold warn_not_found, caller_docstring, mbind, M_bind, bind. rewrite E.
  eexists. reflexivity.
Qed.

End WarnFacts.

(** C2. The field extractors do propagate an exception: on a page
    without the channel name, [_extract_name_channel], called from
    [ExtractDataPageYouTube], raises [KeyError] out of its own
    [except] clause and logs nothing, and the assembly as a whole raises
    with it; [_extract_time_live], called from [ExtractDataPageTwitch]
    on a page without the live time, does the same. *)
Theorem extractor_handler_raises_KeyError :
  Youtube._extract_name_channel Selenium.blank_page Youtube.ExtractDataPageYouTube_frame
    ([] : list Py.event)
  = (Py.Raise (Py.KeyError "_extract_name_channel"), []) /\
  fst (Youtube.ExtractDataPageYouTube Scenario.noon Selenium.blank_page ([] : list Py.event))
  = Py.Raise (Py.KeyError "_extract_name_channel") /\
  Twitch._extract_time_live Selenium.blank_page
    (Twitch.ExtractDataPageTwitch_frame (Twitch.initial_state ∅)) (Twitch.initial_state ∅)
  = (Py.Raise (Py.KeyError "_extract_time_live"), Twitch.initial_state ∅).
Proof. repeat split; vm_compute; reflexivity. Qed.

(* --------------------------------------------------------------------- *)
(** ** The time stamp of the records                                      *)
(* --------------------------------------------------------------------- *)

Section StampFacts.
Import Py Selenium Inspect Datetime.
Context {St : Type} `{Traced St}.

(** Collecting a job either goes on or is cut by a keyboard interrupt. *)
Lemma collect_outcome key (job : M St pyval) results (s : St) :
  match Tiktok.collect key job results s with
  | (Ok _, _) => True
  | (Raise e, _) => e = KeyboardInterrupt
  end.
Proof.
  unfold Tiktok.collect, attempt, mbind, M_bind, bind.
  destruct (job s) as [[v|e] s']; [exact I|].
  destruct e; simpl; auto.
Qed.

Lemma extract_all_data_stamp driver (s : St) :
  match Tiktok.extract_all_data driver s with
  | (Ok data, _) => Tiktok.date_scraping data = "2024-07-30 03:18:56"
  | (Raise e, _) => e = KeyboardInterrupt
  end.
Proof.
  unfold Tiktok.extract_all_data, mbind, M_bind, bind.
  repeat match goal with
  | |- context [Tiktok.collect ?k ?j ?r ?s0] =>
      let Hc := fresh "Hc" in
      pose proof (collect_outcome k j r s0) as Hc;
      destruct (Tiktok.collect k j r s0) as [[?|?] ?]; [clear Hc | exact Hc]
  end.
  match goal with |- context [if ?b then _ else _] => destruct b end; reflexivity.
Qed.

Lemma ExtractDataPageYouTube_stamp now driver (s : St) :
  match Youtube.ExtractDataPageYouTube now driver s with
  | (Ok data, _) => Youtube.date_scraping data = strftime now
  | (Raise _, _) => True
  end.
Proof.
  unfold Youtube.ExtractDataPageYouTube, mbind, M_bind, bind.
  do 15 match goal with
  | |- context [match ?c driver ?f ?s0 with _ => _ end] =>
      destruct (c driver f s0) as [[?|?] ?]; [|exact I]
  end.
  reflexivity.
Qed.

End StampFacts.

(** C10. Every record that [extract_all_data] assembles for TikTok
    carries the fixed [date_scraping] "2024-07-30 03:18:56" (the function
    reads no clock, and only a keyboard interrupt keeps it from
    returning), while the record of [ExtractDataPageYouTube] carries the
    reading of the clock at assembly: on one and the same page, two
    clock readings give two different YouTube stamps. *)
Theorem date_scraping_fixed_for_tiktok_clock_for_youtube :
  (forall driver (s : list Py.event),
     match Tiktok.extract_all_data driver s with
     | (Py.Ok data, _) => Tiktok.date_scraping data = "2024-07-30 03:18:56"
     | (Py.Raise e, _) => e = Py.KeyboardInterrupt
     end) /\
  (forall now driver (s : list Py.event),
     match Youtube.ExtractDataPageYouTube now driver s with
     | (Py.Ok data, _) => Youtube.date_scraping data = Datetime.strftime now
     | (Py.Raise _, _) => True
     end) /\
  Youtube.date_scraping <$>
    Py.value (Youtube.ExtractDataPageYouTube Scenario.noon (Scenario.full_page "x")
                ([] : list Py.event)) = Some "2024-08-01 12:00:00" /\
  Youtube.date_scraping <$>
    Py.value (Youtube.ExtractDataPageYouTube Scenario.midnight (Scenario.full_page "x")
                ([] : list Py.event)) = Some "2024-08-02 00:00:00" /\
  Tiktok.date_scraping <$>
    Py.value (Tiktok.extract_all_data (Scenario.full_page "x") ([] : list Py.event))
  = Some "2024-07-30 03:18:56".
Proof.
  split; [|split].
  - intros. apply extract_all_data_stamp.
  - intros. apply ExtractDataPageYouTube_stamp.
  - repeat split; vm_compute; reflexivity.
Qed.

(* --------------------------------------------------------------------- *)
(** ** The completeness flag of the TikTok loop                           *)
(* --------------------------------------------------------------------- *)

Section FlagFacts.
Import Py Tiktok.

(** What [all(a and b and c and d and e)] computes: the chain of [and]
    yields its first empty operand, whose [all] is true, or else the
    list of dates, whose [all] asks every date to be non-empty. *)
Lemma completeness_flag_spec d u :
  url_post d = PyStr u ->
  completeness_flag (Some d) =
  Ok (if mandatory_present d then forallb truthy (date (comment d)) else true).
Proof.
  intros Eu. unfold completeness_flag, mandatory, mandatory_present, get_url_post,
    get_comment, py_and. rewrite Eu.
  destruct (truthy (PyStr u)); [|reflexivity].
  destruct (username (comment d)); [reflexivity|].
  destruct (n_like (comment d)); [reflexivity|].
  destruct (n_response (comment d)); [reflexivity|].
  destruct (date (comment d)); reflexivity.
Qed.

End FlagFacts.

(** C7. The flag that guards the prompt is not the conjunction of the
    mandatory fields being there.  On a page whose comment containers
    cannot be read the four lists come out empty, yet the flag is true
    and the prompt is shown; on a page where all five fields are there
    but the dates have empty texts, the flag is false and the prompt is
    skipped. *)
Theorem completeness_flag_differs_from_conjunction :
  (Tiktok.mandatory_present <$>
     Tiktok.data (snd (Scenario.tiktok_run Scenario.broken_comments_page "c"))) = Some false /\
  Tiktok.completeness_flag
    (Tiktok.data (snd (Scenario.tiktok_run Scenario.broken_comments_page "c"))) = Py.Ok true /\
  In (Py.EvInput Tiktok.prompt)
     (Tiktok.trace (snd (Scenario.tiktok_run Scenario.broken_comments_page "c"))) /\
  (Tiktok.mandatory_present <$>
     Tiktok.data (snd (Scenario.tiktok_run (Scenario.full_page EmptyString) "c"))) = Some true /\
  Tiktok.completeness_flag
    (Tiktok.data (snd (Scenario.tiktok_run (Scenario.full_page EmptyString) "c")))
    = Py.Ok false /\
  ~ In (Py.EvInput Tiktok.prompt)
       (Tiktok.trace (snd (Scenario.tiktok_run (Scenario.full_page EmptyString) "c"))).
Proof.
  vm_compute; repeat split; try reflexivity.
  - repeat ((left; reflexivity) || right).
  - intros H. repeat (destruct H as [H|H]; [discriminate H|]). exact H.
Qed.

(* --------------------------------------------------------------------- *)
(** ** The CSV sink                                                       *)
(* --------------------------------------------------------------------- *)

Section CsvFacts.
Import Py Twitch.

(** The rows of a data frame are the entries of the five columns, taken
    position by position. *)
Lemma rows_of_columns d : forall t v u c,
  length t = length d -> length v = length d ->
  length u = length d -> length c = length d ->
  length (rows_of d t v u c) = length d /\
  map row_date_scraping (rows_of d t v u c) = d /\
  map row_time_live (rows_of d t v u c) = t /\
  map row_views (rows_of d t v u c) = v /\
  map row_username (rows_of d t v u c) = u /\
  map row_comment (rows_of d t v u c) = c.
Proof.
  induction d as [|d0 d IH]; intros [|t0 t] [|v0 v] [|u0 u] [|c0 c]; simpl;
    intros Ht Hv Hu Hc; try discriminate; auto 10.
  injection Ht as Ht. injection Hv as Hv. injection Hu as Hu. injection Hc as Hc.
  destruct (IH t v u c Ht Hv Hu Hc) as (-> & -> & -> & -> & -> & ->). auto 10.
Qed.

Lemma DataFrame_rows data :
  same_lengths data = true ->
  exists rows,
    DataFrame data = Ok rows /\
    length rows = length (db_date_scraping data) /\
    map row_date_scraping rows = db_date_scraping data /\
    map row_time_live rows = db_time_live data /\
    map row_views rows = db_views data /\
    map row_username rows = db_username data /\
    map row_comment rows = db_comment data.
Proof.
  intros Hs. unfold DataFrame. rewrite Hs. eexists. split; [reflexivity|].
  unfold same_lengths in Hs.
  repeat (apply andb_true_iff in Hs as [Hs ?]).
  apply rows_of_columns; by apply Nat.eqb_eq.
Qed.

(** One flush: the rows of the buffer are put after the rows that the
    file holds, or make a new file. *)
Lemma create_csv_run data rows name_folder name_file (s : State) :
  DataFrame data = Ok rows ->
  exists s',
    _create_csv (Ok tt) data name_folder name_file s = (Ok tt, s') /\
    files s' = <[PyString.path_join name_folder name_file :=
                   default [] (files s !! PyString.path_join name_folder name_file) ++ rows]>
               (files s) /\
    db s' = db s /\ seen_comments s' = seen_comments s.
Proof.
  intros Hd. unfold _create_csv, mbind, M_bind, bind, answer. rewrite Hd. simpl.
  destruct (files s !! PyString.path_join name_folder name_file) as [existing|];
    simpl; eexists; split; reflexivity || (repeat split; reflexivity).
Qed.

(** C8. Flushing a buffer [A] to a target that does not exist and then a
    buffer [B] to the same target leaves a file of [|A| + |B|] rows: the
    rows of [A] in their order, followed by the rows of [B] in theirs;
    the second flush reads the rows of the file, appends and rewrites. *)
Theorem create_csv_twice_concatenates A B name_folder name_file (s : State) :
  same_lengths A = true -> same_lengths B = true ->
  files s !! PyString.path_join name_folder name_file = None ->
  exists rowsA rowsB s1 s2,
    DataFrame A = Ok rowsA /\ DataFrame B = Ok rowsB /\
    _create_csv (Ok tt) A name_folder name_file s = (Ok tt, s1) /\
    files s1 !! PyString.path_join name_folder name_file = Some rowsA /\
    _create_csv (Ok tt) B name_folder name_file s1 = (Ok tt, s2) /\
    files s2 !! PyString.path_join name_folder name_file = Some (rowsA ++ rowsB) /\
    length (rowsA ++ rowsB) = length (db_date_scraping A) + length (db_date_scraping B) /\
    map row_username (rowsA ++ rowsB) = db_username A ++ db_username B /\
    map row_comment (rowsA ++ rowsB) = db_comment A ++ db_comment B /\
    map row_date_scraping (rowsA ++ rowsB) = db_date_scraping A ++ db_date_scraping B /\
    map row_time_live (rowsA ++ rowsB) = db_time_live A ++ db_time_live B /\
    map row_views (rowsA ++ rowsB) = db_views A ++ db_views B.
Proof.
  intros HA HB Hfresh.
  destruct (DataFrame_rows A HA) as (rowsA & EA & LA & A1 & A2 & A3 & A4 & A5).
  destruct (DataFrame_rows B HB) as (rowsB & EB & LB & B1 & B2 & B3 & B4 & B5).
  destruct (create_csv_run A rowsA name_folder name_file s EA) as (s1 & R1 & F1 & _).
  destruct (create_csv_run B rowsB name_folder name_file s1 EB) as (s2 & R2 & F2 & _).
  exists rowsA, rowsB, s1, s2.
  assert (G1 : files s1 !! PyString.path_join name_folder name_file = Some rowsA).
  { rewrite F1, Hfresh. simpl. apply lookup_insert_eq. }
  repeat split; auto.
  - rewrite F2, G1. simpl. apply lookup_insert_eq.
  - rewrite length_app. lia.
  - rewrite map_app. congruence.
  - rewrite map_app. congruence.
  - rewrite map_app. congruence.
  - rewrite map_app. congruence.
  - rewrite map_app. congruence.
Qed.

End CsvFacts.

(** Two buffers of one and of two rows, flushed to a new file. *)
Lemma create_csv_twice_concatenates_witness :
  exists rowsA rowsB s1 s2,
    Twitch.DataFrame Scenario.buffer_A = Py.Ok rowsA /\
    Twitch.DataFrame Scenario.buffer_B = Py.Ok rowsB /\
    Twitch._create_csv (Py.Ok tt) Scenario.buffer_A "out" "chat.csv" (Twitch.initial_state ∅)
      = (Py.Ok tt, s1) /\
    Twitch.files s1 !! PyString.path_join "out" "chat.csv" = Some rowsA /\
    Twitch._create_csv (Py.Ok tt) Scenario.buffer_B "out" "chat.csv" s1 = (Py.Ok tt, s2) /\
    Twitch.files s2 !! PyString.path_join "out" "chat.csv" = Some (rowsA ++ rowsB) /\
    length (rowsA ++ rowsB)
      = length (Twitch.db_date_scraping Scenario.buffer_A)
        + length (Twitch.db_date_scraping Scenario.buffer_B) /\
    map Twitch.row_username (rowsA ++ rowsB)
      = Twitch.db_username Scenario.buffer_A ++ Twitch.db_username Scenario.buffer_B /\
    map Twitch.row_comment (rowsA ++ rowsB)
      = Twitch.db_comment Scenario.buffer_A ++ Twitch.db_comment Scenario.buffer_B /\
    map Twitch.row_date_scraping (rowsA ++ rowsB)
      = Twitch.db_date_scraping Scenario.buffer_A ++ Twitch.db_date_scraping Scenario.buffer_B /\
    map Twitch.row_time_live (rowsA ++ rowsB)
      = Twitch.db_time_live Scenario.buffer_A ++ Twitch.db_time_live Scenario.buffer_B /\
    map Twitch.row_views (rowsA ++ rowsB)
      = Twitch.db_views Scenario.buffer_A ++ Twitch.db_views Scenario.buffer_B.
Proof.
  apply (create_csv_twice_concatenates Scenario.buffer_A Scenario.buffer_B "out" "chat.csv"
           (Twitch.initial_state ∅)); reflexivity.
Defined.

(* --------------------------------------------------------------------- *)
(** ** The Twitch loop                                                    *)
(* --------------------------------------------------------------------- *)

Section TwitchFacts.
Import Py Selenium Inspect Twitch.

(** The two checks, read off the page. *)
Lemma check_offline_false d (s : State) e :
  find_element d offline_xpath = Raise e -> is_Exception e = true ->
  _check_offline d s = (Ok false, s).
Proof.
  intros E He. unfold _check_offline, try_except, mbind, M_bind, bind, answer.
  rewrite E. unfold except_exception. rewrite He. reflexivity.
Qed.

Lemma check_presence_true d (s : State) el :
  find_element d comments_xpath = Ok el ->
  _check_element_comments_presence d s
  = (Ok true, emit_to (EvPrint "Element of comments found.") s).
Proof.
  intros E. unfold _check_element_comments_presence, try_except, mbind, M_bind, bind, answer.
  rewrite E. reflexivity.
Qed.

Lemma extract_time_live_ok d f (s : State) el tl :
  find_element d "//span[@class='live-time']" = Ok el -> text el = Ok tl ->
  _extract_time_live d f s = (Ok (PyStr tl), s).
Proof.
  intros E1 E2. unfold _extract_time_live, try_except, mbind, M_bind, bind, answer.
  rewrite E1, E2. reflexivity.
Qed.

Lemma extract_views_ok d f (s : State) el vw :
  find_element d "//p[@data-a-target='animated-channel-viewers-count']" = Ok el ->
  text el = Ok vw ->
  _extract_views d f s = (Ok (PyStr vw), s).
Proof.
  intros E1 E2. unfold _extract_views, try_except, mbind, M_bind, bind, answer.
  rewrite E1, E2. reflexivity.
Qed.

Lemma time_sleep_ok t (s : State) :
  sleep t = Ok tt -> time_sleep t s = (Ok tt, emit_to EvSleep s).
Proof.
  intros E. unfold time_sleep, mbind, M_bind, bind, answer, emit, modify. rewrite E.
  reflexivity.
Qed.

(** The loop over the pairs, once [now], [time_live] and [views] are
    bound: it appends the admitted pairs and remembers their messages. *)
Lemma with_rows_nil a b c d : with_rows a b c [] d = d.
Proof. destruct d. unfold with_rows. simpl. by rewrite !app_nil_r. Qed.

Lemma append_if_unseen_run username comment (s : State) v_now v_tl v_vw :
  now s = Some v_now -> time_live s = Some v_tl -> views s = Some v_vw ->
  append_if_unseen username comment s =
  (Ok tt,
   if decide (comment ∈ seen_comments s) then s
   else set_db (with_rows v_now v_tl v_vw [(username, comment)])
          (set_seen_comments (union {[comment]}) s)).
Proof.
  intros En Et Ev. unfold append_if_unseen, mbind, M_bind, bind, get.
  destruct (decide (comment ∈ seen_comments s)); [reflexivity|].
  unfold local, modify, mbind, M_bind, bind, get, mret, M_ret, ret.
  destruct s; simpl in *. subst. reflexivity.
Qed.

Lemma for_pairs_run pairs : forall (s : State) v_now v_tl v_vw,
  now s = Some v_now -> time_live s = Some v_tl -> views s = Some v_vw ->
  for_pairs pairs s =
  (Ok tt,
   set_db (with_rows v_now v_tl v_vw (admitted (seen_comments s) pairs))
     (set_seen_comments (fun _ => seen_after (seen_comments s) pairs) s)).
Proof.
  induction pairs as [|[username comment] rest IH]; intros s v_now v_tl v_vw En Et Ev.
  - simpl. unfold mret, M_ret, ret. f_equal. destruct s; unfold set_db, set_seen_comments; simpl.
    by rewrite with_rows_nil.
  - cbn [for_pairs]. unfold mbind, M_bind, bind.
    rewrite (append_if_unseen_run _ _ _ v_now v_tl v_vw) by done.
    cbn [admitted seen_after].
    destruct (decide (comment ∈ seen_comments s)) as [Hin|Hnin].
    + by apply IH.
    + rewrite (IH _ v_now v_tl v_vw) by (destruct s; done).
      f_equal. destruct s; unfold set_db, set_seen_comments, with_rows; simpl.
      rewrite <- !app_assoc. reflexivity.
Qed.

(** Messages that are all different and all new are all admitted. *)
Lemma admitted_fresh pairs : forall seen,
  NoDup (map snd pairs) -> (forall c, In c (map snd pairs) -> c ∉ seen) ->
  admitted seen pairs = pairs.
Proof.
  induction pairs as [|[u c] rest IH]; intros seen Hnd Hfresh; [reflexivity|].
  simpl in *. apply NoDup_cons in Hnd as [Hc Hnd].
  destruct (decide (c ∈ seen)) as [Hin|_]; [by destruct (Hfresh c); auto|].
  f_equal. apply IH; [done|]. intros c' Hc'.
  apply not_elem_of_union. split; [|by apply Hfresh; auto].
  apply not_elem_of_singleton. intros ->. apply Hc. by apply list_elem_of_In.
Qed.

Lemma append_unseen_run us cs (s : State) v_now v_tl v_vw :
  usernames s = Some us -> comments s = Some cs ->
  now s = Some v_now -> time_live s = Some v_tl -> views s = Some v_vw ->
  append_unseen s =
  (Ok tt,
   set_db (with_rows v_now v_tl v_vw (admitted (seen_comments s) (combine us cs)))
     (set_seen_comments (fun _ => seen_after (seen_comments s) (combine us cs)) s)).
Proof.
  intros Eu Ec En Et Ev. unfold append_unseen, local, mbind, M_bind, bind, get.
  unfold mret, M_ret, ret. rewrite Eu. cbv beta iota. rewrite Ec. cbv beta iota.
  by apply for_pairs_run.
Qed.

Lemma same_lengths_with_rows a b c pairs d :
  same_lengths d = true -> same_lengths (with_rows a b c pairs d) = true.
Proof.
  unfold same_lengths, with_rows. simpl. intros Hs.
  repeat (apply andb_true_iff in Hs as [Hs ?]).
  repeat match goal with H : Nat.eqb _ _ = true |- _ => apply Nat.eqb_eq in H end.
  rewrite !length_app, !length_map.
  repeat (apply andb_true_iff; split); apply Nat.eqb_eq; lia.
Qed.

Lemma check_presence_false d (s : State) e :
  find_element d comments_xpath = Raise e -> is_Exception e = true ->
  _check_element_comments_presence d s
  = (Ok false, emit_to (EvPrint ("Element of comments not found: " +:+ str_of_exn e)) s).
Proof.
  intros E He. unfold _check_element_comments_presence, try_except, mbind, M_bind, bind, answer.
  rewrite E. unfold except_exception. rewrite He. reflexivity.
Qed.

Lemma check_offline_true d (s : State) el :
  find_element d offline_xpath = Ok el ->
  _check_offline d s = (Ok true, emit_to (EvLog "WARNING" "Offline channel.") s).
Proof.
  intros E. unfold _check_offline, try_except, mbind, M_bind, bind, answer.
  rewrite E. reflexivity.
Qed.

(** An offline tick with the variables of an earlier tick still bound
    and a working disk: the pairs left over are appended without any
    threshold check, the buffer is written and kept, and the loop goes
    on to the next tick. *)
Lemma offline_tick_run name_folder name_file t (s : State) us cs v_now v_tl v_vw el e :
  find_element (driver t) offline_xpath = Ok el ->
  find_element (driver t) comments_xpath = Raise e -> is_Exception e = true ->
  refresh (driver t) = Ok tt -> disk t = Ok tt ->
  usernames s = Some us -> comments s = Some cs ->
  now s = Some v_now -> time_live s = Some v_tl -> views s = Some v_vw ->
  same_lengths (db s) = true ->
  exists s' rows,
    iteration name_folder name_file t s = (Ok Next, s') /\
    db s' = with_rows v_now v_tl v_vw (admitted (seen_comments s) (combine us cs)) (db s) /\
    DataFrame (db s') = Ok rows /\
    files s' !! PyString.path_join name_folder name_file
    = Some (default [] (files s !! PyString.path_join name_folder name_file) ++ rows).
Proof.
  intros Eoff Ecom He Eref Edisk Eu Ec En Et Ev Hsame.
  set (d' := with_rows v_now v_tl v_vw (admitted (seen_comments s) (combine us cs)) (db s)).
  destruct (DataFrame_rows d') as (rows & Erows & _).
  { by apply same_lengths_with_rows. }
  unfold iteration, try_except, mbind, M_bind, bind, mret, M_ret, ret.
  rewrite (check_offline_true _ _ el) by done.
  rewrite (append_unseen_run us cs _ v_now v_tl v_vw) by (destruct s; done).
  unfold save_db, mbind, M_bind, bind, get. rewrite Edisk.
  match goal with |- context [_create_csv (Ok tt) ?d name_folder name_file ?s0] =>
    destruct (create_csv_run d rows name_folder name_file s0) as (s1 & R1 & F1 & D1 & _)
  end.
  { destruct s; exact Erows. }
  rewrite R1. rewrite (check_presence_false _ _ e) by done.
  unfold emit, modify, answer. rewrite Eref.
  eexists. exists rows. split; [reflexivity|].
  cbn. rewrite D1, F1. destruct s; cbn. repeat split; auto.
  apply lookup_insert_eq.
Qed.

(** A tick that reads a chat whose lists are not paired or too long:
    where it leaves the state. *)
Lemma chat_tick_skipped name_folder name_file t us cs (s : State) :
  reads_chat t us cs ->
  length us <> length cs \/ 140 < length us \/ 140 < length cs ->
  (140 < length us \/ 140 < length cs ->
     exists v, execute_script (driver t) cleanup_script = Ok v) ->
  exists s' evs,
    iteration name_folder name_file t s = (Ok Next, s') /\
    db s' = db s /\ seen_comments s' = seen_comments s /\ files s' = files s /\
    trace s' = trace s ++ evs /\ saves evs = 0 /\
    (In (EvScript cleanup_script) evs <-> 140 < length us \/ 140 < length cs) /\
    usernames s' = Some us /\ comments s' = Some cs /\
    now s' = Some (Datetime.strftime (clock t)) /\
    (exists tl, time_live s' = Some tl) /\ (exists vw, views s' = Some vw).
Proof.
  intros ((e & Eoff & He) & (el & Ecom) & Esl & (html & Eps & Eus & Ecs) &
          (el1 & tl & Etl & Etlt) & (el2 & vw & Evw & Evwt)) Hmal Hscript.
  unfold iteration, read_chat, try_except, mbind, M_bind, bind, mret, M_ret, ret.
  rewrite (check_offline_false _ _ e) by done.
  rewrite (check_presence_true _ _ el) by done.
  rewrite time_sleep_ok by done.
  unfold answer at 1. rewrite Eps.
  unfold modify at 1, get at 1.
  rewrite (extract_time_live_ok _ _ _ el1 tl) by done.
  unfold modify at 1, get at 1.
  rewrite (extract_views_ok _ _ _ el2 vw) by done.
  unfold modify at 1, get at 1.
  unfold _extract_usernames_comments, _extract_texts_comments.
  unfold try_except, mret, M_ret, ret.
  unfold modify at 1, get at 1.  unfold modify at 1.  unfold modify at 1.
  rewrite Eus, Ecs.
  assert (Hcond : (length us =? length cs)%nat && (length us <=? 140)%nat = false).
  { apply andb_false_iff.
    destruct (Nat.eqb_spec (length us) (length cs)); [|by left].
    right. apply Nat.leb_gt. lia. }
  rewrite Hcond.
  destruct ((140 <? length us)%nat || (140 <? length cs)%nat) eqn:Hbig.
  - assert (Hb : 140 < length us \/ 140 < length cs).
    { apply orb_true_iff in Hbig as [Hb|Hb]; apply Nat.ltb_lt in Hb; auto. }
    destruct (Hscript Hb) as [v Ev].
    unfold print, emit, modify, answer. rewrite Ev.
    eexists.
    exists [EvPrint "Element of comments found."; EvSleep;
            EvPrint "Either usernames or comments exceed 140 characters.";
            EvScript cleanup_script].
    split; [reflexivity|]. destruct s; simpl.
    repeat split; eauto.
    all: try (by rewrite <- !app_assoc).
    all: try (intros _; right; right; right; by left).
  - assert (Hb : ~ (140 < length us \/ 140 < length cs)).
    { apply orb_false_iff in Hbig as [H1 H2].
      apply Nat.ltb_ge in H1. apply Nat.ltb_ge in H2. lia. }
    eexists. exists [EvPrint "Element of comments found."; EvSleep].
    split; [reflexivity|]. destruct s; simpl.
    repeat split; eauto.
    all: try (by rewrite <- !app_assoc).
    all: try (intros [H|[H|[]]]; discriminate H).
    all: try (intros H; by destruct Hb).
Qed.

(** C6 (as amended). On a tick that reads a chat, that is, a tick on
    which the offline banner is not found, the chat container is found,
    the pause is not interrupted and the page source, the live time and
    the viewer count are read ([reads_chat]), and whose author and
    message lists differ in length or hold more than 140 entries, the
    loop appends nothing to the buffer, admits no message as seen and
    writes no file during that tick, and goes on to the next tick; it
    issues the DOM-cleanup script exactly when one of the two lists
    holds more than 140 entries (lists of different lengths with at most
    140 entries each are skipped without cleanup).  The cleanup call is
    taken not to fail.  A tick that finds the offline banner, or on which
    a read fails, is not covered: there the offline branch and the
    handlers run the loop over the lists that an earlier tick left. *)
Theorem malformed_tick_is_skipped name_folder name_file t us cs (s : State) :
  reads_chat t us cs ->
  length us <> length cs \/ 140 < length us \/ 140 < length cs ->
  (140 < length us \/ 140 < length cs ->
     exists v, execute_script (driver t) cleanup_script = Ok v) ->
  exists s' evs,
    iteration name_folder name_file t s = (Ok Next, s') /\
    db s' = db s /\ seen_comments s' = seen_comments s /\ files s' = files s /\
    trace s' = trace s ++ evs /\ saves evs = 0 /\
    (In (EvScript cleanup_script) evs <-> 140 < length us \/ 140 < length cs).
Proof.
  intros Hr Hmal Hscript.
  destruct (chat_tick_skipped name_folder name_file t us cs s Hr Hmal Hscript)
    as (s' & evs & H1 & H2 & H3 & H4 & H5 & H6 & H7 & _).
  exists s', evs. auto 10.
Qed.

(** [zip] of two lists of one length keeps the second list. *)
Lemma map_snd_combine {A B} (l : list A) : forall (k : list B),
  length l = length k -> map snd (combine l k) = k.
Proof.
  induction l as [|a l IH]; intros [|b k] Hl; simpl in *; try discriminate; [done|].
  f_equal. apply IH. lia.
Qed.

Lemma reads_chat_chat_page us cs :
  reads_chat (Scenario.tick (Scenario.chat_page us cs)) us cs.
Proof.
  unfold reads_chat. simpl.
  split; [exists NoSuchElementException; split; reflexivity|].
  split; [eexists; reflexivity|].
  split; [reflexivity|].
  split; [eexists; repeat split; reflexivity|].
  split; eexists; eexists; split; reflexivity.
Qed.

(** A chat of more than 140 different messages, then an offline tick:
    all the messages end up in the buffer and the loop is still
    running. *)
Lemma flood_then_offline_run us cs :
  length us = length cs -> 140 < length us -> NoDup cs ->
  exists s',
    Scenario.twitch_run [Scenario.tick (Scenario.chat_page us cs);
                         Scenario.tick Scenario.offline_page] = (Ok None, s') /\
    length (db_date_scraping (db s')) = length cs.
Proof.
  intros Hlen Hbig Hnd.
  unfold Scenario.twitch_run, ExtractDataPageTwitch.
  cbn [while_true]. unfold mbind, M_bind, bind.
  destruct (chat_tick_skipped "out" "chat.csv" (Scenario.tick (Scenario.chat_page us cs))
              us cs (initial_state ∅))
    as (s1 & evs & R1 & D1 & S1 & F1 & _ & _ & _ & U1 & C1 & N1 & [tl T1] & [vw V1]).
  { apply reads_chat_chat_page. }
  { auto. }
  { intros _. eexists. reflexivity. }
  rewrite R1.
  destruct (offline_tick_run "out" "chat.csv" (Scenario.tick Scenario.offline_page) s1
              us cs (Datetime.strftime Scenario.noon) tl vw (text_element "Offline")
              NoSuchElementException)
    as (s2 & rows & R2 & D2 & _); try reflexivity; try done.
  { rewrite D1. reflexivity. }
  rewrite R2. eexists. split; [reflexivity|].
  rewrite D2, D1, S1. simpl.
  rewrite admitted_fresh.
  - rewrite length_map, length_combine. lia.
  - by rewrite map_snd_combine.
  - intros c _. apply not_elem_of_empty.
Qed.

Lemma laugh_length k : String.length (Scenario.laugh k) = 3 + k.
Proof. induction k as [|k IH]; simpl; [done | by rewrite IH]. Qed.

Lemma NoDup_laughs n : NoDup (Scenario.laughs n).
Proof.
  unfold Scenario.laughs. apply NoDup_fmap_2; [|apply NoDup_seq].
  intros j k E. apply (f_equal String.length) in E. rewrite !laugh_length in E. lia.
Qed.

Lemma saves_app tr1 tr2 : saves (tr1 ++ tr2) = saves tr1 + saves tr2.
Proof. induction tr1 as [|[] tr1 IH]; simpl; auto. Qed.

Lemma create_csv_saves data rows name_folder name_file (s : State) :
  DataFrame data = Ok rows ->
  exists s',
    _create_csv (Ok tt) data name_folder name_file s = (Ok tt, s') /\
    db s' = db s /\ saves (trace s') = S (saves (trace s)).
Proof.
  intros Hd. unfold _create_csv, mbind, M_bind, bind, answer. rewrite Hd. simpl.
  destruct (files s !! PyString.path_join name_folder name_file) as [existing|];
    simpl; eexists; (split; [reflexivity|]); split; try reflexivity;
    unfold emit_to, Traced_State; simpl; rewrite !saves_app; simpl; lia.
Qed.

(** A tick that reads a chat of paired lists of at most 140 entries:
    the admitted pairs are appended; a buffer of more than 1000 rows is
    then written and emptied, which is the only write of the tick. *)
Lemma paired_tick_run name_folder name_file t us cs (s : State) :
  reads_chat t us cs ->
  length us = length cs -> length us <= 140 ->
  disk t = Ok tt -> same_lengths (db s) = true ->
  exists s' tl vw,
    iteration name_folder name_file t s = (Ok Next, s') /\
    db s' = (if (1000 <? length (db_date_scraping (db s))
                         + length (admitted (seen_comments s) (combine us cs)))%nat
             then empty_db
             else with_rows (Datetime.strftime (clock t)) tl vw
                    (admitted (seen_comments s) (combine us cs)) (db s)) /\
    saves (trace s') =
    saves (trace s)
    + (if (1000 <? length (db_date_scraping (db s))
                   + length (admitted (seen_comments s) (combine us cs)))%nat
       then 1 else 0).
Proof.
  intros ((e & Eoff & He) & (el & Ecom) & Esl & (html & Eps & Eus & Ecs) &
          (el1 & tl & Etl & Etlt) & (el2 & vw & Evw & Evwt)) Hlen Hsmall Edisk Hsame.
  unfold iteration, read_chat, try_except, mbind, M_bind, bind, mret, M_ret, ret.
  rewrite (check_offline_false _ _ e) by done.
  rewrite (check_presence_true _ _ el) by done.
  rewrite time_sleep_ok by done.
  unfold answer at 1. rewrite Eps.
  unfold modify at 1, get at 1.
  rewrite (extract_time_live_ok _ _ _ el1 tl) by done.
  unfold modify at 1, get at 1.
  rewrite (extract_views_ok _ _ _ el2 vw) by done.
  unfold modify at 1, get at 1.
  unfold _extract_usernames_comments, _extract_texts_comments.
  unfold try_except, mret, M_ret, ret.
  unfold modify at 1, get at 1.  unfold modify at 1.  unfold modify at 1.
  rewrite Eus, Ecs.
  assert (Hcond : (length us =? length cs)%nat && (length us <=? 140)%nat = true).
  { apply andb_true_iff. split; [by apply Nat.eqb_eq | by apply Nat.leb_le]. }
  rewrite Hcond.
  match goal with |- context [append_unseen ?st] => set (s0 := st) end.
  assert (Es0 : seen_comments s0 = seen_comments s) by (destruct s; reflexivity).
  assert (Ed0 : db s0 = db s) by (destruct s; reflexivity).
  assert (Et0 : saves (trace s0) = saves (trace s)).
  { subst s0. destruct s; simpl. unfold emit_to, Traced_State; simpl.
    rewrite !saves_app. simpl. lia. }
  rewrite (append_unseen_run us cs s0 (Datetime.strftime (clock t)) (PyStr tl) (PyStr vw))
    by (destruct s; done).
  clearbody s0. rewrite Es0.
  set (pairs := admitted (seen_comments s) (combine us cs)).
  match goal with |- context [set_db ?f ?st] => set (s1 := set_db f st) end.
  assert (Edb : db s1 = with_rows (Datetime.strftime (clock t)) (PyStr tl) (PyStr vw)
                          pairs (db s)).
  { subst s1. destruct s0; simpl in *. by rewrite Ed0. }
  assert (Elen : length (db_date_scraping (db s1))
                 = length (db_date_scraping (db s)) + length pairs).
  { rewrite Edb. simpl. by rewrite length_app, length_map. }
  assert (Etr : saves (trace s1) = saves (trace s)).
  { subst s1. destruct s0; simpl in *. exact Et0. }
  clearbody s1. unfold get at 1. cbv beta iota. rewrite Elen.
  destruct (1000 <? length (db_date_scraping (db s)) + length pairs)%nat.
  - destruct (DataFrame_rows (db s1)) as (rows & Erows & _).
    { rewrite Edb. by apply same_lengths_with_rows. }
    unfold LogMessage, emit, modify at 1. unfold save_db, mbind, M_bind, bind, get.
    rewrite Edisk.
    match goal with |- context [_create_csv (Ok tt) ?d name_folder name_file ?st] =>
      destruct (create_csv_saves d rows name_folder name_file st) as (s2 & R2 & D2 & T2)
    end.
    { exact Erows. }
    rewrite R2. unfold modify. cbv beta iota. rewrite time_sleep_ok by done.
    unfold print, emit, modify.
    eexists. exists (PyStr tl), (PyStr vw). split; [reflexivity|].
    split; [reflexivity|].
    unfold emit_to, Traced_State in *; simpl in *. rewrite !saves_app. simpl.
    rewrite T2, saves_app, Etr. simpl. lia.
  - rewrite time_sleep_ok by done. unfold print, emit, modify.
    eexists. exists (PyStr tl), (PyStr vw). split; [reflexivity|].
    split; [exact Edb|].
    unfold emit_to, Traced_State; simpl. rewrite !saves_app. simpl. lia.
Qed.

Lemma admitted_length pairs : forall seen, length (admitted seen pairs) <= length pairs.
Proof.
  induction pairs as [|[u c] rest IH]; intros seen; simpl; [lia|].
  destruct (decide (c ∈ seen)); simpl; [specialize (IH seen) | specialize (IH ({[c]} ∪ seen))];
    lia.
Qed.

(** A tick that reads a chat keeps the buffer within the threshold: the
    rows admitted are appended, and a buffer of more than 1000 rows is
    flushed and emptied before the tick ends.  A flush takes place only
    on a buffer of more than 1000 rows, which the last conjunct states
    as a potential: 1001 per flush plus the rows buffered never exceeds
    what it was plus the messages shown. *)
Lemma chat_tick_bounded name_folder name_file t us cs (s : State) :
  reads_chat t us cs ->
  disk t = Ok tt ->
  (exists v, execute_script (driver t) cleanup_script = Ok v) ->
  same_lengths (db s) = true ->
  length (db_date_scraping (db s)) <= 1000 ->
  exists s',
    iteration name_folder name_file t s = (Ok Next, s') /\
    same_lengths (db s') = true /\
    length (db_date_scraping (db s')) <= 1000 /\
    1001 * saves (trace s') + length (db_date_scraping (db s'))
    <= 1001 * saves (trace s) + length (db_date_scraping (db s)) + length cs.
Proof.
  intros Hr Edisk Hscript Hsame Hlen.
  destruct (decide (length us = length cs /\ length us <= 140)) as [[He Hs]|Hmal].
  - destruct (paired_tick_run name_folder name_file t us cs s Hr He Hs Edisk Hsame)
      as (s' & tl & vw & R & D & T).
    exists s'. split; [exact R|].
    pose proof (admitted_length (combine us cs) (seen_comments s)) as Ha.
    rewrite length_combine in Ha.
    rewrite D, T.
    destruct (Nat.ltb_spec 1000 (length (db_date_scraping (db s))
                                 + length (admitted (seen_comments s) (combine us cs))))
      as [Hbig|Hsmall].
    + repeat split; simpl; try lia.
    + split; [by apply same_lengths_with_rows|].
      simpl. rewrite length_app, length_map. lia.
  - destruct (chat_tick_skipped name_folder name_file t us cs s Hr) as
      (s' & evs & R & D & _ & _ & T & Sv & _).
    { lia. }
    { intros _. exact Hscript. }
    exists s'. split; [exact R|]. rewrite D, T, saves_app, Sv. repeat split; auto; lia.
Qed.

(** Over a run in which every tick reads a chat and nothing fails, the
    loop goes on, the buffer holds at most 1000 rows after every tick,
    and the threshold flushes number at most one per 1001 messages
    shown. *)
Lemma chat_run_bounded name_folder name_file obs : forall (s : State),
  Forall chat_tick obs ->
  same_lengths (db s) = true ->
  length (db_date_scraping (db s)) <= 1000 ->
  exists s',
    while_true name_folder name_file (map fst obs) s = (Ok None, s') /\
    length (db_date_scraping (db s')) <= 1000 /\
    1001 * saves (trace s') + length (db_date_scraping (db s'))
    <= 1001 * saves (trace s) + length (db_date_scraping (db s)) + messages_shown obs.
Proof.
  induction obs as [|[t [us cs]] obs IH]; intros s Hall Hsame Hlen.
  - exists s. simpl. unfold messages_shown. simpl. repeat split; auto; lia.
  - apply Forall_cons in Hall as [(Hr & Hd & Hs) Hall]. simpl in Hr, Hd, Hs.
    destruct (chat_tick_bounded name_folder name_file t us cs s Hr Hd Hs Hsame Hlen)
      as (s1 & R1 & Hsame1 & Hlen1 & Hpot1).
    destruct (IH s1 Hall Hsame1 Hlen1) as (s' & R & Hlen' & Hpot).
    exists s'. cbn [map fst while_true]. unfold mbind, M_bind, bind. rewrite R1.
    split; [exact R|]. split; [exact Hlen'|].
    change (messages_shown ((t, (us, cs)) :: obs)) with (length cs + messages_shown obs).
    lia.
Qed.

End TwitchFacts.

Lemma malformed_tick_is_skipped_witness :
  exists s' evs,
    Twitch.iteration "out" "chat.csv" Scenario.unpaired_tick (Twitch.initial_state ∅)
      = (Py.Ok Twitch.Next, s') /\
    Twitch.db s' = Twitch.db (Twitch.initial_state ∅) /\
    Twitch.seen_comments s' = Twitch.seen_comments (Twitch.initial_state ∅) /\
    Twitch.files s' = Twitch.files (Twitch.initial_state ∅) /\
    Twitch.trace s' = Twitch.trace (Twitch.initial_state ∅) ++ evs /\
    Twitch.saves evs = 0 /\
    (In (Py.EvScript Twitch.cleanup_script) evs <->
     140 < length ["ann"; "bob"] \/ 140 < length ["hello"]).
Proof.
  apply (malformed_tick_is_skipped "out" "chat.csv" Scenario.unpaired_tick
           ["ann"; "bob"] ["hello"] (Twitch.initial_state ∅)).
  - unfold Twitch.reads_chat. simpl.
    split; [exists Py.NoSuchElementException; split; reflexivity|].
    split; [eexists; reflexivity|].
    split; [reflexivity|].
    split; [eexists; repeat split; reflexivity|].
    split; eexists; eexists; split; reflexivity.
  - left. simpl. lia.
  - intros _. eexists. reflexivity.
Defined.

(** C6 (as stated) fails: a tick that reads two authors and one message
    is skipped without the cleanup script being issued. *)
Lemma unpaired_tick_issues_no_cleanup :
  length ["ann"; "bob"] <> length ["hello"] /\
  fst (Twitch.iteration "out" "chat.csv" Scenario.unpaired_tick (Twitch.initial_state ∅))
    = Py.Ok Twitch.Next /\
  ~ In (Py.EvScript Twitch.cleanup_script)
       (Twitch.trace (snd (Twitch.iteration "out" "chat.csv" Scenario.unpaired_tick
                             (Twitch.initial_state ∅)))).
Proof.
  split; [simpl; lia|]. split; [vm_compute; reflexivity|].
  vm_compute. intros H. repeat (destruct H as [H|H]; [discriminate H|]). exact H.
Qed.

(** C3. The exit paths do not flush the buffer exactly once.  A
    keyboard interrupt during the first tick reaches the handler before
    [usernames] is bound: the handler raises [NameError] out of the
    function and nothing is written.  After a tick that read one message
    and an offline tick that flushed it without leaving the loop, a
    keyboard interrupt flushes the same buffer again: the file holds the
    message twice. *)
Theorem exit_paths_flush_zero_or_two_times :
  fst (Scenario.twitch_run Scenario.interrupt_at_first_tick)
    = Py.Raise (Py.NameError "usernames") /\
  Twitch.saves (Twitch.trace (snd (Scenario.twitch_run Scenario.interrupt_at_first_tick))) = 0 /\
  (Twitch.db_comment <$>
     default None (Py.value (Scenario.twitch_run Scenario.chat_then_offline_then_interrupt)))
    = Some ["hello"] /\
  Twitch.saves
    (Twitch.trace (snd (Scenario.twitch_run Scenario.chat_then_offline_then_interrupt))) = 2 /\
  map Twitch.row_comment
    (Scenario.csv_rows (Scenario.twitch_run Scenario.chat_then_offline_then_interrupt))
    = ["hello"; "hello"].
Proof. repeat split; vm_compute; reflexivity. Qed.

(** The TikTok loop on the path of ['exit']: the data are written to
    [out/tiktok.json] by the branch and to the target by the outer
    [finally]. *)
Example ExtractDataPageTiktok_exit_saves_twice :
  fst (Scenario.tiktok_run (Scenario.full_page "x") "exit") = Py.Ok (Some Tiktok.ReturnNone) /\
  List.filter (fun e => match e with Py.EvSave _ => true | _ => false end)
         (Tiktok.trace (snd (Scenario.tiktok_run (Scenario.full_page "x") "exit")))
  = [Py.EvSave "out/tiktok.json"; Py.EvSave "data/video.json"].
Proof. split; vm_compute; reflexivity. Qed.

(** C4. An offline tick does not end the loop.  After a tick that read
    one message, two offline ticks leave the loop running, each of them
    having flushed the same buffer, so that the file holds the message
    twice; and when the channel is offline from the first tick, the loop
    is left without any flush. *)
Theorem offline_tick_neither_stops_nor_flushes_once :
  fst (Scenario.twitch_run Scenario.chat_then_offline_twice) = Py.Ok None /\
  Twitch.saves (Twitch.trace (snd (Scenario.twitch_run Scenario.chat_then_offline_twice))) = 2 /\
  map Twitch.row_comment (Scenario.csv_rows (Scenario.twitch_run Scenario.chat_then_offline_twice))
    = ["hello"; "hello"] /\
  fst (Scenario.twitch_run Scenario.offline_at_first_tick) = Py.Ok (Some Twitch.empty_db) /\
  Twitch.saves (Twitch.trace (snd (Scenario.twitch_run Scenario.offline_at_first_tick))) = 0.
Proof. repeat split; vm_compute; reflexivity. Qed.

(** C5. The buffer can hold more than 1000 rows at the end of a tick
    with the loop going on: after a tick that read 1001 messages at once
    (more than the guard of 140, so that none was persisted), an offline
    tick appends them all without the threshold check and does not leave
    the loop. *)
Theorem buffer_exceeds_threshold_after_offline_tick :
  exists s',
    Scenario.twitch_run Scenario.flood_then_offline = (Py.Ok None, s') /\
    length (Twitch.db_date_scraping (Twitch.db s')) = 1001.
Proof.
  destruct (flood_then_offline_run (repeat "ann" 1001) (Scenario.laughs 1001))
    as (s' & R & L).
  - unfold Scenario.laughs. by rewrite repeat_length, length_map, length_seq.
  - rewrite repeat_length. lia.
  - apply NoDup_laughs.
  - exists s'. split; [exact R|].
    rewrite L. unfold Scenario.laughs. by rewrite length_map, length_seq.
Qed.


(* ===================================================================== *)
(** * Further facts                                                     *)
(* ===================================================================== *)

(* --------------------------------------------------------------------- *)
(** ** The classifier, string by string                                  *)
(* --------------------------------------------------------------------- *)

Section DetectedMore.
Import Re Detected.
Variables isalnum isdecimal : char -> bool.

(** A match at the start of a string is a match at the start of every
    string that extends it. *)
Lemma MatchesPrefix_app r s t : MatchesPrefix r s -> MatchesPrefix r (s ++ t).
Proof.
  intros (p & q & -> & H). exists p, (q ++ t). by rewrite app_assoc.
Qed.

(** The words of a repeated class are the strings of the class. *)
Lemma Matches_Star_Class p s : Matches (Star (Class p)) s <-> forallb p s = true.
Proof.
  split.
  - induction s as [|c s IH]; [done|]. intros H.
    apply Matches_Star_cons in H as (s1 & s2 & -> & H1 & H2).
    apply Matches_Class in H1 as (c' & E & Hc). injection E as E1 E2. subst c' s1.
    simpl in *. rewrite Hc. by apply IH.
  - induction s as [|c s IH]; simpl; intros H; [constructor|].
    apply andb_true_iff in H as [Hc Hs].
    change (c :: s) with ([c] ++ s). constructor; [by constructor | by apply IH].
Qed.

Lemma MatchesPrefix_Plus_Class_then p r s :
  MatchesPrefix (Cat (Plus (Class p)) r) s <->
  exists name t, s = name ++ t /\ name <> [] /\ forallb p name = true /\ MatchesPrefix r t.
Proof.
  rewrite MatchesPrefix_Cat. split.
  - intros (s1 & s2 & -> & H1 & H2). exists s1, s2. split; [done|].
    apply Matches_Cat in H1 as (a & b & -> & Ha & Hb).
    apply Matches_Class in Ha as (c & -> & Hc). apply Matches_Star_Class in Hb.
    repeat split; auto. simpl. by rewrite Hc.
  - intros (name & t & -> & Hne & Hall & Ht). exists name, t. repeat split; auto.
    destruct name as [|c name]; [done|]. simpl in Hall.
    apply andb_true_iff in Hall as [Hc Hall].
    change (c :: name) with ([c] ++ name). constructor; [by constructor|].
    by apply Matches_Star_Class.
Qed.

(** The tag and the pattern matched. *)
Lemma DetectPlatform_tag url :
  (DetectPlatform isalnum isdecimal url = "youtube" <->
     MatchesPrefix (youtube_pattern isalnum) url) /\
  (DetectPlatform isalnum isdecimal url = "twitch" <->
     MatchesPrefix (twitch_pattern isalnum) url) /\
  (DetectPlatform isalnum isdecimal url = "tiktok" <->
     MatchesPrefix (tiktok_pattern isalnum isdecimal) url) /\
  (DetectPlatform isalnum isdecimal url = "INVALIDURL" <->
     ~ MatchesPrefix (youtube_pattern isalnum) url /\
     ~ MatchesPrefix (twitch_pattern isalnum) url /\
     ~ MatchesPrefix (tiktok_pattern isalnum isdecimal) url).
Proof.
  pose proof (youtube_twitch_exclusive isalnum url) as Hyt.
  pose proof (youtube_tiktok_exclusive isalnum isdecimal url) as Hyk.
  pose proof (twitch_tiktok_exclusive isalnum isdecimal url) as Htk.
  unfold DetectPlatform.
  destruct (re_match (youtube_pattern isalnum) url) eqn:Ey;
    [apply re_match_spec in Ey | apply re_match_false in Ey];
  (destruct (re_match (twitch_pattern isalnum) url) eqn:Et;
    [apply re_match_spec in Et | apply re_match_false in Et]);
  (destruct (re_match (tiktok_pattern isalnum isdecimal) url) eqn:Ek;
    [apply re_match_spec in Ek | apply re_match_false in Ek]);
  simpl; repeat split; try discriminate; try tauto; intros; exfalso; tauto.
Qed.

(** X1. [DetectPlatform] reads the start of the URL only: a URL that is
    classified keeps its tag whatever is written after it. *)
Theorem DetectPlatform_ignores_what_follows url rest :
  DetectPlatform isalnum isdecimal url <> "INVALIDURL" ->
  DetectPlatform isalnum isdecimal (url ++ rest) = DetectPlatform isalnum isdecimal url.
Proof.
  intros Hvalid.
  destruct (DetectPlatform_tag url) as (Y & T & K & I).
  destruct (DetectPlatform_tag (url ++ rest)) as (Y' & T' & K' & _).
  destruct (re_match (youtube_pattern isalnum) url) eqn:Ey.
  { apply re_match_spec in Ey.
    rewrite (proj2 Y Ey). apply Y'. by apply MatchesPrefix_app. }
  destruct (re_match (twitch_pattern isalnum) url) eqn:Et.
  { apply re_match_spec in Et.
    rewrite (proj2 T Et). apply T'. by apply MatchesPrefix_app. }
  destruct (re_match (tiktok_pattern isalnum isdecimal) url) eqn:Ek.
  { apply re_match_spec in Ek.
    rewrite (proj2 K Ek). apply K'. by apply MatchesPrefix_app. }
  exfalso. apply Hvalid. apply I.
  apply re_match_false in Ey, Et, Ek. auto.
Qed.

(** X2. The URLs behind the three tags, spelled out.  All start with
    [http://] or [https://], then an optional [www.].  A YouTube URL goes
    on with [youtube.com/watch?v=] or [youtu.be/] and one character of
    [[\w-]]; a Twitch URL with [twitch.tv/] and one such character; a
    TikTok URL with [tiktok.com/@], a non-empty name of [[\w.]]
    characters, [/video/] and one digit.  Nothing is asked of what
    follows. *)
Theorem DetectPlatform_shapes url :
  (DetectPlatform isalnum isdecimal url = "youtube" <->
     exists o1 o2 host c t,
       url = lit "http" ++ o1 ++ lit "://" ++ o2 ++ host ++ c :: t /\
       (o1 = [] \/ o1 = lit "s") /\ (o2 = [] \/ o2 = lit "www.") /\
       (host = lit "youtube.com/watch?v=" \/ host = lit "youtu.be/") /\
       word_or_dash isalnum c = true) /\
  (DetectPlatform isalnum isdecimal url = "twitch" <->
     exists o1 o2 c t,
       url = lit "http" ++ o1 ++ lit "://" ++ o2 ++ lit "twitch.tv/" ++ c :: t /\
       (o1 = [] \/ o1 = lit "s") /\ (o2 = [] \/ o2 = lit "www.") /\
       word_or_dash isalnum c = true) /\
  (DetectPlatform isalnum isdecimal url = "tiktok" <->
     exists o1 o2 name d t,
       url = lit "http" ++ o1 ++ lit "://" ++ o2 ++ lit "tiktok.com/@" ++ name
             ++ lit "/video/" ++ d :: t /\
       (o1 = [] \/ o1 = lit "s") /\ (o2 = [] \/ o2 = lit "www.") /\
       name <> [] /\ forallb (word_or_dot isalnum) name = true /\
       isdecimal d = true).
Proof.
  destruct (DetectPlatform_tag url) as (Y & T & K & _).
  rewrite Y, T, K. unfold youtube_pattern, twitch_pattern, tiktok_pattern.
  rewrite !scheme_www_shape.
  split; [|split].
  - split.
    + intros (o1 & o2 & t & -> & H1 & H2 & H).
      apply MatchesPrefix_Alt in H as [H|H];
        apply MatchesPrefix_Lit in H as (t' & -> & H);
        apply MatchesPrefix_Plus_Class in H as (c & t'' & -> & Hc);
        eexists o1, o2, _, c, t''; repeat split; eauto.
    + intros (o1 & o2 & host & c & t & -> & H1 & H2 & Hh & Hc).
      exists o1, o2, (host ++ c :: t). repeat split; auto.
      apply MatchesPrefix_Alt. destruct Hh as [-> | ->]; [left | right];
        apply MatchesPrefix_Lit; eexists; (split; [reflexivity|]);
        apply MatchesPrefix_Plus_Class; eauto.
  - split.
    + intros (o1 & o2 & t & -> & H1 & H2 & H).
      apply MatchesPrefix_Lit in H as (t' & -> & H).
      apply MatchesPrefix_Plus_Class in H as (c & t'' & -> & Hc).
      exists o1, o2, c, t''. repeat split; auto.
    + intros (o1 & o2 & c & t & -> & H1 & H2 & Hc).
      exists o1, o2, (lit "twitch.tv/" ++ c :: t). repeat split; auto.
      apply MatchesPrefix_Lit. eexists. split; [reflexivity|].
      apply MatchesPrefix_Plus_Class. eauto.
  - split.
    + intros (o1 & o2 & t & -> & H1 & H2 & H).
      apply MatchesPrefix_Lit in H as (t' & -> & H).
      apply MatchesPrefix_Plus_Class_then in H as (name & t2 & -> & Hne & Hall & H).
      apply MatchesPrefix_Lit in H as (t3 & -> & H).
      apply MatchesPrefix_Plus_Class in H as (d & t4 & -> & Hd).
      exists o1, o2, name, d, t4. repeat split; auto.
    + intros (o1 & o2 & name & d & t & -> & H1 & H2 & Hne & Hall & Hd).
      exists o1, o2, (lit "tiktok.com/@" ++ name ++ lit "/video/" ++ d :: t).
      repeat split; auto.
      apply MatchesPrefix_Lit. eexists. split; [reflexivity|].
      apply MatchesPrefix_Plus_Class_then. exists name, (lit "/video/" ++ d :: t).
      repeat split; auto.
      apply MatchesPrefix_Lit. eexists. split; [reflexivity|].
      apply MatchesPrefix_Plus_Class. eauto.
Qed.

(** The head [https?://(www\.)?] does not tell the two schemes apart. *)
Lemma scheme_www_http_https body rest :
  MatchesPrefix (scheme_www body) (lit "http://" ++ rest) <->
  MatchesPrefix (scheme_www body) (lit "https://" ++ rest).
Proof.
  rewrite !scheme_www_shape. split.
  - intros (o1 & o2 & t & E & [-> | ->] & H2 & H).
    + injection E as ->. exists (lit "s"), o2, t. auto.
    + discriminate E.
  - intros (o1 & o2 & t & E & [-> | ->] & H2 & H).
    + discriminate E.
    + injection E as ->. exists [], o2, t. auto.
Qed.

(** X20. [DetectPlatform] does not tell [http://] from [https://]: the
    two URLs with the same text after the scheme get the same tag. *)
Theorem DetectPlatform_same_for_http_and_https rest :
  DetectPlatform isalnum isdecimal (lit "http://" ++ rest)
  = DetectPlatform isalnum isdecimal (lit "https://" ++ rest).
Proof.
  assert (Hb : forall body,
            re_match (scheme_www body) (lit "http://" ++ rest)
            = re_match (scheme_www body) (lit "https://" ++ rest)).
  { intros body. pose proof (scheme_www_http_https body rest) as Hs.
    rewrite <- !re_match_spec in Hs.
    destruct (re_match (scheme_www body) (lit "http://" ++ rest)),
             (re_match (scheme_www body) (lit "https://" ++ rest)); try reflexivity.
    - symmetry. by apply Hs.
    - by apply Hs. }
  unfold DetectPlatform, youtube_pattern, twitch_pattern, tiktok_pattern.
  by rewrite !Hb.
Qed.

End DetectedMore.

(** A Twitch channel URL with a path and a query after it. *)
Lemma DetectPlatform_ignores_what_follows_witness :
  Detected.DetectPlatform Detected.ascii_isalnum Detected.ascii_isdecimal
    (Re.lit "https://twitch.tv/somechannel" ++ Re.lit "/videos?filter=all")
  = Detected.DetectPlatform Detected.ascii_isalnum Detected.ascii_isdecimal
      (Re.lit "https://twitch.tv/somechannel").
Proof.
  apply (DetectPlatform_ignores_what_follows Detected.ascii_isalnum Detected.ascii_isdecimal
           (Re.lit "https://twitch.tv/somechannel") (Re.lit "/videos?filter=all")).
  vm_compute. discriminate.
Defined.

(* --------------------------------------------------------------------- *)
(** ** The YouTube clean-up, scroll loop and record                      *)
(* --------------------------------------------------------------------- *)

Section RemoveFacts.
Import Py Youtube.

(** Every empty comment is the pair of the empty text and no emoji, so
    [==] with an empty comment holds of the empty comments only. *)
Lemma is_empty_comentario_eq item :
  is_empty_comentario item = true -> item = PyList [PyStr ""; PyList []].
Proof.
  destruct item as [| |z|l]; try discriminate.
  destruct l as [|[|com| |] [|[| | |em] [|]]]; try discriminate.
  simpl. intros H. apply andb_true_iff in H as [H1 H2].
  apply Nat.eqb_eq in H1, H2. destruct com; [|discriminate]. destruct em; [|discriminate].
  reflexivity.
Qed.

Lemma pyval_eqb_empty x item :
  is_empty_comentario item = true -> pyval_eqb x item = is_empty_comentario x.
Proof.
  intros H. apply is_empty_comentario_eq in H as ->.
  destruct x as [| |z|l]; try reflexivity.
  destruct l as [|a [|b [|c l]]]; try reflexivity.
  - destruct a as [|com| |]; try reflexivity. simpl. by rewrite andb_false_r.
  - destruct a as [|com| |]; try reflexivity.
    destruct b as [| | |em]; simpl; rewrite ?andb_false_r; try reflexivity.
    destruct com; simpl; [|reflexivity]. destruct em; reflexivity.
  - destruct a as [|com| |]; try reflexivity.
    destruct b as [| | |em]; simpl; rewrite ?andb_false_r; reflexivity.
Qed.

(** Removing an empty comment takes the first empty comment away: the
    other comments stay as they are, and one empty comment less is
    left. *)
Lemma list_remove_empty item elements :
  is_empty_comentario item = true ->
  List.filter keep (list_remove item elements) = List.filter keep elements /\
  empties (list_remove item elements) = pred (empties elements).
Proof.
  intros Hi. unfold empties, keep. induction elements as [|x l [IH1 IH2]]; [done|].
  simpl. rewrite (pyval_eqb_empty x item Hi).
  destruct (is_empty_comentario x) eqn:Ex; simpl.
  - done.
  - rewrite Ex. simpl. by rewrite IH1, IH2.
Qed.

Lemma remove_pass_keeps fuel : forall i elements,
  List.filter keep (remove_pass fuel i elements) = List.filter keep elements /\
  empties (remove_pass fuel i elements) <= empties elements.
Proof.
  induction fuel as [|fuel IH]; intros i elements; simpl; [auto|].
  destruct (elements !! i) as [item|]; [|auto].
  destruct (is_empty_comentario item) eqn:Ei; [|apply IH].
  destruct (list_remove_empty item elements Ei) as [H1 H2].
  destruct (IH (S i) (list_remove item elements)) as [H3 H4].
  split; [congruence | lia].
Qed.

(** A pass that has an empty comment ahead of it removes one at
    least. *)
Lemma remove_pass_progress fuel : forall i elements j x,
  i <= j < i + fuel -> elements !! j = Some x -> is_empty_comentario x = true ->
  empties (remove_pass fuel i elements) < empties elements.
Proof.
  induction fuel as [|fuel IH]; intros i elements j x Hj Ej Ex; [lia|].
  simpl. destruct (elements !! i) as [item|] eqn:Ei.
  - destruct (is_empty_comentario item) eqn:Hi.
    + destruct (list_remove_empty item elements Hi) as [_ H2].
      destruct (remove_pass_keeps fuel (S i) (list_remove item elements)) as [_ H4].
      assert (0 < empties elements); [|lia].
      unfold empties. apply list_elem_of_lookup_2 in Ei.
      assert (Hin : item ∈ List.filter is_empty_comentario elements).
      { apply list_elem_of_In, filter_In. split; [by apply list_elem_of_In | done]. }
      destruct (List.filter is_empty_comentario elements); [by apply elem_of_nil in Hin|].
      simpl. lia.
    + apply (IH (S i) elements j x); auto.
      destruct (decide (j = i)) as [->|]; [congruence | lia].
  - apply lookup_ge_None in Ei. apply lookup_lt_Some in Ej. lia.
Qed.

Lemma empties_found elements :
  0 < empties elements ->
  exists j x, j < length elements /\ elements !! j = Some x /\ is_empty_comentario x = true.
Proof.
  unfold empties. induction elements as [|y l IH]; simpl; [lia|].
  destruct (is_empty_comentario y) eqn:Ey.
  - intros _. exists 0, y. repeat split; auto. lia.
  - intros H. destruct (IH H) as (j & x & Hj & Ej & Ex).
    exists (S j), x. repeat split; auto. lia.
Qed.

Lemma remove_passes n : forall elements,
  List.filter keep (Nat.iter n (fun els => remove_pass (length els) 0 els) elements)
  = List.filter keep elements /\
  empties (Nat.iter n (fun els => remove_pass (length els) 0 els) elements)
  <= empties elements - n.
Proof.
  induction n as [|n IH]; intros elements; simpl; [split; [done | lia]|].
  destruct (IH elements) as [H1 H2].
  set (els := Nat.iter n _ elements) in *.
  destruct (remove_pass_keeps (length els) 0 els) as [H3 H4].
  split; [congruence|].
  destruct (decide (empties els = 0)) as [E|NE]; [lia|].
  destruct (empties_found els) as (j & x & Hj & Ej & Ex); [lia|].
  pose proof (remove_pass_progress (length els) 0 els j x ltac:(lia) Ej Ex). lia.
Qed.

Lemma filter_keep_all elements :
  empties elements = 0 -> List.filter keep elements = elements.
Proof.
  unfold empties, keep. induction elements as [|x l IH]; [done|].
  simpl. destruct (is_empty_comentario x); simpl; [discriminate|].
  intros H. by rewrite IH.
Qed.

Lemma empties_le_length elements : empties elements <= length elements.
Proof. unfold empties. apply filter_length_le. Qed.

(** X3. The clean-up at the end of [_extract_comments_emojis] removes
    items from the list it is iterating over, which makes a pass skip
    the item that follows each removal; repeated as often as the list
    was long, the passes leave exactly the comments that have a text or
    an emoji, in their order. *)
Theorem remove_empty_is_filter elements :
  remove_empty elements
  = List.filter (fun item => negb (is_empty_comentario item)) elements.
Proof.
  unfold remove_empty.
  destruct (remove_passes (length elements) elements) as [H1 H2].
  pose proof (empties_le_length elements).
  rewrite <- (filter_keep_all (Nat.iter _ _ elements)) by lia.
  exact H1.
Qed.

End RemoveFacts.

Section ScrollMore.
Import Py Youtube.
Context {St : Type} `{Traced St}.
Variable heights : nat -> Z.

Lemma streak_step r : streak heights (S r) <= S (streak heights r).
Proof. simpl. destruct (Z.eqb (heights r) (heights (S r))); lia. Qed.

Lemma streak_le r : streak heights r <= r.
Proof. induction r as [|r IH]; [simpl; lia|]. pose proof (streak_step r). lia. Qed.

(** The loop entered after [r] rounds with the counter at the streak:
    it ends at the first round from [r] on at which the streak is 3, if
    there is one within the fuel, and is still running otherwise. *)
Lemma scroll_while_outcome fuel : forall r (s : St),
  streak heights r <= 3 ->
  exists res s',
    scroll_while heights fuel r (heights r) (streak heights r) s = (Ok res, s') /\
    match res with
    | Some rounds =>
        r <= rounds <= r + fuel /\ streak heights rounds = 3 /\
        forall k, r <= k < rounds -> streak heights k < 3
    | None => forall k, r <= k <= r + fuel -> streak heights k < 3
    end.
Proof.
  induction fuel as [|fuel IH]; intros r s Hr.
  - simpl. unfold max_attempts.
    destruct (Nat.ltb_spec (streak heights r) 3) as [Hlt|Hge].
    + exists None, s. split; [reflexivity|]. intros k Hk. assert (k = r) as -> by lia. done.
    + exists (Some r), s. split; [reflexivity|]. repeat split; lia.
  - cbn [scroll_while]. unfold max_attempts.
    destruct (Nat.ltb_spec (streak heights r) 3) as [Hlt|Hge].
    + destruct (scroll_round_streak heights r s) as [s1 E1].
      destruct (IH (S r) s1) as (res & s' & E & Hres).
      { pose proof (streak_step r). lia. }
      exists res, s'. unfold mbind, M_bind, bind in *. rewrite E1.
      split; [exact E|].
      destruct res as [rounds|].
      * destruct Hres as (Hb & H3 & Hmin). repeat split; try lia.
        intros k Hk. destruct (decide (k = r)) as [->|]; [done | apply Hmin; lia].
      * intros k Hk. destruct (decide (k = r)) as [->|]; [done | apply Hres; lia].
    + exists (Some r), s. split; [reflexivity|]. repeat split; lia.
Qed.

Lemma ScrollDownPageYouTube_run fuel (s : St) :
  exists res s',
    ScrollDownPageYouTube heights fuel s = (Ok res, s') /\
    match res with
    | Some rounds =>
        rounds <= fuel /\ streak heights rounds = 3 /\
        forall k, k < rounds -> streak heights k < 3
    | None => forall k, k <= fuel -> streak heights k < 3
    end.
Proof.
  unfold ScrollDownPageYouTube.
  set (s0 := emit_to (EvLog "INFO" ("Initial total page height: " +:+
               PyString.str_of_Z (heights 0))) (emit_to (EvScript height_script) s)).
  destruct (scroll_while_outcome fuel 0 s0) as (res & s1 & E1 & Hres); [simpl; lia|].
  simpl in E1.
  unfold mbind, M_bind, bind, LogMessage, emit, modify. fold s0. rewrite E1.
  destruct res as [rounds|].
  - eexists (Some rounds), _. split; [reflexivity|].
    destruct Hres as (Hb & H3 & Hmin). repeat split; try lia.
    intros k Hk. apply Hmin. lia.
  - exists None, s1. split; [reflexivity|]. intros k Hk. apply Hres. lia.
Qed.

(** X4. The driver calls being taken to return, the scroll loop ends
    only after a run of three still rounds.  When
    [ScrollDownPageYouTube] has returned, it has made at least three
    rounds, the height is the one found three rounds earlier, and the
    number of rounds is the first at which three rounds in a row left the
    height unchanged; when it has not returned after the rounds allowed,
    no round so far completed such a run.  Of a run in which a driver
    call raises nothing is said. *)
Theorem ScrollDownPageYouTube_stops_at_first_still_streak fuel (s : St) :
  match ScrollDownPageYouTube heights fuel s with
  | (Ok (Some rounds), _) =>
      3 <= rounds <= fuel /\
      heights (rounds - 3) = heights rounds /\
      streak heights rounds = 3 /\
      forall k, k < rounds -> streak heights k < 3
  | (Ok None, _) => forall k, k <= fuel -> streak heights k < 3
  | (Raise _, _) => True
  end.
Proof.
  destruct (ScrollDownPageYouTube_run fuel s) as (res & s' & E & Hres).
  rewrite E.
  destruct res as [rounds|]; [|exact Hres].
  destruct Hres as (Hb & H3 & Hmin).
  pose proof (streak_le rounds).
  repeat split; auto; try lia.
  destruct rounds as [|[|[|r]]]; try lia.
  replace (S (S (S r)) - 3) with r by lia.
  simpl in H3.
  destruct (Z.eqb_spec (heights (S (S r))) (heights (S (S (S r))))) as [E3|]; [|lia].
  destruct (Z.eqb_spec (heights (S r)) (heights (S (S r)))) as [E2|]; [|lia].
  destruct (Z.eqb_spec (heights r) (heights (S r))) as [E1|]; [|lia].
  congruence.
Qed.

(** X5. On a page whose height changes at least once in any three
    rounds in a row, [ScrollDownPageYouTube] never ends: whatever the
    number of rounds allowed, the loop is still running after them. *)
Theorem ScrollDownPageYouTube_goes_on_while_page_grows :
  (forall r, heights r <> heights (S r) \/ heights (S r) <> heights (S (S r)) \/
             heights (S (S r)) <> heights (S (S (S r)))) ->
  forall fuel (s : St), fst (ScrollDownPageYouTube heights fuel s) = Ok None.
Proof.
  intros Hgrow fuel s.
  destruct (ScrollDownPageYouTube_run fuel s) as (res & s' & E & Hres).
  rewrite E. simpl. destruct res as [rounds|]; [|reflexivity].
  destruct Hres as (_ & H3 & _). exfalso.
  pose proof (streak_le rounds).
  destruct rounds as [|[|[|r]]]; try lia.
  simpl in H3.
  destruct (Z.eqb_spec (heights (S (S r))) (heights (S (S (S r))))) as [E3|]; [|lia].
  destruct (Z.eqb_spec (heights (S r)) (heights (S (S r)))) as [E2|]; [|lia].
  destruct (Z.eqb_spec (heights r) (heights (S r))) as [E1|]; [|lia].
  destruct (Hgrow r) as [?|[?|?]]; contradiction.
Qed.

End ScrollMore.

(** A page that grows by one unit at every measure, over forty rounds. *)
Lemma ScrollDownPageYouTube_goes_on_while_page_grows_witness :
  fst (Youtube.ScrollDownPageYouTube (fun k => Z.of_nat k) 40 ([] : list Py.event))
  = Py.Ok None.
Proof.
  apply (ScrollDownPageYouTube_goes_on_while_page_grows (fun k => Z.of_nat k)).
  intros r. left. lia.
Defined.

Section RecordFacts.
Import Py Selenium Inspect Youtube.
Context {St : Type} `{Traced St}.

(** X6. One missing element aborts the whole YouTube record: when the
    address of the page can be read but the lookup of the channel name
    fails with an [Exception], [ExtractDataPageYouTube] raises [KeyError]
    from the handler of [_extract_name_channel]; no record is returned
    and nothing is logged. *)
Theorem missing_channel_name_aborts_the_record now driver (s : St) url e :
  current_url driver = Ok url ->
  find_element driver
    "//yt-formatted-string[@class='style-scope ytd-channel-name complex-string']/a"
  = Raise e ->
  is_Exception e = true ->
  ExtractDataPageYouTube now driver s = (Raise (KeyError "_extract_name_channel"), s).
Proof.
  intros Eu Ef He. unfold ExtractDataPageYouTube, mbind, M_bind. unfold bind at 1.
  unfold _extract_url_post, try_except, mbind, M_bind, bind at 1, answer. rewrite Eu.
  unfold mret, M_ret, ret. unfold bind at 1.
  rewrite extract_name_channel_outcome by reflexivity.
  rewrite Ef, He. reflexivity.
Qed.

End RecordFacts.

(** The blank page: its address can be read, nothing is found on it. *)
Lemma missing_channel_name_aborts_the_record_witness :
  Youtube.ExtractDataPageYouTube Scenario.noon Selenium.blank_page ([] : list Py.event)
  = (Py.Raise (Py.KeyError "_extract_name_channel"), []).
Proof.
  apply (missing_channel_name_aborts_the_record Scenario.noon Selenium.blank_page
           ([] : list Py.event) "about:blank" Py.NoSuchElementException); reflexivity.
Defined.

(* --------------------------------------------------------------------- *)
(** ** The Twitch loop: what is kept, and how it ends                    *)
(* --------------------------------------------------------------------- *)

Section TwitchMore.
Import Py Selenium Inspect Twitch.

Lemma admitted_facts pairs : forall seen,
  NoDup (map snd (admitted seen pairs)) /\
  (forall c, In c (map snd (admitted seen pairs)) -> (c ∉ seen) /\ In c (map snd pairs)) /\
  (forall c, c ∈ seen_after seen pairs <-> (c ∈ seen \/ In c (map snd pairs))) /\
  (forall c, In c (map snd pairs) -> c ∈ seen \/ In c (map snd (admitted seen pairs))).
Proof.
  induction pairs as [|[u c] rest IH]; intros seen; simpl.
  - split; [constructor|]. split; [tauto|]. split; [tauto|]. tauto.
  - destruct (decide (c ∈ seen)) as [Hin|Hnin].
    + destruct (IH seen) as (H1 & H2 & H3 & H4).
      split; [exact H1|]. split; [|split].
      * intros c' Hc'. apply H2 in Hc'. tauto.
      * intros c'. rewrite H3. split; [tauto|]. intros [H|[<-|H]]; auto.
      * intros c' [<-|H]; auto.
    + destruct (IH ({[c]} ∪ seen)) as (H1 & H2 & H3 & H4). simpl.
      split; [|split; [|split]].
      * constructor; [|exact H1]. intros Hc. apply list_elem_of_In in Hc.
        apply H2 in Hc as [Hc _]. apply Hc. apply elem_of_union_l. by apply elem_of_singleton.
      * intros c' [<-|H]; [auto|]. apply H2 in H as [H ?]. split; [|auto].
        intros Hx. apply H. by apply elem_of_union_r.
      * intros c'. rewrite H3. rewrite elem_of_union, elem_of_singleton.
        split; [intros [[->|H]|H]; auto | intros [H|[<-|H]]; auto].
      * intros c' [<-|H]; [by right; left|].
        apply H4 in H as [H|H]; [|by right; right].
        apply elem_of_union in H as [H|H]; [|by left].
        apply elem_of_singleton in H. right. left. done.
Qed.

(** A list of distinct messages followed by distinct messages that are
    not among them is a list of distinct messages. *)
Lemma NoDup_app_fresh (old new : list string) :
  NoDup old -> NoDup new -> (forall c, In c new -> ~ In c old) -> NoDup (old ++ new).
Proof.
  intros Ho Hn Hf. apply NoDup_app. split; [done|]. split; [|done].
  intros c Hc Hc'. apply list_elem_of_In in Hc, Hc'. by apply (Hf c).
Qed.

(** X7. The loop over [zip(usernames, comments)], run with its variables
    bound on a buffer that holds no message twice and only messages
    already seen: it appends exactly the messages of the pairs that had
    not been seen, each once; the set of seen messages grows by the
    messages of the pairs; the buffer still holds no message twice and
    only seen messages; and columns that were aligned stay aligned. *)
Theorem append_unseen_dedups us cs (s : State) v_now v_tl v_vw :
  usernames s = Some us -> comments s = Some cs ->
  now s = Some v_now -> time_live s = Some v_tl -> views s = Some v_vw ->
  dedup_invariant s ->
  exists s' new,
    append_unseen s = (Ok tt, s') /\
    db_comment (db s') = db_comment (db s) ++ new /\
    (forall c, In c new <-> In c (map snd (combine us cs)) /\ c ∉ seen_comments s) /\
    (forall c, c ∈ seen_comments s' <-> c ∈ seen_comments s \/ In c (map snd (combine us cs))) /\
    dedup_invariant s' /\
    (same_lengths (db s) = true -> same_lengths (db s') = true).
Proof.
  intros Eu Ec En Et Ev [Hnd Hseen].
  destruct (admitted_facts (combine us cs) (seen_comments s)) as (A1 & A2 & A3 & A4).
  eexists. exists (map snd (admitted (seen_comments s) (combine us cs))).
  split; [by apply (append_unseen_run us cs s v_now v_tl v_vw)|].
  split; [by destruct s|].
  split.
  { intros c. split; [intros H; apply A2 in H; tauto|].
    intros [H1 H2]. apply A4 in H1 as [H1|H1]; [by destruct H2 | done]. }
  split; [intros c; destruct s; apply A3|].
  split.
  - split.
    + destruct s; simpl in *. apply NoDup_app_fresh; auto.
      intros c Hc Hc'. apply A2 in Hc as [Hc _]. apply Hc. auto.
    + intros c Hc. destruct s; simpl in *. apply A3.
      apply in_app_or in Hc as [Hc|Hc]; [left; auto|].
      right. apply A2 in Hc. tauto.
  - intros Hs. destruct s; simpl in *. by apply same_lengths_with_rows.
Qed.


(** One flush, in full: the state it leaves. *)
Lemma create_csv_effect data rws name_folder name_file (s : State) :
  DataFrame data = Ok rws ->
  exists msg,
    _create_csv (Ok tt) data name_folder name_file s =
    (Ok tt,
     emit_to (EvLog "OK" msg)
       (emit_to (EvSave (PyString.path_join name_folder name_file))
          (set_files (insert (PyString.path_join name_folder name_file)
                        (default [] (files s !! PyString.path_join name_folder name_file)
                         ++ rws)) s))).
Proof.
  intros Hd. unfold _create_csv, mbind, M_bind, bind, answer. rewrite Hd. simpl.
  destruct (files s !! PyString.path_join name_folder name_file) as [existing|];
    simpl; eexists; reflexivity.
Qed.

(** The effect of a tick that reads a chat of paired lists within the
    guard. *)
Lemma paired_tick_effect name_folder name_file t us cs (s : State) :
  reads_chat t us cs ->
  length us = length cs -> length us <= 140 ->
  disk t = Ok tt -> same_lengths (db s) = true ->
  exists s' tl vw rws,
    (exists el, find_element (driver t) "//span[@class='live-time']" = Ok el /\
                text el = Ok tl) /\
    (exists el,
       find_element (driver t) "//p[@data-a-target='animated-channel-viewers-count']" = Ok el /\
       text el = Ok vw) /\
    iteration name_folder name_file t s = (Ok Next, s') /\
    seen_comments s' = seen_after (seen_comments s) (combine us cs) /\
    DataFrame (grown s (Datetime.strftime (clock t)) (PyStr tl) (PyStr vw) us cs) = Ok rws /\
    (if (1000 <? length (db_date_scraping
                           (grown s (Datetime.strftime (clock t)) (PyStr tl) (PyStr vw)
                              us cs)))%nat
     then db s' = empty_db /\
          files s' = <[PyString.path_join name_folder name_file :=
                         default [] (files s !! PyString.path_join name_folder name_file)
                         ++ rws]> (files s) /\
          saves (trace s') = S (saves (trace s))
     else db s' = grown s (Datetime.strftime (clock t)) (PyStr tl) (PyStr vw) us cs /\
          files s' = files s /\
          saves (trace s') = saves (trace s)).
Proof.
  intros ((e & Eoff & He) & (el & Ecom) & Esl & (html & Eps & Eus & Ecs) &
          (el1 & tl & Etl & Etlt) & (el2 & vw & Evw & Evwt)) Hlen Hsmall Edisk Hsame.
  unfold iteration, read_chat, try_except, mbind, M_bind, bind, mret, M_ret, ret.
  rewrite (check_offline_false _ _ e) by done.
  rewrite (check_presence_true _ _ el) by done.
  rewrite time_sleep_ok by done.
  unfold answer at 1. rewrite Eps.
  unfold modify at 1, get at 1.
  rewrite (extract_time_live_ok _ _ _ el1 tl) by done.
  unfold modify at 1, get at 1.
  rewrite (extract_views_ok _ _ _ el2 vw) by done.
  unfold modify at 1, get at 1.
  unfold _extract_usernames_comments, _extract_texts_comments.
  unfold try_except, mret, M_ret, ret.
  unfold modify at 1, get at 1.  unfold modify at 1.  unfold modify at 1.
  rewrite Eus, Ecs.
  assert (Hcond : (length us =? length cs)%nat && (length us <=? 140)%nat = true).
  { apply andb_true_iff. split; [by apply Nat.eqb_eq | by apply Nat.leb_le]. }
  rewrite Hcond.
  match goal with |- context [append_unseen ?st] => set (s0 := st) end.
  assert (Es0 : seen_comments s0 = seen_comments s) by (destruct s; reflexivity).
  assert (Ed0 : db s0 = db s) by (destruct s; reflexivity).
  assert (Ef0 : files s0 = files s) by (destruct s; reflexivity).
  assert (Et0 : saves (trace s0) = saves (trace s)).
  { subst s0. destruct s; simpl. unfold emit_to, Traced_State; simpl.
    rewrite !saves_app. simpl. lia. }
  rewrite (append_unseen_run us cs s0 (Datetime.strftime (clock t)) (PyStr tl) (PyStr vw))
    by (destruct s; done).
  clearbody s0. rewrite Es0.
  match goal with |- context [set_db ?f ?st] => set (s1 := set_db f st) end.
  assert (Edb : db s1 = grown s (Datetime.strftime (clock t)) (PyStr tl) (PyStr vw) us cs).
  { subst s1. unfold grown. destruct s0; simpl in *. by rewrite Ed0. }
  assert (Esn : seen_comments s1 = seen_after (seen_comments s) (combine us cs)).
  { subst s1. destruct s0; reflexivity. }
  assert (Efl : files s1 = files s).
  { subst s1. destruct s0; simpl in *. exact Ef0. }
  assert (Etr : saves (trace s1) = saves (trace s)).
  { subst s1. destruct s0; simpl in *. exact Et0. }
  destruct (DataFrame_rows (db s1)) as (rws & Erows & _).
  { rewrite Edb. by apply same_lengths_with_rows. }
  clearbody s1. unfold get at 1. cbv beta iota. rewrite Edb.
  destruct (1000 <? length (db_date_scraping
               (grown s (Datetime.strftime (clock t)) (PyStr tl) (PyStr vw) us cs)))%nat
    eqn:Hbig.
  - unfold LogMessage, emit, modify at 1. unfold save_db, mbind, M_bind, bind, get.
    rewrite Edisk.
    match goal with |- context [_create_csv (Ok tt) ?d name_folder name_file ?st] =>
      destruct (create_csv_effect d rws name_folder name_file st) as (msg & R2)
    end.
    { exact Erows. }
    rewrite R2. unfold modify. cbv beta iota. rewrite time_sleep_ok by done.
    unfold print, emit, modify.
    eexists. exists tl, vw, rws.
    split; [by exists el1|]. split; [by exists el2|]. split; [reflexivity|].
    rewrite Hbig. rewrite <- Edb.
    cbn [db seen_comments files trace emit_to Traced_State set_db set_files].
    split; [exact Esn|]. split; [exact Erows|].
    split; [reflexivity|]. split; [by rewrite Efl|].
    rewrite !saves_app. cbn [saves]. rewrite Etr. lia.
  - rewrite time_sleep_ok by done. unfold print, emit, modify.
    eexists. exists tl, vw, rws.
    split; [by exists el1|]. split; [by exists el2|]. split; [reflexivity|].
    rewrite Hbig. rewrite <- Edb.
    cbn [db seen_comments files trace emit_to Traced_State set_db set_files].
    split; [exact Esn|]. split; [exact Erows|].
    split; [reflexivity|]. split; [exact Efl|].
    rewrite !saves_app. cbn [saves]. lia.
Qed.


(** X8. A tick that reads a chat whose two lists have the same length,
    of at most 140, on a page whose live-time element reads [tl] and
    whose viewer count reads [vw]: the unseen pairs are appended, each
    row stamped with the clock of the tick, [tl] and [vw], and their
    messages are seen from then on.  If the buffer then holds more than
    1000 rows, its rows are put after those of the CSV file, the buffer
    is emptied and this is the one write of the tick; otherwise the
    buffer is kept and no file is touched.  The loop goes on in both
    cases. *)
Theorem chat_tick_flushes_over_threshold name_folder name_file t us cs (s : State)
    el_live tl el_views vw :
  reads_chat t us cs ->
  find_element (driver t) "//span[@class='live-time']" = Ok el_live ->
  text el_live = Ok tl ->
  find_element (driver t) "//p[@data-a-target='animated-channel-viewers-count']"
  = Ok el_views ->
  text el_views = Ok vw ->
  length us = length cs -> length us <= 140 ->
  disk t = Ok tt -> same_lengths (db s) = true ->
  exists s' rws,
    iteration name_folder name_file t s = (Ok Next, s') /\
    seen_comments s' = seen_after (seen_comments s) (combine us cs) /\
    DataFrame (grown s (Datetime.strftime (clock t)) (PyStr tl) (PyStr vw) us cs) = Ok rws /\
    (if (1000 <? length (db_date_scraping
                           (grown s (Datetime.strftime (clock t)) (PyStr tl) (PyStr vw)
                              us cs)))%nat
     then db s' = empty_db /\
          files s' = <[PyString.path_join name_folder name_file :=
                         default [] (files s !! PyString.path_join name_folder name_file)
                         ++ rws]> (files s) /\
          saves (trace s') = S (saves (trace s))
     else db s' = grown s (Datetime.strftime (clock t)) (PyStr tl) (PyStr vw) us cs /\
          files s' = files s /\
          saves (trace s') = saves (trace s)).
Proof.
  intros Hr El Etl Ev Evw Hlen Hsmall Hdisk Hsame.
  destruct (paired_tick_effect name_folder name_file t us cs s Hr Hlen Hsmall Hdisk Hsame)
    as (s' & tl' & vw' & rws & (el1 & El1 & Etl1) & (el2 & Ev2 & Evw2) & R & Sn & Df & Hcase).
  assert (tl' = tl) as -> by congruence.
  assert (vw' = vw) as -> by congruence.
  exists s', rws. auto.
Qed.

(** What a tick that reads a chat does to the messages kept. *)
Lemma chat_tick_kept name_folder name_file t us cs (s : State) :
  chat_tick (t, (us, cs)) ->
  same_lengths (db s) = true ->
  NoDup (kept (PyString.path_join name_folder name_file) s) ->
  (forall c, c ∈ seen_comments s <-> In c (kept (PyString.path_join name_folder name_file) s)) ->
  exists s',
    iteration name_folder name_file t s = (Ok Next, s') /\
    same_lengths (db s') = true /\
    NoDup (kept (PyString.path_join name_folder name_file) s') /\
    (forall c, c ∈ seen_comments s' <->
               In c (kept (PyString.path_join name_folder name_file) s')) /\
    (forall c, In c (kept (PyString.path_join name_folder name_file) s') <->
               In c (kept (PyString.path_join name_folder name_file) s) \/
               (paired (t, (us, cs)) /\ In c cs)).
Proof.
  intros (Hr & Hd & Hs) Hsame Hnd Hseen. simpl in Hr, Hd, Hs.
  set (path := PyString.path_join name_folder name_file) in *.
  destruct (decide (length us = length cs /\ length us <= 140)) as [[He Hsm]|Hmal].
  - destruct (paired_tick_effect name_folder name_file t us cs s Hr He Hsm Hd Hsame)
      as (s' & tl & vw & rws & _ & _ & R & Sn & Df & Hcase).
    fold path in Hcase.
    destruct (admitted_facts (combine us cs) (seen_comments s)) as (A1 & A2 & A3 & A4).
    rewrite (map_snd_combine us cs He) in A2, A3, A4.
    assert (Hg : same_lengths (grown s (Datetime.strftime (clock t)) (PyStr tl) (PyStr vw)
                                 us cs) = true)
      by (by apply same_lengths_with_rows).
    destruct (DataFrame_rows _ Hg) as (rws' & Df' & _ & _ & _ & _ & _ & Hcm).
    rewrite Df in Df'. injection Df' as <-.
    assert (Hk : kept path s'
                 = kept path s ++ map snd (admitted (seen_comments s) (combine us cs))
                 /\ same_lengths (db s') = true).
    { unfold kept.
      destruct (1000 <? _)%nat.
      - destruct Hcase as (D & F & _). rewrite D, F, lookup_insert_eq. simpl.
        rewrite app_nil_r, map_app, Hcm. unfold grown. simpl.
        by rewrite app_assoc.
      - destruct Hcase as (D & F & _). rewrite D, F. unfold grown at 1. simpl.
        rewrite app_assoc. split; [done|]. exact Hg. }
    destruct Hk as [Hk Hsame'].
    exists s'. split; [exact R|]. split; [exact Hsame'|]. rewrite Hk.
    split; [|split].
    + apply NoDup_app_fresh; auto.
      intros c Hc Hc'. apply A2 in Hc as [Hc _]. apply Hc. by apply Hseen.
    + intros c. rewrite Sn, A3, in_app_iff, Hseen. split.
      * intros [H|H]; [by left|].
        destruct (A4 c H) as [H'|H']; [left; by apply Hseen | by right].
      * intros [H|H]; [by left|]. right. by apply A2 in H as [_ H].
    + intros c. rewrite in_app_iff. split.
      * intros [H|H]; [by left|]. right. split; [by split|]. by apply A2 in H as [_ H].
      * intros [H|[_ H]]; [by left|].
        destruct (A4 c H) as [H'|H']; [left; by apply Hseen | by right].
  - destruct (chat_tick_skipped name_folder name_file t us cs s Hr) as
      (s' & evs & R & D & Sn & F & _).
    { lia. }
    { intros _. exact Hs. }
    exists s'. split; [exact R|].
    assert (Hk : kept path s' = kept path s) by (unfold kept; by rewrite D, F).
    rewrite Hk, D, Sn. repeat split; auto.
    + by apply Hseen.
    + by apply Hseen.
    + intros [H|[[H1 H2] _]]; [done|]. simpl in H1, H2. lia.
Qed.

Lemma chat_run_kept name_folder name_file obs : forall (s : State),
  Forall chat_tick obs ->
  same_lengths (db s) = true ->
  NoDup (kept (PyString.path_join name_folder name_file) s) ->
  (forall c, c ∈ seen_comments s <-> In c (kept (PyString.path_join name_folder name_file) s)) ->
  exists s',
    while_true name_folder name_file (map fst obs) s = (Ok None, s') /\
    NoDup (kept (PyString.path_join name_folder name_file) s') /\
    (forall c, c ∈ seen_comments s' <->
               In c (kept (PyString.path_join name_folder name_file) s')) /\
    (forall c, In c (kept (PyString.path_join name_folder name_file) s') <->
               In c (kept (PyString.path_join name_folder name_file) s) \/
               exists o, In o obs /\ paired o /\ In c (snd (snd o))).
Proof.
  induction obs as [|[t [us cs]] obs IH]; intros s Hall Hsame Hnd Hseen.
  - exists s. simpl. repeat split; auto.
    + by apply Hseen.
    + by apply Hseen.
    + intros [H|(o & [] & _)]. done.
  - apply Forall_cons in Hall as [Ht Hall].
    destruct (chat_tick_kept name_folder name_file t us cs s Ht Hsame Hnd Hseen)
      as (s1 & R1 & Hsame1 & Hnd1 & Hseen1 & Hk1).
    destruct (IH s1 Hall Hsame1 Hnd1 Hseen1) as (s' & R & Hnd' & Hseen' & Hk').
    exists s'. cbn [map fst while_true]. unfold mbind, M_bind, bind. rewrite R1.
    split; [exact R|]. split; [exact Hnd'|]. split; [exact Hseen'|].
    intros c. rewrite Hk', Hk1. split.
    + intros [[H|[Hp Hc]]|(o & Ho & Hp & Hc)]; [by left | right | right].
      * exists (t, (us, cs)). split; [by left|]. by split.
      * exists o. split; [by right|]. by split.
    + intros [H|(o & [<-|Ho] & Hp & Hc)]; [by left; left | left; right; by split |].
      right. exists o. split; [exact Ho|]. split; [exact Hp | exact Hc].
Qed.

(** X9. Over a run in which every tick reads a chat and nothing fails,
    started with no CSV file at the target and showing at most 2001
    messages, so that the file is written at most once and never read
    back: the messages written to the file followed by those in the
    buffer hold no message twice; they are exactly the messages shown by
    the ticks whose lists paired up within the size guard; and they are
    exactly the messages in the set of seen comments. *)
Theorem chat_run_keeps_each_message_once name_folder name_file on_disk obs :
  Forall chat_tick obs ->
  on_disk !! PyString.path_join name_folder name_file = None ->
  messages_shown obs <= 2001 ->
  exists s',
    ExtractDataPageTwitch name_folder name_file on_disk (map fst obs) = (Ok None, s') /\
    saves (trace s') <= 1 /\
    NoDup (kept (PyString.path_join name_folder name_file) s') /\
    (forall c, In c (kept (PyString.path_join name_folder name_file) s') <->
               exists o, In o obs /\ paired o /\ In c (snd (snd o))) /\
    (forall c, c ∈ seen_comments s' <->
               In c (kept (PyString.path_join name_folder name_file) s')).
Proof.
  intros Hall Hfresh Hfew.
  assert (Hk0 : kept (PyString.path_join name_folder name_file) (initial_state on_disk) = []).
  { unfold kept. simpl. by rewrite Hfresh. }
  destruct (chat_run_kept name_folder name_file obs (initial_state on_disk))
    as (s' & R & Hnd & Hseen & Hk); auto.
  - rewrite Hk0. constructor.
  - intros c. rewrite Hk0. simpl. split; [|done]. intros H. by apply not_elem_of_empty in H.
  - destruct (chat_run_bounded name_folder name_file obs (initial_state on_disk) Hall)
      as (s'' & R' & _ & Hpot); [reflexivity | simpl; lia |].
    rewrite R in R'. injection R' as <-. simpl in Hpot.
    exists s'. split; [exact R|]. split; [lia|]. split; [exact Hnd|]. split; [|exact Hseen].
    intros c. rewrite Hk, Hk0. simpl. tauto.
Qed.

(** X10. Over a run in which every tick reads a chat and nothing fails,
    the loop is still running after the last tick, the buffer holds at
    most 1000 rows, and 1001 rows per write plus the rows buffered do
    not exceed the number of messages shown: at most one write per 1001
    messages. *)
Theorem chat_run_stays_within_threshold name_folder name_file on_disk obs :
  Forall chat_tick obs ->
  exists s',
    ExtractDataPageTwitch name_folder name_file on_disk (map fst obs) = (Ok None, s') /\
    length (db_date_scraping (db s')) <= 1000 /\
    1001 * saves (trace s') + length (db_date_scraping (db s')) <= messages_shown obs.
Proof.
  intros Hall.
  destruct (chat_run_bounded name_folder name_file obs (initial_state on_disk) Hall)
    as (s' & R & Hlen & Hpot); [reflexivity | simpl; lia |].
  exists s'. split; [exact R|]. split; [exact Hlen|]. simpl in Hpot. lia.
Qed.

(** X11. Any number of flushes to one target, each of a buffer with
    aligned columns: the number of rows of the file ends up as the
    number it had plus the numbers of rows of the buffers; every other
    file is as it was, the buffer and the set of seen messages of the
    loop are not touched, and each call writes the file once.  (Of the
    cells, which [read_csv] may re-type, nothing is said.) *)
Theorem flush_all_adds_rows buffers name_folder name_file : forall (s : State),
  Forall (fun data => same_lengths data = true) buffers ->
  exists s',
    flush_all buffers name_folder name_file s = (Ok tt, s') /\
    length (default [] (files s' !! PyString.path_join name_folder name_file))
    = length (default [] (files s !! PyString.path_join name_folder name_file))
      + list_sum (map (fun data => length (db_date_scraping data)) buffers) /\
    (forall p, p <> PyString.path_join name_folder name_file -> files s' !! p = files s !! p) /\
    db s' = db s /\ seen_comments s' = seen_comments s /\
    saves (trace s') = saves (trace s) + length buffers.
Proof.
  induction buffers as [|data rest IH]; intros s Hall.
  - exists s. simpl. repeat split; auto.
  - apply Forall_cons in Hall as [Hd Hall].
    destruct (DataFrame_rows data Hd) as (rws & Erws & Hlen & _).
    destruct (create_csv_effect data rws name_folder name_file s Erws) as (msg & R1).
    cbn [flush_all]. unfold mbind, M_bind, bind. rewrite R1.
    match goal with |- context [flush_all rest _ _ ?st] =>
      destruct (IH st Hall) as (s' & R & Hf & Hother & Hdb & Hseen & Hsv)
    end.
    exists s'. split; [exact R|].
    cbn [map list_sum length].
    split.
    { rewrite Hf. simpl. rewrite lookup_insert_eq. simpl. rewrite length_app, Hlen. lia. }
    split.
    { intros p Hp. rewrite (Hother p Hp). simpl. by apply lookup_insert_ne. }
    split; [by rewrite Hdb|]. split; [by rewrite Hseen|].
    rewrite Hsv. unfold emit_to, Traced_State. simpl. rewrite !saves_app. simpl. lia.
Qed.

(** The handlers' flush: the pairs left over are appended and the buffer
    is written, once. *)
Lemma flush_and_break_run name_folder name_file us cs (s : State) v_now v_tl v_vw :
  usernames s = Some us -> comments s = Some cs ->
  now s = Some v_now -> time_live s = Some v_tl -> views s = Some v_vw ->
  same_lengths (db s) = true ->
  exists s' rws,
    bind append_unseen
      (fun _ => bind (save_db (Ok tt) name_folder name_file) (fun _ => ret Break)) s
    = (Ok Break, s') /\
    db s' = grown s v_now v_tl v_vw us cs /\
    DataFrame (db s') = Ok rws /\
    files s' = <[PyString.path_join name_folder name_file :=
                   default [] (files s !! PyString.path_join name_folder name_file) ++ rws]>
               (files s) /\
    seen_comments s' = seen_after (seen_comments s) (combine us cs) /\
    saves (trace s') = S (saves (trace s)).
Proof.
  intros Eu Ec En Et Ev Hsame.
  destruct (DataFrame_rows (grown s v_now v_tl v_vw us cs)) as (rws & Erws & _).
  { by apply same_lengths_with_rows. }
  unfold bind at 1. rewrite (append_unseen_run us cs s v_now v_tl v_vw) by done.
  unfold bind, save_db, mbind, M_bind, bind, get.
  match goal with |- context [_create_csv (Ok tt) ?d name_folder name_file ?st] =>
    destruct (create_csv_effect d rws name_folder name_file st) as (msg & R1)
  end.
  { destruct s; exact Erws. }
  rewrite R1. eexists. exists rws. split; [reflexivity|].
  destruct s; unfold grown in *; simpl in *.
  repeat split; auto.
  unfold emit_to, Traced_State. simpl. rewrite !saves_app. simpl. lia.
Qed.

(** A keyboard interrupt during the offline lookup, with the lists of an
    earlier tick bound: the handler flushes and leaves the loop. *)
Lemma interrupt_tick_run name_folder name_file t us cs (s : State) v_now v_tl v_vw :
  find_element (driver t) offline_xpath = Raise KeyboardInterrupt ->
  disk t = Ok tt ->
  usernames s = Some us -> comments s = Some cs ->
  now s = Some v_now -> time_live s = Some v_tl -> views s = Some v_vw ->
  same_lengths (db s) = true ->
  exists s' rws,
    iteration name_folder name_file t s = (Ok Break, s') /\
    db s' = grown s v_now v_tl v_vw us cs /\
    DataFrame (db s') = Ok rws /\
    files s' = <[PyString.path_join name_folder name_file :=
                   default [] (files s !! PyString.path_join name_folder name_file) ++ rws]>
               (files s) /\
    saves (trace s') = S (saves (trace s)).
Proof.
  intros Eoff Edisk Eu Ec En Et Ev Hsame.
  set (s0 := emit_to (EvLog "WARNING" "Keyboard interruption detected. Ending scraping.") s).
  destruct (flush_and_break_run name_folder name_file us cs s0 v_now v_tl v_vw)
    as (s' & rws & R & D & Df & F & _ & Sv); try (by destruct s).
  exists s', rws.
  split.
  { unfold iteration, try_except, mbind, M_bind. unfold bind at 1.
    unfold _check_offline, try_except, mbind, M_bind, bind at 1, answer.
    rewrite Eoff. unfold except_exception. simpl.
    unfold LogMessage, emit, modify, bind at 1. fold s0. rewrite Edisk.
    unfold mret, M_ret. exact R. }
  split; [by rewrite D; destruct s|]. split; [exact Df|].
  split; [by rewrite F; destruct s|].
  rewrite Sv. subst s0. destruct s; unfold emit_to, Traced_State; simpl.
  rewrite saves_app. simpl. lia.
Qed.

(** X13. A keyboard interrupt that arrives when the lists of an earlier
    tick are bound (here: during the offline lookup) ends the loop in
    the way the handler intends: the pairs left over are appended, the
    buffer is written once after the rows of the file, and the function
    returns the buffer; the ticks that would follow are not run. *)
Theorem interrupt_after_a_read_flushes_once name_folder name_file t rest
    us cs (s : State) v_now v_tl v_vw :
  find_element (driver t) offline_xpath = Raise KeyboardInterrupt ->
  disk t = Ok tt ->
  usernames s = Some us -> comments s = Some cs ->
  now s = Some v_now -> time_live s = Some v_tl -> views s = Some v_vw ->
  same_lengths (db s) = true ->
  exists s' rws,
    while_true name_folder name_file (t :: rest) s = (Ok (Some (db s')), s') /\
    db s' = grown s v_now v_tl v_vw us cs /\
    DataFrame (db s') = Ok rws /\
    files s' = <[PyString.path_join name_folder name_file :=
                   default [] (files s !! PyString.path_join name_folder name_file) ++ rws]>
               (files s) /\
    saves (trace s') = S (saves (trace s)).
Proof.
  intros Eoff Edisk Eu Ec En Et Ev Hsame.
  destruct (interrupt_tick_run name_folder name_file t us cs s v_now v_tl v_vw)
    as (s' & rws & R & Hrest); auto.
  exists s', rws. split; [|exact Hrest].
  cbn [while_true]. unfold mbind, M_bind, bind. rewrite R. reflexivity.
Qed.

(** X21. The pairs of a tick that was skipped are written after all when
    a handler runs next.  After a tick that read a chat whose lists
    differ in length or exceed 140 entries (nothing appended), a keyboard
    interrupt at the next tick makes the handler zip the two lists of
    the skipped tick, append the unseen pairs, without any check of
    their lengths, and write the buffer to the CSV file. *)
Theorem skipped_tick_is_written_on_interrupt name_folder name_file t1 t2 rest
    us cs (s : State) :
  reads_chat t1 us cs ->
  length us <> length cs \/ 140 < length us \/ 140 < length cs ->
  (140 < length us \/ 140 < length cs ->
     exists v, execute_script (driver t1) cleanup_script = Ok v) ->
  find_element (driver t2) offline_xpath = Raise KeyboardInterrupt ->
  disk t2 = Ok tt ->
  same_lengths (db s) = true ->
  exists s' tl vw rws,
    while_true name_folder name_file (t1 :: t2 :: rest) s = (Ok (Some (db s')), s') /\
    db s' = grown s (Datetime.strftime (clock t1)) tl vw us cs /\
    DataFrame (db s') = Ok rws /\
    files s' = <[PyString.path_join name_folder name_file :=
                   default [] (files s !! PyString.path_join name_folder name_file) ++ rws]>
               (files s) /\
    saves (trace s') = S (saves (trace s)).
Proof.
  intros Hr Hmal Hscript Eoff Edisk Hsame.
  destruct (chat_tick_skipped name_folder name_file t1 us cs s Hr Hmal Hscript)
    as (s1 & evs & R1 & D1 & S1 & F1 & T1 & Sv1 & _ & U1 & C1 & N1 & [tl Tl1] & [vw V1]).
  destruct (interrupt_tick_run name_folder name_file t2 us cs s1
              (Datetime.strftime (clock t1)) tl vw)
    as (s' & rws & R2 & D2 & Df & F2 & Sv2); auto.
  { by rewrite D1. }
  exists s', tl, vw, rws.
  split.
  { cbn [while_true]. unfold mbind, M_bind, bind. rewrite R1, R2. reflexivity. }
  split; [rewrite D2; unfold grown; by rewrite D1, S1|].
  split; [exact Df|].
  split; [by rewrite F2, F1|].
  rewrite Sv2, T1, saves_app, Sv1. lia.
Qed.

(** No local variable of [ExtractDataPageTwitch] is named after one of
    its extractors. *)
Lemma frame_has_no_extractor (s : State) :
  f_locals (ExtractDataPageTwitch_frame s) !! "_extract_time_live" = None.
Proof.
  unfold ExtractDataPageTwitch_frame, locals_of, bound. cbn [f_locals].
  apply not_elem_of_list_to_map_1. rewrite <- list_fmap_compose.
  destruct (html_content s), (time_live s), (views s), (usernames s), (comments s), (now s);
    simpl; intros H;
    repeat (apply elem_of_cons in H as [H|H]; [discriminate H|]);
    by apply elem_of_nil in H.
Qed.

Lemma extract_time_live_missing d (s : State) e :
  find_element d "//span[@class='live-time']" = Raise e -> is_Exception e = true ->
  _extract_time_live d (ExtractDataPageTwitch_frame s) s
  = (Raise (KeyError "_extract_time_live"), s).
Proof.
  intros E He. unfold _extract_time_live, try_except, mbind, M_bind, bind at 1, answer.
  rewrite E. unfold except_not_found_then_exception. rewrite He.
  destruct (is_NoSuchElement e).
  - unfold bind. rewrite caller_docstring_unbound by apply frame_has_no_extractor.
    reflexivity.
  - apply warn_error_unbound, frame_has_no_extractor.
Qed.

(** X14. A tick that finds the chat but not the live-time element ends
    the scraping: [_extract_time_live] raises [KeyError] from its own
    handler, the [except Exception] clause of the loop takes it, appends
    the pairs left over from the earlier tick, writes the buffer once
    and leaves the loop. *)
Theorem missing_live_time_ends_the_run name_folder name_file t rest
    us cs (s : State) v_now v_tl v_vw e :
  (exists e0, find_element (driver t) offline_xpath = Raise e0 /\ is_Exception e0 = true) ->
  (exists el, find_element (driver t) comments_xpath = Ok el) ->
  sleep t = Ok tt ->
  (exists html, page_source (driver t) = Ok html) ->
  find_element (driver t) "//span[@class='live-time']" = Raise e -> is_Exception e = true ->
  disk t = Ok tt ->
  usernames s = Some us -> comments s = Some cs ->
  now s = Some v_now -> time_live s = Some v_tl -> views s = Some v_vw ->
  same_lengths (db s) = true ->
  exists s' rws,
    while_true name_folder name_file (t :: rest) s = (Ok (Some (db s')), s') /\
    db s' = grown s v_now v_tl v_vw us cs /\
    DataFrame (db s') = Ok rws /\
    files s' = <[PyString.path_join name_folder name_file :=
                   default [] (files s !! PyString.path_join name_folder name_file) ++ rws]>
               (files s) /\
    saves (trace s') = S (saves (trace s)).
Proof.
  intros (e0 & Eoff & He0) (el & Ecom) Esl (html & Eps) Etl He Edisk Eu Ec En Et Ev Hsame.
  set (s0 := set_html_content html
               (emit_to EvSleep (emit_to (EvPrint "Element of comments found.") s))).
  destruct (flush_and_break_run name_folder name_file us cs s0 v_now v_tl v_vw)
    as (s' & rws & R & D & Df & F & _ & Sv); try (by destruct s).
  exists s', rws.
  cbn [while_true]. unfold mbind, M_bind, bind at 1.
  assert (Hit : iteration name_folder name_file t s = (Ok Break, s')).
  { unfold iteration, read_chat, try_except, mbind, M_bind, bind, mret, M_ret, ret.
    rewrite (check_offline_false _ _ e0) by done.
    rewrite (check_presence_true _ _ el) by done.
    rewrite time_sleep_ok by done.
    unfold answer at 1. rewrite Eps.
    unfold modify at 1, get at 1. fold s0.
    rewrite (extract_time_live_missing _ _ e) by done.
    simpl. rewrite Edisk. exact R. }
  rewrite Hit. unfold get, mret, M_ret, ret.
  split; [reflexivity|]. split; [by rewrite D; destruct s|]. split; [exact Df|].
  split; [by rewrite F; destruct s|].
  rewrite Sv. subst s0. destruct s; unfold emit_to, Traced_State; simpl.
  rewrite !saves_app. simpl. lia.
Qed.

End TwitchMore.

(** The lists left by a tick that read two authors and one message. *)
Lemma append_unseen_dedups_witness :
  exists s' new,
    Twitch.append_unseen Scenario.after_unpaired_tick = (Py.Ok tt, s') /\
    Twitch.db_comment (Twitch.db s')
    = Twitch.db_comment (Twitch.db Scenario.after_unpaired_tick) ++ new /\
    (forall c, In c new <->
               In c (map snd (combine ["ann"; "bob"] ["hello"])) /\
               c ∉ Twitch.seen_comments Scenario.after_unpaired_tick) /\
    (forall c, c ∈ Twitch.seen_comments s' <->
               c ∈ Twitch.seen_comments Scenario.after_unpaired_tick \/
               In c (map snd (combine ["ann"; "bob"] ["hello"]))) /\
    Twitch.dedup_invariant s' /\
    (Twitch.same_lengths (Twitch.db Scenario.after_unpaired_tick) = true ->
     Twitch.same_lengths (Twitch.db s') = true).
Proof.
  apply (append_unseen_dedups ["ann"; "bob"] ["hello"] Scenario.after_unpaired_tick
           "2024-08-01 12:00:00" (Py.PyStr "1:02:03") (Py.PyStr "1:02:03"));
    try reflexivity.
  split; [constructor|]. intros c H. destruct H.
Defined.

(** The first tick of a run, reading one message, the live time 1:02:03 and 15 viewers. *)
Lemma chat_tick_flushes_over_threshold_witness :
  exists s' rws,
    Twitch.iteration "out" "chat.csv" Scenario.counted_tick
      (Twitch.initial_state ∅) = (Py.Ok Twitch.Next, s') /\
    Twitch.seen_comments s'
    = Twitch.seen_after (Twitch.seen_comments (Twitch.initial_state ∅))
        (combine ["ann"] ["hello"]) /\
    Twitch.DataFrame
      (Twitch.grown (Twitch.initial_state ∅)
         (Datetime.strftime (Twitch.clock Scenario.counted_tick))
         (Py.PyStr "1:02:03") (Py.PyStr "15") ["ann"] ["hello"]) = Py.Ok rws /\
    (if (1000 <? length (Twitch.db_date_scraping
           (Twitch.grown (Twitch.initial_state ∅)
              (Datetime.strftime
                 (Twitch.clock Scenario.counted_tick))
              (Py.PyStr "1:02:03") (Py.PyStr "15") ["ann"] ["hello"])))%nat
     then Twitch.db s' = Twitch.empty_db /\
          Twitch.files s'
          = <[PyString.path_join "out" "chat.csv" :=
                default [] (Twitch.files (Twitch.initial_state ∅)
                            !! PyString.path_join "out" "chat.csv") ++ rws]>
            (Twitch.files (Twitch.initial_state ∅)) /\
          Twitch.saves (Twitch.trace s')
          = S (Twitch.saves (Twitch.trace (Twitch.initial_state ∅)))
     else Twitch.db s'
          = Twitch.grown (Twitch.initial_state ∅)
              (Datetime.strftime
                 (Twitch.clock Scenario.counted_tick))
              (Py.PyStr "1:02:03") (Py.PyStr "15") ["ann"] ["hello"] /\
          Twitch.files s' = Twitch.files (Twitch.initial_state ∅) /\
          Twitch.saves (Twitch.trace s')
          = Twitch.saves (Twitch.trace (Twitch.initial_state ∅))).
Proof.
  apply (chat_tick_flushes_over_threshold "out" "chat.csv"
           Scenario.counted_tick ["ann"] ["hello"]
           (Twitch.initial_state ∅)
           (Selenium.text_element "1:02:03") "1:02:03" (Selenium.text_element "15") "15");
    try reflexivity.
  - unfold Twitch.reads_chat. simpl.
    split; [exists Py.NoSuchElementException; split; reflexivity|].
    split; [eexists; reflexivity|].
    split; [reflexivity|].
    split; [eexists; repeat split; reflexivity|].
    split; eexists; eexists; split; reflexivity.
  - simpl. lia.
Defined.

(** The row that this tick leaves in the buffer. *)
Example chat_tick_row :
  Twitch.db (snd (Twitch.iteration "out" "chat.csv"
                    Scenario.counted_tick
                    (Twitch.initial_state ∅)))
  = {| Twitch.db_date_scraping := ["2024-08-01 12:00:00"];
       Twitch.db_time_live := [Py.PyStr "1:02:03"];
       Twitch.db_views := [Py.PyStr "15"];
       Twitch.db_username := ["ann"];
       Twitch.db_comment := ["hello"] |}.
Proof. vm_compute. reflexivity. Qed.

(** The run of one tick that reads one message is a run of chat ticks. *)
Lemma one_chat_ticks : Forall Twitch.chat_tick Scenario.one_chat.
Proof.
  repeat constructor; simpl.
  - exists Py.NoSuchElementException; split; reflexivity.
  - eexists; reflexivity.
  - eexists; repeat split; reflexivity.
  - eexists; eexists; split; reflexivity.
  - eexists; eexists; split; reflexivity.
  - eexists; reflexivity.
Defined.

(** A run of one tick that reads one message. *)
Lemma chat_run_keeps_each_message_once_witness :
  exists s',
    Twitch.ExtractDataPageTwitch "out" "chat.csv" ∅ (map fst Scenario.one_chat) = (Py.Ok None, s') /\
    Twitch.saves (Twitch.trace s') <= 1 /\
    NoDup (Twitch.kept (PyString.path_join "out" "chat.csv") s') /\
    (forall c, In c (Twitch.kept (PyString.path_join "out" "chat.csv") s') <->
               exists o, In o Scenario.one_chat /\ Twitch.paired o /\ In c (snd (snd o))) /\
    (forall c, c ∈ Twitch.seen_comments s' <->
               In c (Twitch.kept (PyString.path_join "out" "chat.csv") s')).
Proof.
  apply (chat_run_keeps_each_message_once "out" "chat.csv" ∅ Scenario.one_chat).
  - exact one_chat_ticks.
  - reflexivity.
  - vm_compute. lia.
Defined.

(** The same run, for the bound. *)
Lemma chat_run_stays_within_threshold_witness :
  exists s',
    Twitch.ExtractDataPageTwitch "out" "chat.csv" ∅ (map fst Scenario.one_chat) = (Py.Ok None, s') /\
    length (Twitch.db_date_scraping (Twitch.db s')) <= 1000 /\
    1001 * Twitch.saves (Twitch.trace s') + length (Twitch.db_date_scraping (Twitch.db s'))
    <= Twitch.messages_shown Scenario.one_chat.
Proof.
  apply (chat_run_stays_within_threshold "out" "chat.csv" ∅ Scenario.one_chat).
  exact one_chat_ticks.
Defined.

(** The two buffers of one and of two rows, flushed in turn. *)
Lemma flush_all_adds_rows_witness :
  exists s',
    Twitch.flush_all [Scenario.buffer_A; Scenario.buffer_B] "out" "chat.csv" (Twitch.initial_state ∅)
    = (Py.Ok tt, s') /\
    length (default [] (Twitch.files s' !! PyString.path_join "out" "chat.csv"))
    = length (default [] (Twitch.files (Twitch.initial_state ∅)
                          !! PyString.path_join "out" "chat.csv"))
      + list_sum (map (fun data => length (Twitch.db_date_scraping data))
                      [Scenario.buffer_A; Scenario.buffer_B]) /\
    (forall p, p <> PyString.path_join "out" "chat.csv" ->
               Twitch.files s' !! p = Twitch.files (Twitch.initial_state ∅) !! p) /\
    Twitch.db s' = Twitch.db (Twitch.initial_state ∅) /\
    Twitch.seen_comments s' = Twitch.seen_comments (Twitch.initial_state ∅) /\
    Twitch.saves (Twitch.trace s')
    = Twitch.saves (Twitch.trace (Twitch.initial_state ∅))
      + length [Scenario.buffer_A; Scenario.buffer_B].
Proof.
  apply (flush_all_adds_rows [Scenario.buffer_A; Scenario.buffer_B] "out" "chat.csv"
           (Twitch.initial_state ∅)).
  repeat constructor.
Defined.

(** Ctrl-C after a tick that read two authors and one message. *)
Lemma interrupt_after_a_read_flushes_once_witness :
  exists s' rws,
    Twitch.while_true "out" "chat.csv" [Scenario.tick Scenario.interrupted_page]
      Scenario.after_unpaired_tick = (Py.Ok (Some (Twitch.db s')), s') /\
    Twitch.db s'
    = Twitch.grown Scenario.after_unpaired_tick "2024-08-01 12:00:00" (Py.PyStr "1:02:03") (Py.PyStr "1:02:03")
        ["ann"; "bob"] ["hello"] /\
    Twitch.DataFrame (Twitch.db s') = Py.Ok rws /\
    Twitch.files s'
    = <[PyString.path_join "out" "chat.csv" :=
          default [] (Twitch.files Scenario.after_unpaired_tick !! PyString.path_join "out" "chat.csv")
          ++ rws]> (Twitch.files Scenario.after_unpaired_tick) /\
    Twitch.saves (Twitch.trace s') = S (Twitch.saves (Twitch.trace Scenario.after_unpaired_tick)).
Proof.
  apply (interrupt_after_a_read_flushes_once "out" "chat.csv"
           (Scenario.tick Scenario.interrupted_page) [] ["ann"; "bob"] ["hello"]
           Scenario.after_unpaired_tick "2024-08-01 12:00:00" (Py.PyStr "1:02:03") (Py.PyStr "1:02:03"));
    reflexivity.
Defined.

(** The live time goes missing after such a tick. *)
Lemma missing_live_time_ends_the_run_witness :
  exists s' rws,
    Twitch.while_true "out" "chat.csv" [Scenario.tick Scenario.live_time_missing_page]
      Scenario.after_unpaired_tick = (Py.Ok (Some (Twitch.db s')), s') /\
    Twitch.db s'
    = Twitch.grown Scenario.after_unpaired_tick "2024-08-01 12:00:00" (Py.PyStr "1:02:03") (Py.PyStr "1:02:03")
        ["ann"; "bob"] ["hello"] /\
    Twitch.DataFrame (Twitch.db s') = Py.Ok rws /\
    Twitch.files s'
    = <[PyString.path_join "out" "chat.csv" :=
          default [] (Twitch.files Scenario.after_unpaired_tick !! PyString.path_join "out" "chat.csv")
          ++ rws]> (Twitch.files Scenario.after_unpaired_tick) /\
    Twitch.saves (Twitch.trace s') = S (Twitch.saves (Twitch.trace Scenario.after_unpaired_tick)).
Proof.
  apply (missing_live_time_ends_the_run "out" "chat.csv"
           (Scenario.tick Scenario.live_time_missing_page) [] ["ann"; "bob"] ["hello"]
           Scenario.after_unpaired_tick "2024-08-01 12:00:00" (Py.PyStr "1:02:03") (Py.PyStr "1:02:03")
           Py.NoSuchElementException); try reflexivity.
  - exists Py.NoSuchElementException. split; reflexivity.
  - eexists. reflexivity.
  - eexists. reflexivity.
Defined.

(** Two authors and one message are read, then Ctrl-C: the first author is written with the message. *)
Lemma skipped_tick_is_written_on_interrupt_witness :
  exists s' tl vw rws,
    Twitch.while_true "out" "chat.csv"
      [Scenario.unpaired_tick; Scenario.tick Scenario.interrupted_page]
      (Twitch.initial_state ∅) = (Py.Ok (Some (Twitch.db s')), s') /\
    Twitch.db s'
    = Twitch.grown (Twitch.initial_state ∅)
        (Datetime.strftime (Twitch.clock Scenario.unpaired_tick)) tl vw
        ["ann"; "bob"] ["hello"] /\
    Twitch.DataFrame (Twitch.db s') = Py.Ok rws /\
    Twitch.files s'
    = <[PyString.path_join "out" "chat.csv" :=
          default [] (Twitch.files (Twitch.initial_state ∅)
                      !! PyString.path_join "out" "chat.csv") ++ rws]>
      (Twitch.files (Twitch.initial_state ∅)) /\
    Twitch.saves (Twitch.trace s') = S (Twitch.saves (Twitch.trace (Twitch.initial_state ∅))).
Proof.
  apply (skipped_tick_is_written_on_interrupt "out" "chat.csv" Scenario.unpaired_tick
           (Scenario.tick Scenario.interrupted_page) [] ["ann"; "bob"] ["hello"]
           (Twitch.initial_state ∅)); try reflexivity.
  - unfold Twitch.reads_chat. simpl.
    split; [exists Py.NoSuchElementException; split; reflexivity|].
    split; [eexists; reflexivity|].
    split; [reflexivity|].
    split; [eexists; repeat split; reflexivity|].
    split; eexists; eexists; split; reflexivity.
  - left. simpl. lia.
  - intros _. eexists. reflexivity.
Defined.

(** The offline branch does the same: when the offline banner shows at
    the tick after the skipped one, the first author is written with the
    message, and the loop goes on. *)
Example offline_tick_writes_skipped_lists :
  fst (Twitch.iteration "out" "chat.csv" (Scenario.tick Scenario.offline_page)
         Scenario.after_unpaired_tick) = Py.Ok Twitch.Next /\
  Twitch.db_username
    (Twitch.db (snd (Twitch.iteration "out" "chat.csv" (Scenario.tick Scenario.offline_page)
                       Scenario.after_unpaired_tick))) = ["ann"] /\
  Twitch.db_comment
    (Twitch.db (snd (Twitch.iteration "out" "chat.csv" (Scenario.tick Scenario.offline_page)
                       Scenario.after_unpaired_tick))) = ["hello"] /\
  Twitch.saves
    (Twitch.trace (snd (Twitch.iteration "out" "chat.csv" (Scenario.tick Scenario.offline_page)
                          Scenario.after_unpaired_tick))) = 1.
Proof. repeat split; vm_compute; reflexivity. Qed.

(* --------------------------------------------------------------------- *)
(** ** The TikTok extraction and its exits                               *)
(* --------------------------------------------------------------------- *)

Section TiktokMore.
Import Py Selenium Inspect Tiktok.

Section Generic.
Context {St : Type} `{Traced St}.

(** A loop whose body always returns, without touching the state,
    appends one value per item. *)
Lemma for_append_total {A B} (step : A -> M St B) (g : A -> B) l : forall elements (s : St),
  (forall x s0, step x s0 = (Ok (g x), s0)) ->
  for_append step l elements s = (Ok (inl (elements ++ map g l)), s).
Proof.
  induction l as [|x l IH]; intros elements s Hstep; simpl.
  - by rewrite app_nil_r.
  - rewrite Hstep, IH by done. by rewrite <- app_assoc.
Qed.

(** X15. The TikTok [_extract_n_responses] returns one entry per
    comment container whenever the containers can be listed: the text of
    the replies button, or [0] when the button or its text cannot be
    read, whatever the error (the inner [except:] is bare).  It prints
    nothing and never reaches its own handlers. *)
Theorem extract_n_responses_one_per_container driver (f_back : frame) (s : St) containers :
  find_elements driver "//div[contains(@class, 'css-1i7ohvi-DivCommentItemContainer')]"
  = Ok containers ->
  _extract_n_responses driver f_back s = (Ok (map replies_of containers), s).
Proof.
  intros E. unfold _extract_n_responses, extract_list, attempt, mbind, M_bind, bind at 1, answer.
  rewrite E. unfold bind.
  rewrite (for_append_total _ replies_of); [reflexivity|].
  intros x s0. unfold try_except, replies_of, mbind, M_bind, bind, answer.
  destruct (sub_element x _) as [u|e]; [|reflexivity].
  destruct (text u); reflexivity.
Qed.

Lemma check_captcha_shown p (s : St) :
  captcha_shown p -> _check_captcha_exists (poll_page p) s = (Ok true, s).
Proof.
  intros [[el E] _]. unfold _check_captcha_exists, try_except, mbind, M_bind, bind, answer.
  rewrite E. reflexivity.
Qed.

Lemma check_captcha_gone p (s : St) :
  captcha_gone p -> _check_captcha_exists (poll_page p) s = (Ok false, s).
Proof.
  intros E. unfold _check_captcha_exists, try_except, mbind, M_bind, bind, answer.
  rewrite E. reflexivity.
Qed.

(** The loop of the wait: one line and one prompt per poll that shows
    the captcha. *)
Lemma captcha_still_run shown : forall (s : St),
  Forall captcha_shown shown ->
  captcha_still shown s
  = (Ok None,
     fold_left (fun s0 e => emit_to e s0)
       (concat (repeat [EvPrint "Captcha still present. Please close it.";
                        EvInput captcha_prompt] (length shown))) s) /\
  forall clear later, captcha_gone clear ->
    captcha_still (shown ++ clear :: later) s
    = (Ok (Some tt),
       fold_left (fun s0 e => emit_to e s0)
         (concat (repeat [EvPrint "Captcha still present. Please close it.";
                          EvInput captcha_prompt] (length shown))) s).
Proof.
  induction shown as [|p shown IH]; intros s Hall.
  - split; [reflexivity|]. intros clear later Hc. simpl.
    unfold mbind, M_bind, bind. rewrite check_captcha_gone by done. reflexivity.
  - apply Forall_cons in Hall as [Hp Hall]. pose proof Hp as [_ [line El]].
    destruct (IH (emit_to (EvInput captcha_prompt)
                    (emit_to (EvPrint "Captcha still present. Please close it.") s)) Hall)
      as [IH1 IH2].
    split; [|intros clear later Hc]; simpl; unfold mbind, M_bind, bind;
      rewrite check_captcha_shown by done;
      unfold print, emit, modify, answer; rewrite El; [exact IH1 | by apply IH2].
Qed.

(** X16. The captcha wait at the head of a scroll round.  While
    [_check_captcha_exists] finds the captcha, the wait prints a line and
    asks for Enter, once per poll: [Captcha detected] at the first poll,
    [Captcha still present] at each later one.  It ends at the first poll
    at which the lookup raises [NoSuchElementException], having asked as
    many times as the captcha was found, and does not look at later
    polls; as long as the captcha is found it does not end; and any
    other error of the first lookup leaves the wait as it is, with
    nothing printed. *)
Theorem captcha_wait_prompts_until_clear shown clear later (s : St) :
  Forall captcha_shown shown -> captcha_gone clear ->
  captcha_wait (shown ++ clear :: later) s
  = (Ok (Some tt),
     fold_left (fun s0 e => emit_to e s0) (captcha_wait_events (length shown)) s) /\
  captcha_wait shown s
  = (Ok None,
     fold_left (fun s0 e => emit_to e s0) (captcha_wait_events (length shown)) s) /\
  (forall p rest e,
     find_element (poll_page p) "//a[@id='verify-bar-close']" = Raise e ->
     is_NoSuchElement e = false ->
     captcha_wait (p :: rest) s = (Raise e, s)).
Proof.
  intros Hall Hc. split; [|split].
  - destruct shown as [|p shown]; simpl.
    + unfold mbind, M_bind, bind. rewrite check_captcha_gone by done. reflexivity.
    + apply Forall_cons in Hall as [Hp Hall]. pose proof Hp as [_ [line El]].
      unfold mbind, M_bind, bind. rewrite check_captcha_shown by done.
      unfold print, emit, modify, answer. rewrite El.
      by apply captcha_still_run.
  - destruct shown as [|p shown]; simpl; [reflexivity|].
    apply Forall_cons in Hall as [Hp Hall]. pose proof Hp as [_ [line El]].
    unfold mbind, M_bind, bind. rewrite check_captcha_shown by done.
    unfold print, emit, modify, answer. rewrite El.
    by apply captcha_still_run.
  - intros p rest e E He. simpl.
    unfold _check_captcha_exists, try_except, mbind, M_bind, bind, answer, except_not_found.
    rewrite E, He. reflexivity.
Qed.

(** What [collect] leaves under the other keys. *)
Lemma collect_other key k (job : M St pyval) results (s : St) results' s' :
  Tiktok.collect key job results s = (Ok results', s') -> key <> k ->
  results' !! k = results !! k.
Proof.
  unfold collect, attempt, mbind, M_bind, bind. intros Hc Hk.
  destruct (job s) as [[v|e] s1].
  - injection Hc as <- <-. by apply lookup_insert_ne.
  - destruct (is_Exception e); [|discriminate]. unfold print, emit, modify in Hc.
    by injection Hc as <- <-.
Qed.

Lemma collect_url_post driver (s : St) results' s' :
  Tiktok.collect "url_post" (_extract_url_post driver worker_frame) ∅ s = (Ok results', s') ->
  results' !! "url_post" = None \/ exists u, results' !! "url_post" = Some (PyStr u).
Proof.
  unfold collect, attempt, mbind, M_bind, bind. intros Hc.
  destruct (_extract_url_post driver worker_frame s) as [[v|e] s1] eqn:Ej.
  - injection Hc as <- <-. right. rewrite lookup_insert_eq.
    unfold _extract_url_post, try_except, mbind, M_bind, bind, answer in Ej.
    destruct (current_url driver) as [url|e].
    + injection Ej as <- <-. eauto.
    + unfold except_exception in Ej. destruct (is_Exception e); [|discriminate].
      unfold print_error, mbind, M_bind, bind in Ej.
      destruct (caller_docstring _ _ s) as [[doc|e'] s2]; [|discriminate].
      unfold print, emit, modify, mret, M_ret, ret in Ej. injection Ej as <- <-. eauto.
  - destruct (is_Exception e); [|discriminate]. unfold print, emit, modify in Hc.
    injection Hc as <- <-. left. apply lookup_empty.
Qed.

(** The record that [extract_all_data] returns holds a string as the
    address of the post. *)
Lemma extract_all_data_url_post driver (s : St) d s' :
  extract_all_data driver s = (Ok d, s') -> exists u, url_post d = PyStr u.
Proof.
  unfold extract_all_data, mbind, M_bind. unfold bind at 1.
  destruct (collect "url_post" _ ∅ s) as [[r1|?] s1] eqn:E1; [|discriminate].
  unfold bind at 1.
  destruct (collect "usernames" _ r1 s1) as [[r2|?] s2] eqn:E2; [|discriminate].
  unfold bind at 1.
  destruct (collect "comments" _ r2 s2) as [[r3|?] s3] eqn:E3; [|discriminate].
  unfold bind at 1.
  destruct (collect "likes" _ r3 s3) as [[r4|?] s4] eqn:E4; [|discriminate].
  unfold bind at 1.
  destruct (collect "dates" _ r4 s4) as [[r5|?] s5] eqn:E5; [|discriminate].
  unfold bind at 1.
  destruct (collect "responses" _ r5 s5) as [[r6|?] s6] eqn:E6; [|discriminate].
  intros Hd.
  assert (Hu : r6 !! "url_post" = r1 !! "url_post").
  { rewrite (collect_other _ "url_post" _ _ _ _ _ E6) by done.
    rewrite (collect_other _ "url_post" _ _ _ _ _ E5) by done.
    rewrite (collect_other _ "url_post" _ _ _ _ _ E4) by done.
    rewrite (collect_other _ "url_post" _ _ _ _ _ E3) by done.
    by rewrite (collect_other _ "url_post" _ _ _ _ _ E2). }
  assert (Hd' : url_post d = get_or r6 "url_post" (PyStr "")).
  { unfold bind, print, emit, modify, mret, M_ret, ret in Hd.
    destruct (forallb _ _); injection Hd as <- _; reflexivity. }
  rewrite Hd'. unfold get_or. rewrite Hu.
  destruct (collect_url_post driver s r1 s1 E1) as [-> | [u ->]]; simpl; eauto.
Qed.

(** X17. After [extract_all_data] the condition that guards the prompt
    of the TikTok loop never raises: the record always holds a string as
    the address of the post, so that [all(...)] is applied to a string or
    a list; its value is the truth of all dates when the five fields are
    non-empty, and true otherwise. *)
Theorem prompt_guard_after_extraction driver (s : St) :
  match extract_all_data driver s with
  | (Ok d, _) =>
      completeness_flag (Some d)
      = Ok (if mandatory_present d then forallb truthy (date (comment d)) else true)
  | (Raise e, _) => e = KeyboardInterrupt
  end.
Proof.
  pose proof (extract_all_data_stamp driver s) as Hs.
  destruct (extract_all_data driver s) as [[d|e] s'] eqn:E; [|exact Hs].
  destruct (extract_all_data_url_post driver s d s' E) as [u Hu].
  by apply (completeness_flag_spec d u).
Qed.

End Generic.


(** [_save_to_json] on a disk that takes the write, and on one that
    refuses it. *)
Lemma save_to_json_written disk d name_folder name_file (s : State) :
  disk (PyString.path_join name_folder name_file) = Ok tt ->
  _save_to_json disk d name_folder name_file s =
  (Ok tt,
   emit_to (EvPrint ("OK Data saved successfully in "
                     +:+ PyString.path_join name_folder name_file +:+ "."))
     (emit_to (EvSave (PyString.path_join name_folder name_file))
        (set_files (insert (PyString.path_join name_folder name_file) d) s))).
Proof.
  intros E. unfold _save_to_json, try_except, mbind, M_bind, bind, answer. rewrite E.
  reflexivity.
Qed.

Lemma save_to_json_refused disk d name_folder name_file (s : State) e :
  disk (PyString.path_join name_folder name_file) = Raise e -> is_Exception e = true ->
  _save_to_json disk d name_folder name_file s =
  (Ok tt,
   emit_to (EvPrint ("ERROR An error occurred while saving the dictionary: "
                     +:+ str_of_exn e)) s).
Proof.
  intros E He. unfold _save_to_json, try_except, mbind, M_bind, bind, answer. rewrite E.
  unfold except_exception. rewrite He. reflexivity.
Qed.

Lemma finish_run disk name_folder name_file (s : State) :
  exists s0,
    finish disk name_folder name_file s
    = _save_to_json disk (data s) name_folder name_file s0 /\
    data s0 = data s /\ files s0 = files s /\
    List.filter (fun e => match e with EvSave _ => true | _ => false end) (trace s0)
    = List.filter (fun e => match e with EvSave _ => true | _ => false end) (trace s).
Proof.
  eexists. split; [reflexivity|]. destruct s; simpl.
  repeat split. rewrite !List.filter_app. simpl. by rewrite !app_nil_r.
Qed.

(** X18. When the TikTok loop has been left, by [break], by [return] or
    by an exception, the outer [finally] has run and its [_save_to_json]
    has not changed the outcome: whether the disk takes the write or
    refuses with an [Exception], which is swallowed, the outcome of the
    function is that of the loop and [data] is unchanged; and when the
    disk takes the write, the target file holds the last [data]. *)
Theorem ExtractDataPageTiktok_saves_on_leaving disk name_folder name_file on_disk ticks :
  fst (while_true disk ticks (initial_state on_disk)) <> Ok None ->
  (exists e, disk (PyString.path_join name_folder name_file) = Raise e /\
             is_Exception e = true) \/
  disk (PyString.path_join name_folder name_file) = Ok tt ->
  fst (ExtractDataPageTiktok disk name_folder name_file on_disk ticks)
  = fst (while_true disk ticks (initial_state on_disk)) /\
  data (snd (ExtractDataPageTiktok disk name_folder name_file on_disk ticks))
  = data (snd (while_true disk ticks (initial_state on_disk))) /\
  (disk (PyString.path_join name_folder name_file) = Ok tt ->
   files (snd (ExtractDataPageTiktok disk name_folder name_file on_disk ticks))
   = <[PyString.path_join name_folder name_file :=
         data (snd (while_true disk ticks (initial_state on_disk)))]>
     (files (snd (while_true disk ticks (initial_state on_disk))))).
Proof.
  intros Hleft Hdisk. unfold ExtractDataPageTiktok.
  destruct (while_true disk ticks (initial_state on_disk)) as [r s] eqn:Ew.
  simpl in Hleft |- *.
  destruct (finish_run disk name_folder name_file s) as (s0 & Ef & Hd & Hf & _).
  assert (Hfin : exists s', finish disk name_folder name_file s = (Ok tt, s') /\
            data s' = data s /\
            (disk (PyString.path_join name_folder name_file) = Ok tt ->
             files s' = <[PyString.path_join name_folder name_file := data s]> (files s))).
  { rewrite Ef. destruct Hdisk as [(e & Ed & He) | Ed].
    - rewrite (save_to_json_refused _ _ _ _ _ e Ed He). eexists. split; [reflexivity|].
      split; [by destruct s0|]. rewrite Ed. discriminate.
    - rewrite (save_to_json_written _ _ _ _ _ Ed). eexists. split; [reflexivity|].
      destruct s0; simpl in *. split; [done|]. intros _. by rewrite Hf. }
  destruct Hfin as (s' & Efin & Hd' & Hf').
  destruct r as [[ret|]|e]; [| by destruct Hleft |]; rewrite Efin; simpl; auto.
Qed.

Lemma scroll_failure_run disk t rest (s : State) e :
  scroll_phase t = Raise e -> is_Exception e = true ->
  while_true disk (t :: rest) s
  = (Ok (Some (ReturnData (data s))),
     emit_to (EvPrint "Scroll operation reset.")
       (emit_to (EvPrint ("An error occurred: " +:+ str_of_exn e)) s)).
Proof.
  intros E He. cbn [while_true]. unfold mbind, M_bind, bind at 1.
  unfold iteration, try_finally, try_except, body, mbind, M_bind, bind at 1, answer.
  rewrite E. unfold except_exception. rewrite He.
  unfold print, emit, modify, bind, get, mret, M_ret, ret. destruct s; reflexivity.
Qed.

(** X19. A scroll phase that fails with an [Exception] ends the TikTok
    loop at once: the function returns the [data] of the iteration
    before, no extraction is made, no file is written by the iteration
    and the counter is not raised.  When this happens in the first
    iteration the function returns the empty [data], and that is what the
    outer [finally] writes to the target file. *)
Theorem scroll_failure_returns_data_so_far disk name_folder name_file on_disk t rest e :
  scroll_phase t = Raise e -> is_Exception e = true ->
  disk (PyString.path_join name_folder name_file) = Ok tt ->
  (forall s : State,
     fst (while_true disk (t :: rest) s) = Ok (Some (ReturnData (data s))) /\
     data (snd (while_true disk (t :: rest) s)) = data s /\
     files (snd (while_true disk (t :: rest) s)) = files s /\
     iteration_count (snd (while_true disk (t :: rest) s)) = iteration_count s) /\
  fst (ExtractDataPageTiktok disk name_folder name_file on_disk (t :: rest))
  = Ok (Some (ReturnData None)) /\
  files (snd (ExtractDataPageTiktok disk name_folder name_file on_disk (t :: rest)))
  = <[PyString.path_join name_folder name_file := None]> on_disk.
Proof.
  intros E He Ed. split.
  - intros s. rewrite (scroll_failure_run disk t rest s e E He). destruct s; auto.
  - unfold ExtractDataPageTiktok.
    rewrite (scroll_failure_run disk t rest _ e E He).
    destruct (finish_run disk name_folder name_file
                (emit_to (EvPrint "Scroll operation reset.")
                   (emit_to (EvPrint ("An error occurred: " +:+ str_of_exn e))
                      (initial_state on_disk)))) as (s0 & Ef & Hd & Hf & _).
    rewrite Ef, (save_to_json_written _ _ _ _ _ Ed).
    cbn [fst snd files data emit_to Traced_State set_files initial_state] in *.
    by rewrite Hf.
Qed.

End TiktokMore.

(** The page with three comment containers. *)
Lemma extract_n_responses_one_per_container_witness :
  Tiktok._extract_n_responses (Scenario.full_page "x") Tiktok.worker_frame
    ([] : list Py.event)
  = (Py.Ok (map Tiktok.replies_of
              [Scenario.container "x" "attr"; Scenario.container "x" "attr";
               Scenario.container "x" "attr"]), []).
Proof.
  apply (extract_n_responses_one_per_container (Scenario.full_page "x") Tiktok.worker_frame
           ([] : list Py.event)).
  reflexivity.
Defined.

(** The run that ends with [exit] at the prompt. *)
Lemma ExtractDataPageTiktok_saves_on_leaving_witness :
  fst (Tiktok.ExtractDataPageTiktok Scenario.good_disk "data" "video.json" ∅
         [Scenario.tiktok_tick (Scenario.full_page "x") "exit"])
  = fst (Tiktok.while_true Scenario.good_disk
           [Scenario.tiktok_tick (Scenario.full_page "x") "exit"] (Tiktok.initial_state ∅)) /\
  Tiktok.data (snd (Tiktok.ExtractDataPageTiktok Scenario.good_disk "data" "video.json" ∅
                      [Scenario.tiktok_tick (Scenario.full_page "x") "exit"]))
  = Tiktok.data (snd (Tiktok.while_true Scenario.good_disk
                        [Scenario.tiktok_tick (Scenario.full_page "x") "exit"]
                        (Tiktok.initial_state ∅))) /\
  (Scenario.good_disk (PyString.path_join "data" "video.json") = Py.Ok tt ->
   Tiktok.files (snd (Tiktok.ExtractDataPageTiktok Scenario.good_disk "data" "video.json" ∅
                        [Scenario.tiktok_tick (Scenario.full_page "x") "exit"]))
   = <[PyString.path_join "data" "video.json" :=
         Tiktok.data (snd (Tiktok.while_true Scenario.good_disk
                             [Scenario.tiktok_tick (Scenario.full_page "x") "exit"]
                             (Tiktok.initial_state ∅)))]>
     (Tiktok.files (snd (Tiktok.while_true Scenario.good_disk
                           [Scenario.tiktok_tick (Scenario.full_page "x") "exit"]
                           (Tiktok.initial_state ∅))))).
Proof.
  apply (ExtractDataPageTiktok_saves_on_leaving Scenario.good_disk "data" "video.json" ∅
           [Scenario.tiktok_tick (Scenario.full_page "x") "exit"]).
  - vm_compute. discriminate.
  - right. reflexivity.
Defined.

(** The browser fails during the first scroll phase. *)
Lemma scroll_failure_returns_data_so_far_witness :
  (forall s : Tiktok.State,
     fst (Tiktok.while_true Scenario.good_disk [Scenario.stuck_tick] s)
     = Py.Ok (Some (Tiktok.ReturnData (Tiktok.data s))) /\
     Tiktok.data (snd (Tiktok.while_true Scenario.good_disk [Scenario.stuck_tick] s)) = Tiktok.data s /\
     Tiktok.files (snd (Tiktok.while_true Scenario.good_disk [Scenario.stuck_tick] s))
     = Tiktok.files s /\
     Tiktok.iteration_count (snd (Tiktok.while_true Scenario.good_disk [Scenario.stuck_tick] s))
     = Tiktok.iteration_count s) /\
  fst (Tiktok.ExtractDataPageTiktok Scenario.good_disk "data" "video.json" ∅ [Scenario.stuck_tick])
  = Py.Ok (Some (Tiktok.ReturnData None)) /\
  Tiktok.files (snd (Tiktok.ExtractDataPageTiktok Scenario.good_disk "data" "video.json" ∅
                       [Scenario.stuck_tick]))
  = <[PyString.path_join "data" "video.json" := None]> ∅.
Proof.
  apply (scroll_failure_returns_data_so_far Scenario.good_disk "data" "video.json" ∅
           Scenario.stuck_tick [] Py.WebDriverException); reflexivity.
Defined.

(** The captcha shows at two polls and is gone at the third; a fourth poll is not looked at. *)
Lemma captcha_wait_prompts_until_clear_witness :
  Tiktok.captcha_wait ([Scenario.captcha_poll; Scenario.captcha_poll] ++ Scenario.clear_poll :: [Scenario.captcha_poll])
    ([] : list Py.event)
  = (Py.Ok (Some tt),
     fold_left (fun s0 e => Py.emit_to e s0)
       (Tiktok.captcha_wait_events (length [Scenario.captcha_poll; Scenario.captcha_poll])) []) /\
  Tiktok.captcha_wait [Scenario.captcha_poll; Scenario.captcha_poll] ([] : list Py.event)
  = (Py.Ok None,
     fold_left (fun s0 e => Py.emit_to e s0)
       (Tiktok.captcha_wait_events (length [Scenario.captcha_poll; Scenario.captcha_poll])) []) /\
  (forall p rest e,
     Selenium.find_element (Tiktok.poll_page p) "//a[@id='verify-bar-close']" = Py.Raise e ->
     Py.is_NoSuchElement e = false ->
     Tiktok.captcha_wait (p :: rest) ([] : list Py.event) = (Py.Raise e, [])).
Proof.
  apply (captcha_wait_prompts_until_clear [Scenario.captcha_poll; Scenario.captcha_poll] Scenario.clear_poll
           [Scenario.captcha_poll] ([] : list Py.event)).
  - repeat constructor; eexists; reflexivity.
  - reflexivity.
Defined.

(** Two prompts were shown in that run. *)
Example captcha_wait_two_prompts :
  snd (Tiktok.captcha_wait ([Scenario.captcha_poll; Scenario.captcha_poll] ++ Scenario.clear_poll :: [Scenario.captcha_poll])
         ([] : list Py.event))
  = [Py.EvPrint "Captcha detected. Please close the captcha window manually.";
     Py.EvInput Tiktok.captcha_prompt;
     Py.EvPrint "Captcha still present. Please close it.";
     Py.EvInput Tiktok.captcha_prompt].
Proof. vm_compute. reflexivity. Qed.
